(** * docker-volume-vsphere: the ESX-side volume service

    A shallow embedding of [esx_service/vmdk_ops.py] and
    [esx_service/volume_kv.py], and the properties of the service that
    follow from it: option validation, the side-car metadata store, the
    placement of a disk on a SCSI controller, attach and detach, volume
    creation, the request dispatcher and the receive loop.

    Conventions.
    - Python text is a Rocq [string]; its characters are the code points
      0..255.  The character tests are those of Python 3 on these code
      points: [str.isdigit] takes the superscripts 178, 179 and 185 beside
      the ten decimal digits, [str.lower] lowers the Latin-1 capitals, the
      class [\w] holds the Latin-1 letters and numerals, and [str.split]
      also breaks at 133 and 160.
    - A Python function that returns [err(...)] or a value returns a
      [response]; one that can raise returns an [exc].
    - The hypervisor, the shell commands, the file system outside the
      metadata files and the modules of the repository that are not part of
      these two files ([disk_ops], [vmdk_utils], [vsan_info], [vsan_policy])
      are fields of the record [env]. *)

From stdpp Require Import gmap strings.
From Stdlib Require Import ZArith List String Ascii Bool Lia Sorted.
From Stdlib Require Import Decimal DecimalFacts DecimalPos DecimalZ DecimalString.
Import ListNotations.
#[local] Set Warnings "-register-all".
Local Open Scope string_scope.
Local Open Scope Z_scope.

(** ** Python strings *)

Module PyStr.

Definition chars (s : string) : list ascii := list_ascii_of_string s.
Definition str (l : list ascii) : string := string_of_list_ascii l.

Definition nl : string := String (ascii_of_nat 10) EmptyString.

Definition len (s : string) : Z := Z.of_nat (String.length s).

(** [lo <= ord(c) <= hi] *)
Definition between (lo hi : nat) (c : ascii) : bool :=
  let n := nat_of_ascii c in (lo <=? n)%nat && (n <=? hi)%nat.

(** The ten decimal digits [0-9]. *)
Definition is_digit (c : ascii) : bool := between 48 57 c.

(** [c.isdigit()]: the decimal digits and the superscripts two, three and
    one (178, 179, 185). *)
Definition is_unicode_digit (c : ascii) : bool :=
  is_digit c || between 178 179 c || between 185 185 c.

(** The characters [c.lower()] changes: [A-Z] and the Latin-1 capitals
    192..214 and 216..222; each moves up by 32. *)
Definition is_upper (c : ascii) : bool :=
  between 65 90 c || between 192 214 c || between 216 222 c.

Definition lower_char (c : ascii) : ascii :=
  if is_upper c then ascii_of_nat (nat_of_ascii c + 32) else c.

(** [s.lower()] *)
Definition lower (s : string) : string := str (List.map lower_char (chars s)).

(** [c.isalnum()]: letters and numerals, those of Latin-1 included (the
    ordinal indicators 170 and 186, the superscripts, the micro sign 181,
    the fractions 188..190, the letters 192..255 but the signs 215 and
    247). *)
Definition is_alnum (c : ascii) : bool :=
  between 48 57 c || between 65 90 c || between 97 122 c
  || between 170 170 c || between 178 179 c || between 181 181 c
  || between 185 186 c || between 188 190 c
  || between 192 214 c || between 216 246 c || between 248 255 c.

(** [s.isdigit()]: every character is a digit and there is at least one. *)
Definition isdigit (s : string) : bool :=
  match chars s with
  | [] => false
  | l => forallb is_unicode_digit l
  end.

(** [s[:-k]] for [k > 0]: all but the last [k] characters. *)
Definition drop_last (k : nat) (s : string) : string :=
  str (firstn (String.length s - k) (chars s)).

(** [s[-k:]] for [k > 0]: the last [k] characters (all of [s] when shorter). *)
Definition take_last (k : nat) (s : string) : string :=
  str (skipn (String.length s - k) (chars s)).

(** [s.endswith(suf)] *)
Definition endswith (s suf : string) : bool :=
  (String.length suf <=? String.length s)%nat &&
  String.eqb (take_last (String.length suf) s) suf.

(** [s.endswith((a, b, ...))] *)
Definition endswith_any (s : string) (sufs : list string) : bool :=
  existsb (endswith s) sufs.

(** [s.startswith(p)] *)
Definition startswith (s p : string) : bool := String.prefix p s.

(** [x in l] for a list of strings *)
Definition mem (x : string) (l : list string) : bool :=
  existsb (String.eqb x) l.

(** [sep.join(l)] *)
Fixpoint join (sep : string) (l : list string) : string :=
  match l with
  | [] => ""
  | [x] => x
  | x :: rest => x ++ sep ++ join sep rest
  end.

End PyStr.

(** ** Results *)

(** The exceptions the modelled code can let escape. *)
Inductive pyexc :=
| KeyError | IndexError | TypeError | AttributeError | ValueError
| OSError                   (* a file that cannot be opened *)
| GiveUp (msg : string).    (* raise Exception(msg) *)

Inductive exc (A : Type) :=
| Ret (a : A)
| Raise (e : pyexc).
Arguments Ret {A} a.
Arguments Raise {A} e.

(** ** Validation of the creation options *)

Module Validation.
Import PyStr.

(** [class ValidationError(Exception)], carrying [msg]. *)
Inductive ValidationError := mkValidationError (msg : string).

Definition size_units : list string := ["kb"; "mb"; "gb"; "tb"].

Definition size_msg : string :=
  "Invalid format for size. " ++ nl ++
  "Valid sizes must be of form X[kKmMgGtT]b where X is an" ++
  "integer. Default = 100mb".

(** [validate_size(size)]: raises unless the lowered text ends in a unit and
    everything before the last two characters is digits. *)
Definition validate_size (size : string) : ValidationError + unit :=
  if negb (endswith_any (lower size) size_units)
     || negb (isdigit (drop_last 2 size))
  then inl (mkValidationError size_msg)
  else inr tt.

Definition accepts_size (size : string) : bool :=
  match validate_size size with inr _ => true | inl _ => false end.

(** The reading of the specification: a positive integer, then a unit. *)
Definition digit_val (c : ascii) : Z := Z.of_nat (nat_of_ascii c) - 48.

Definition numeral_value (l : list ascii) : Z :=
  fold_left (fun acc c => 10 * acc + digit_val c) l 0.

Definition is_positive_integer (s : string) : bool :=
  negb (String.eqb s "") && forallb is_digit (chars s)
  && (0 <? numeral_value (chars s)).

Definition spec_size (size : string) : bool :=
  is_positive_integer (drop_last 2 size)
  && mem (lower (take_last 2 size)) size_units.

End Validation.

(** ** JSON values and Python's [json] module *)

Module Json.
Import PyStr.
Local Open Scope list_scope.

(** The values [json.loads] builds; [JNull] is Python's [None].  A [dict]
    is kept as the list of its items in insertion order, with no key twice.
    A float is kept as the literal it was read from (Python holds the
    nearest double). *)
Inductive json :=
| JNull
| JBool (b : bool)
| JInt (n : Z)
| JFloat (lit : string)
| JStr (s : string)
| JArr (l : list json)
| JObj (items : list (string * json)).

Definition dict := list (string * json).

(** *** Python dict operations on the item list *)

(** [k in d] *)
Definition dict_mem (k : string) (d : dict) : bool :=
  existsb (fun kv => String.eqb (fst kv) k) d.

(** [d[k]], [None] standing for KeyError *)
Fixpoint dict_get (k : string) (d : dict) : option json :=
  match d with
  | [] => None
  | (k', v) :: rest => if String.eqb k' k then Some v else dict_get k rest
  end.

(** [d[k] = v]: a present key keeps its place, a new one goes last. *)
Fixpoint dict_set (k : string) (v : json) (d : dict) : dict :=
  match d with
  | [] => [(k, v)]
  | (k', v') :: rest =>
      if String.eqb k' k then (k', v) :: rest else (k', v') :: dict_set k v rest
  end.

(** [del d[k]], [None] standing for KeyError *)
Fixpoint dict_del (k : string) (d : dict) : option dict :=
  match d with
  | [] => None
  | (k', v') :: rest =>
      if String.eqb k' k then Some rest
      else match dict_del k rest with
           | Some rest' => Some ((k', v') :: rest')
           | None => None
           end
  end.

(** [dict(pairs)] *)
Definition dict_of_pairs (pairs : list (string * json)) : dict :=
  fold_left (fun d kv => dict_set (fst kv) (snd kv) d) pairs [].

(** Truth value of a float literal: zero when its mantissa has only zeros. *)
Definition float_lit_nonzero (lit : string) : bool :=
  let isexp c := Ascii.eqb c "e" || Ascii.eqb c "E" in
  let fix mantissa (l : list ascii) : list ascii :=
    match l with
    | [] => []
    | c :: r => if isexp c then [] else c :: mantissa r
    end in
  let ds := List.filter is_digit (mantissa (chars lit)) in
  match ds with
  | [] => true
  | _ => negb (forallb (Ascii.eqb "0") ds)
  end.

(** [bool(v)] *)
Definition truthy (v : json) : bool :=
  match v with
  | JNull => false
  | JBool b => b
  | JInt n => negb (n =? 0)
  | JFloat lit => float_lit_nonzero lit
  | JStr s => negb (String.eqb s "")
  | JArr l => match l with [] => false | _ => true end
  | JObj d => match d with [] => false | _ => true end
  end.

(** The values whose dump reads back as the same value: no float inside,
    and no key twice in a [dict] (which a Python [dict] never has). *)
Fixpoint distinct (l : list string) : bool :=
  match l with
  | [] => true
  | x :: r => negb (mem x r) && distinct r
  end.

Fixpoint well_formed (v : json) : bool :=
  match v with
  | JFloat _ => false
  | JArr l => forallb well_formed l
  | JObj items =>
      distinct (List.map fst items)
      && forallb (fun kv => well_formed (snd kv)) items
  | _ => true
  end.

(** *** [json.dumps] with its defaults *)

Definition dq : ascii := ascii_of_nat 34.   (* the double quote *)
Definition bs : ascii := ascii_of_nat 92.   (* the backslash *)

Definition hex_digit (n : nat) : ascii :=
  nth n (chars "0123456789abcdef") "0"%char.

(** One character of a string literal, [ensure_ascii] on. *)
Definition escape_char (c : ascii) : list ascii :=
  let n := nat_of_ascii c in
  if (n =? 34)%nat then [bs; dq]
  else if (n =? 92)%nat then [bs; bs]
  else if (n =? 10)%nat then [bs; "n"%char]
  else if (n =? 13)%nat then [bs; "r"%char]
  else if (n =? 9)%nat then [bs; "t"%char]
  else if (n =? 8)%nat then [bs; "b"%char]
  else if (n =? 12)%nat then [bs; "f"%char]
  else if (32 <=? n)%nat && (n <=? 126)%nat then [c]
  else [bs; "u"%char; "0"%char; "0"%char;
        hex_digit (n / 16); hex_digit (n mod 16)].

Definition quote (s : string) : list ascii :=
  dq :: flat_map escape_char (chars s) ++ [dq].

(** [str(n)] for an int *)
Definition dec (n : Z) : list ascii :=
  chars (DecimalString.NilZero.string_of_int (Z.to_int n)).

Fixpoint sep_by (sep : list ascii) (l : list (list ascii)) : list ascii :=
  match l with
  | [] => []
  | [x] => x
  | x :: rest => x ++ sep ++ sep_by sep rest
  end.

Definition item_sep : list ascii := chars ", ".
Definition key_sep : list ascii := chars ": ".

Fixpoint encode (v : json) : list ascii :=
  match v with
  | JNull => chars "null"
  | JBool true => chars "true"
  | JBool false => chars "false"
  | JInt n => dec n
  | JFloat lit => chars lit
  | JStr s => quote s
  | JArr l => "["%char :: sep_by item_sep (List.map encode l) ++ ["]"%char]
  | JObj items =>
      "{"%char ::
      sep_by item_sep
        (List.map (fun kv => quote (fst kv) ++ key_sep ++ encode (snd kv)) items)
      ++ ["}"%char]
  end.

Definition dumps (v : json) : string := str (encode v).

(** *** [json.loads] with its defaults (strict) *)

Definition is_ws (c : ascii) : bool :=
  let n := nat_of_ascii c in
  (n =? 32)%nat || (n =? 9)%nat || (n =? 10)%nat || (n =? 13)%nat.

Fixpoint skip_ws (l : list ascii) : list ascii :=
  match l with
  | c :: r => if is_ws c then skip_ws r else l
  | [] => []
  end.

Definition hex_val (c : ascii) : option nat :=
  let n := nat_of_ascii c in
  if (48 <=? n)%nat && (n <=? 57)%nat then Some (n - 48)%nat
  else if (97 <=? n)%nat && (n <=? 102)%nat then Some (n - 87)%nat
  else if (65 <=? n)%nat && (n <=? 70)%nat then Some (n - 55)%nat
  else None.

Definition hex4 (a b c d : ascii) : option nat :=
  match hex_val a, hex_val b, hex_val c, hex_val d with
  | Some x, Some y, Some z, Some w => Some (((x * 16 + y) * 16 + z) * 16 + w)%nat
  | _, _, _, _ => None
  end.

(** The character a one-letter escape stands for. *)
Definition unescape (e : ascii) : option ascii :=
  let n := nat_of_ascii e in
  if (n =? 34)%nat then Some dq
  else if (n =? 92)%nat then Some bs
  else if (n =? 47)%nat then Some "/"%char
  else if (n =? 98)%nat then Some (ascii_of_nat 8)
  else if (n =? 102)%nat then Some (ascii_of_nat 12)
  else if (n =? 110)%nat then Some (ascii_of_nat 10)
  else if (n =? 114)%nat then Some (ascii_of_nat 13)
  else if (n =? 116)%nat then Some (ascii_of_nat 9)
  else None.

Definition opt_cons {A B} (x : A) (r : option (list A * B)) : option (list A * B) :=
  match r with
  | Some (xs, rest) => Some (x :: xs, rest)
  | None => None
  end.

(** The body of a string literal, after the opening quote.  A [u] escape
    above [00ff] names a character outside the code points modelled here
    and is reported like a malformed one. *)
Fixpoint scan_string (l : list ascii) : option (list ascii * list ascii) :=
  match l with
  | [] => None
  | c :: rest =>
      if Ascii.eqb c dq then Some ([], rest)
      else if Ascii.eqb c bs then
        match rest with
        | [] => None
        | e :: rest1 =>
            if Ascii.eqb e "u" then
              match rest1 with
              | h1 :: h2 :: h3 :: h4 :: rest2 =>
                  match hex4 h1 h2 h3 h4 with
                  | Some n =>
                      if (n <? 256)%nat
                      then opt_cons (ascii_of_nat n) (scan_string rest2)
                      else None
                  | None => None
                  end
              | _ => None
              end
            else
              match unescape e with
              | Some ch => opt_cons ch (scan_string rest1)
              | None => None
              end
        end
      else if (nat_of_ascii c <? 32)%nat then None
      else opt_cons c (scan_string rest)
  end.

Fixpoint span_digits (l : list ascii) : list ascii * list ascii :=
  match l with
  | c :: r =>
      if is_digit c then let (ds, rest) := span_digits r in (c :: ds, rest)
      else ([], l)
  | [] => ([], [])
  end.

(** The integer part of a number: [0], or a nonzero digit and more digits. *)
Definition scan_int_part (l : list ascii) : option (list ascii * list ascii) :=
  match l with
  | c :: r =>
      if Ascii.eqb c "0" then Some ([c], r)
      else if is_digit c then let (ds, rest) := span_digits r in Some (c :: ds, rest)
      else None
  | [] => None
  end.

(** A fraction: a dot and at least one digit, or nothing. *)
Definition scan_frac (l : list ascii) : list ascii * list ascii :=
  match l with
  | dot :: d :: r =>
      if Ascii.eqb dot "." && is_digit d
      then let (ds, rest) := span_digits r in (dot :: d :: ds, rest)
      else ([], l)
  | _ => ([], l)
  end.

(** An exponent: [e] or [E], an optional sign and at least one digit, or
    nothing. *)
Definition scan_exp (l : list ascii) : list ascii * list ascii :=
  match l with
  | e :: r =>
      if Ascii.eqb e "e" || Ascii.eqb e "E" then
        let (sign, r1) :=
          match r with
          | s :: r' => if Ascii.eqb s "-" || Ascii.eqb s "+" then ([s], r') else ([], r)
          | [] => ([], r)
          end in
        match span_digits r1 with
        | ([], _) => ([], l)
        | (ds, rest) => (e :: sign ++ ds, rest)
        end
      else ([], l)
  | [] => ([], l)
  end.

Definition int_of_digits (neg : bool) (ds : list ascii) : Z :=
  let n := match DecimalString.NilEmpty.uint_of_string (str ds) with
           | Some u => Z.of_uint u
           | None => 0
           end in
  if neg then - n else n.

Definition scan_number (l : list ascii) : option (json * list ascii) :=
  let (neg, l1) :=
    match l with
    | c :: r => if Ascii.eqb c "-" then (true, r) else (false, l)
    | [] => (false, l)
    end in
  match scan_int_part l1 with
  | None => None
  | Some (ip, r1) =>
      let (fp, r2) := scan_frac r1 in
      let (ep, r3) := scan_exp r2 in
      match fp, ep with
      | [], [] => Some (JInt (int_of_digits neg ip), r3)
      | _, _ =>
          Some (JFloat (str ((if neg then ["-"%char] else []) ++ ip ++ fp ++ ep)), r3)
      end
  end.

(** [l] starts with the characters of [w]. *)
Fixpoint strip_prefix (w l : list ascii) : option (list ascii) :=
  match w, l with
  | [], _ => Some l
  | a :: w', b :: l' => if Ascii.eqb a b then strip_prefix w' l' else None
  | _ :: _, [] => None
  end.

Definition scan_word (w : string) (v : json) (l : list ascii)
  : option (json * list ascii) :=
  match strip_prefix (chars w) l with
  | Some rest => Some (v, rest)
  | None => None
  end.

(** [scan_once] and the object and array loops, with the depth of the calls
    bounded by [fuel]. *)
Fixpoint scan_value (fuel : nat) (l : list ascii) : option (json * list ascii) :=
  match fuel with
  | O => None
  | S f =>
      match l with
      | [] => None
      | c :: rest =>
          if Ascii.eqb c dq then
            match scan_string rest with
            | Some (s, r) => Some (JStr (str s), r)
            | None => None
            end
          else if Ascii.eqb c "{" then
            match skip_ws rest with
            | c1 :: r1 =>
                if Ascii.eqb c1 "}" then Some (JObj [], r1)
                else if Ascii.eqb c1 dq then
                  match scan_members f r1 with
                  | Some (pairs, r) => Some (JObj (dict_of_pairs pairs), r)
                  | None => None
                  end
                else None
            | [] => None
            end
          else if Ascii.eqb c "[" then
            match skip_ws rest with
            | c1 :: r1 =>
                if Ascii.eqb c1 "]" then Some (JArr [], r1)
                else
                  match scan_elements f (c1 :: r1) with
                  | Some (vs, r) => Some (JArr vs, r)
                  | None => None
                  end
            | [] => None
            end
          else if Ascii.eqb c "n" then
            match scan_word "null" JNull l with
            | Some r => Some r
            | None => scan_number l
            end
          else if Ascii.eqb c "t" then
            match scan_word "true" (JBool true) l with
            | Some r => Some r
            | None => scan_number l
            end
          else if Ascii.eqb c "f" then
            match scan_word "false" (JBool false) l with
            | Some r => Some r
            | None => scan_number l
            end
          else if Ascii.eqb c "N" then
            match scan_word "NaN" (JFloat "NaN") l with
            | Some r => Some r
            | None => scan_number l
            end
          else if Ascii.eqb c "I" then
            match scan_word "Infinity" (JFloat "Infinity") l with
            | Some r => Some r
            | None => scan_number l
            end
          else if Ascii.eqb c "-" then
            match scan_word "-Infinity" (JFloat "-Infinity") l with
            | Some r => Some r
            | None => scan_number l
            end
          else scan_number l
      end
  end

(** The members of an object; [l] stands just after the opening quote of
    the next key. *)
with scan_members (fuel : nat) (l : list ascii)
  : option (list (string * json) * list ascii) :=
  match fuel with
  | O => None
  | S f =>
      match scan_string l with
      | None => None
      | Some (k, r0) =>
          match skip_ws r0 with
          | colon :: r1 =>
              if Ascii.eqb colon ":" then
                match scan_value f (skip_ws r1) with
                | None => None
                | Some (v, r2) =>
                    match skip_ws r2 with
                    | c :: r3 =>
                        if Ascii.eqb c "}" then Some ([(str k, v)], r3)
                        else if Ascii.eqb c "," then
                          match skip_ws r3 with
                          | q :: r4 =>
                              if Ascii.eqb q dq then
                                match scan_members f r4 with
                                | Some (more, r) => Some ((str k, v) :: more, r)
                                | None => None
                                end
                              else None
                          | [] => None
                          end
                        else None
                    | [] => None
                    end
                end
              else None
          | [] => None
          end
      end
  end

(** The elements of an array; [l] stands at the next value. *)
with scan_elements (fuel : nat) (l : list ascii)
  : option (list json * list ascii) :=
  match fuel with
  | O => None
  | S f =>
      match scan_value f l with
      | None => None
      | Some (v, r1) =>
          match skip_ws r1 with
          | c :: r2 =>
              if Ascii.eqb c "]" then Some ([v], r2)
              else if Ascii.eqb c "," then
                match scan_elements f (skip_ws r2) with
                | Some (more, r) => Some (v :: more, r)
                | None => None
                end
              else None
          | [] => None
          end
      end
  end.

(** [json.loads(s)]: one value between optional blanks, [None] standing for
    the ValueError of a text that is not one. *)
Definition loads (s : string) : option json :=
  let l := chars s in
  match scan_value (S (List.length l)) (skip_ws l) with
  | Some (v, rest) =>
      match skip_ws rest with
      | [] => Some v
      | _ => None
      end
  | None => None
  end.

(** *** Shapes of the dumped text, for the round trip *)

Definition no_digit_head (l : list ascii) : bool :=
  match l with
  | [] => true
  | c :: _ => negb (is_digit c)
  end.

(** What can follow a value in the output of [encode], or in the padding. *)
Definition follow_ok (l : list ascii) : bool :=
  match l with
  | [] => true
  | c :: _ =>
      Ascii.eqb c "," || Ascii.eqb c "]" || Ascii.eqb c "}" || is_ws c
  end.

Definition enc_item (kv : string * json) : list ascii :=
  quote (fst kv) ++ key_sep ++ encode (snd kv).

(** [scan_value] reads the dump of [v] back, whatever follows it. *)
Definition reads_back (v : json) : Prop :=
  well_formed v = true ->
  forall fuel tail,
    (List.length (encode v) <= fuel)%nat -> follow_ok tail = true ->
    scan_value fuel (encode v ++ tail) = Some (v, tail).

(** The text of the members of an object, after the opening quote of the
    first key and up to [tail], which follows the closing brace. *)
Fixpoint members_rest (items : dict) (tail : list ascii) : list ascii :=
  match items with
  | [] => tail
  | (k, v) :: more =>
      flat_map escape_char (chars k) ++ dq :: key_sep ++ encode v ++
      match more with
      | [] => "}"%char :: tail
      | _ :: _ => item_sep ++ dq :: members_rest more tail
      end
  end.

(** Induction over a value and the values inside it. *)
Section JsonInd.
Variable P : json -> Prop.
Hypothesis Hnull : P JNull.
Hypothesis Hbool : forall b, P (JBool b).
Hypothesis Hint : forall n, P (JInt n).
Hypothesis Hfloat : forall lit, P (JFloat lit).
Hypothesis Hstr : forall s, P (JStr s).
Hypothesis Harr : forall l, Forall P l -> P (JArr l).
Hypothesis Hobj : forall items, Forall (fun kv => P (snd kv)) items -> P (JObj items).

Fixpoint json_nested_ind (v : json) : P v :=
  match v with
  | JNull => Hnull
  | JBool b => Hbool b
  | JInt n => Hint n
  | JFloat lit => Hfloat lit
  | JStr s => Hstr s
  | JArr l =>
      Harr l ((fix go (l : list json) : Forall P l :=
                 match l with
                 | [] => List.Forall_nil _
                 | x :: r => @List.Forall_cons _ _ x r (json_nested_ind x) (go r)
                 end) l)
  | JObj items =>
      Hobj items ((fix go (l : list (string * json))
                     : Forall (fun kv => P (snd kv)) l :=
                     match l with
                     | [] => List.Forall_nil _
                     | x :: r => @List.Forall_cons _ (fun kv => P (snd kv)) x r (json_nested_ind (snd x)) (go r)
                     end) items)
  end.
End JsonInd.

End Json.

(** ** The virtual hardware of a VM and the requests to change it *)

Module Hardware.

(** The subclasses of [vim.VirtualSCSIController]. *)
Inductive scsi_kind := ParaVirtual | LsiLogic | LsiLogicSAS | BusLogic.

(** An entry of [vm.config.hardware.device]. *)
Inductive device :=
| VirtualDisk (controllerKey unitNumber : Z) (fileName : string)
| VirtualSCSIController (kind : scsi_kind) (key busNumber : Z)
| OtherDevice (key : Z).

(** An entry of [spec.deviceChange]. *)
Inductive device_change :=
| AddController (key busNumber : Z)
    (* add ParaVirtualSCSIController(key, busNumber, sharedBus noSharing) *)
| AddDisk (fileName : string) (unitNumber controllerKey : Z)
    (* add VirtualDisk, independent_persistent *)
| RemoveDevice (d : device).

Definition config_spec := list device_change.

(** [vm.config.uuid] and [vm.config.name] of a VM managed object. *)
Record vm := { vm_uuid : string; vm_name : string }.

End Hardware.

(** ** What the service runs in *)

Import Hardware.

(** The metadata side-car files: their contents, and the paths on which
    [open] fails for reading or for writing. *)
Record store := {
  files : gmap string string;
  unreadable : gset string;
  unwritable : gset string
}.

(** The state the service reads and changes. *)
Record world := {
  kvstore : store;
  hw : list device;             (* vm.config.hardware.device of the caller *)
  reqs : list config_spec;      (* ReconfigVM_Task calls, oldest first *)
  cmds : list string            (* RunCommand calls, oldest first *)
}.

(** The collaborators.  What a shell command returns and what a file test
    sees may depend on the commands run before. *)
Record env := {
  (* the interpreter *)
  set_pop : list Z -> option Z;              (* set.pop() on a set of ints *)
  format_value : Json.json -> string;        (* str.format of a value *)
  repr_str : string -> string;               (* repr of a string *)
  repr_strs : list string -> string;         (* repr of a list of strings *)
  repr_opt_defaults : string;                (* repr of zip(valid_opts, defaults) *)
  asctime : string;                          (* time.asctime(time.gmtime()) *)
  (* os, subprocess *)
  run_command : list string -> string -> Z * string;
  isfile : list string -> string -> bool;
  isdir : list string -> string -> bool;
  realpath : string -> string;
  read_file : list string -> string -> exc string;
                                           (* open(path), read(), close() *)
  (* disk_ops *)
  get_kv_name : string -> string;
  create_kv : string -> bool;
  (* vmdk_utils *)
  get_datastores : list (string * string);   (* name, url name *)
  get_vmdk_path : string -> string -> string;
  get_volumes : list (string * string);      (* filename, datastore *)
  strip_vmdk_extension : string -> string;
  (* vsan_info, vsan_policy *)
  is_on_vsan : string -> bool;
  policy_exists : string -> bool;
  policy_path : string -> string;
  policy_exists_value : Json.json -> exc bool;   (* on a name that is no string *)
  policy_path_value : Json.json -> exc string;   (* on a name that is no string *)
  (* the hypervisor: a fault message, or the device list after the change *)
  reconfig : list device -> config_spec -> string + list device;
  find_by_uuid : bool -> string -> exc (option vm);  (* FindByUuid; true: the retry *)
  (* vsi *)
  vmm_group_info : Z -> exc (string * string * string)
                                           (* displayName, cfgPath, uuid *)
}.

(** Computations over the world that can raise. *)
Definition M (A : Type) : Type := world -> exc A * world.

Definition ret {A} (a : A) : M A := fun w => (Ret a, w).
Definition raise {A} (e : pyexc) : M A := fun w => (Raise e, w).
Definition bind {A B} (m : M A) (k : A -> M B) : M B :=
  fun w => match m w with
           | (Ret a, w') => k a w'
           | (Raise e, w') => (Raise e, w')
           end.
Definition lift {A} (x : exc A) : M A := fun w => (x, w).
Definition get_world : M world := fun w => (Ret w, w).

Declare Scope m_scope.
Delimit Scope m_scope with M.
Notation "x <- m ;; k" := (bind m (fun x => k))
  (at level 100, m at next level, right associativity) : m_scope.
Notation "m ;;; k" := (bind m (fun _ => k))
  (at level 100, right associativity) : m_scope.

(** What a request handler returns. *)
Inductive response :=
| RNone                                  (* None *)
| RError (msg : string)                  (* err(msg) *)
| RErrorPair (fmt msg : string)          (* err((fmt, msg)), a tuple *)
| RBusInfo (unit bus : string)           (* busInfo(unit, bus) *)
| RVolumes (names : list string).        (* listVMDK *)

(** [str(n)] *)
Definition str_of_Z (n : Z) : string :=
  DecimalString.NilZero.string_of_int (Z.to_int n).

(** ** The metadata store, [volume_kv.py] *)

Module KV.
Import PyStr Json.

Definition KV_ALIGN : Z := 4096.

Definition STATUS := "status".
Definition CREATED := "created".
Definition CREATED_BY := "created-by".
Definition ATTACHED_VM_NAME := "attachedVMName".
Definition ATTACHED_VM_UUID := "attachedVMUuid".
Definition VOL_OPTS := "volOpts".
Definition VSAN_POLICY_NAME := "vsan-policy-name".
Definition SIZE := "size".
Definition DISK_ALLOCATION_FORMAT := "diskformat".
Definition VALID_ALLOCATION_FORMATS := ["zeroedthick"; "thin"; "eagerzeroedthick"].
Definition DEFAULT_ALLOCATION_FORMAT := "thin".
Definition DEFAULT_VSAN_POLICY := "[VSAN default]".
Definition ATTACHED := "attached".
Definition DETACHED := "detached".

Definition spaces (n : nat) : string := str (repeat " "%char n).

(** [align_str(kv_str, block)], for [block > 0].  The width is one less
    than the next multiple of [block]; the format pads on the right and
    never cuts, and raises ValueError ([None]) on a negative width. *)
Definition align_str (kv_str : string) (block : Z) : option string :=
  let aligned_len := (len kv_str + block - 1) / block * block - 1 in
  if aligned_len <? 0 then None
  else Some (kv_str ++ spaces (Z.to_nat (aligned_len - len kv_str)) ++ nl).

Definition set_files (st : store) (f : gmap string string) : store :=
  {| files := f; unreadable := unreadable st; unwritable := unwritable st |}.

(** [load(vol_path)].  Python's [None] is [JNull], whether it stands for a
    file that cannot be read, a text that is not JSON, or the JSON [null]. *)
Definition load (e : env) (st : store) (vol_path : string) : json :=
  let meta_file := get_kv_name e vol_path in
  if decide (meta_file ∈ unreadable st) then JNull
  else match files st !! meta_file with
       | None => JNull
       | Some kv_str =>
           match loads kv_str with
           | Some v => v
           | None => JNull
           end
       end.

(** [save(vol_path, vol_meta)].  [open(meta_file, w)] empties the file
    before anything is written. *)
Definition save (e : env) (st : store) (vol_path : string) (vol_meta : json)
  : bool * store :=
  let meta_file := get_kv_name e vol_path in
  let kv_str := dumps vol_meta in
  if decide (meta_file ∈ unwritable st) then (false, st)
  else match align_str kv_str KV_ALIGN with
       | Some text => (true, set_files st (<[meta_file := text]> (files st)))
       | None => (false, set_files st (<[meta_file := EmptyString]> (files st)))
       end.

(** [create(vol_path, vol_meta)] *)
Definition create (e : env) (st : store) (vol_path : string) (vol_meta : json)
  : bool * store :=
  if create_kv e vol_path then save e st vol_path vol_meta else (false, st).

(** [getAll(vol_path)] *)
Definition getAll (e : env) (st : store) (vol_path : string) : json :=
  load e st vol_path.

(** [setAll(vol_path, vol_meta)] *)
Definition setAll (e : env) (st : store) (vol_path : string) (vol_meta : json)
  : bool * store :=
  if truthy vol_meta then save e st vol_path vol_meta else (true, st).

(** *** Subscripting a loaded value *)

(** [v[k] = x] *)
Definition setitem (v : json) (k : string) (x : json) : exc json :=
  match v with
  | JObj d => Ret (JObj (dict_set k x d))
  | _ => Raise TypeError
  end.

(** [v[k]] *)
Definition getitem (v : json) (k : string) : exc json :=
  match v with
  | JObj d => match dict_get k d with Some x => Ret x | None => Raise KeyError end
  | _ => Raise TypeError
  end.

(** [del v[k]] *)
Definition delitem (v : json) (k : string) : exc json :=
  match v with
  | JObj d => match dict_del k d with Some d' => Ret (JObj d') | None => Raise KeyError end
  | _ => Raise TypeError
  end.

(** [sub in s] for two strings *)
Fixpoint is_substring (sub : list ascii) (s : list ascii) : bool :=
  match strip_prefix sub s with
  | Some _ => true
  | None => match s with
            | [] => false
            | _ :: r => is_substring sub r
            end
  end.

(** [k in v] *)
Definition contains (v : json) (k : string) : exc bool :=
  match v with
  | JObj d => Ret (dict_mem k d)
  | JArr l =>
      Ret (existsb (fun x => match x with JStr s => String.eqb s k | _ => false end) l)
  | JStr s => Ret (is_substring (chars k) (chars s))
  | _ => Raise TypeError
  end.

(** [set_kv(vol_path, key, val)] *)
Definition set_kv (e : env) (st : store) (vol_path key : string) (val : json)
  : exc bool * store :=
  let vol_meta := load e st vol_path in
  if negb (truthy vol_meta) then (Ret false, st)
  else match setitem vol_meta key val with
       | Raise x => (Raise x, st)
       | Ret vol_meta' =>
           let (ok, st') := save e st vol_path vol_meta' in (Ret ok, st')
       end.

(** [get_kv(vol_path, key)] *)
Definition get_kv (e : env) (st : store) (vol_path key : string)
  : exc json :=
  let vol_meta := load e st vol_path in
  if negb (truthy vol_meta) then Ret JNull
  else match contains vol_meta key with
       | Raise x => Raise x
       | Ret true => getitem vol_meta key
       | Ret false => Ret JNull
       end.

(** [remove(vol_path, key)] *)
Definition remove (e : env) (st : store) (vol_path key : string)
  : exc bool * store :=
  let vol_meta := load e st vol_path in
  if negb (truthy vol_meta) then (Ret false, st)
  else match contains vol_meta key with
       | Raise x => (Raise x, st)
       | Ret b =>
           match (if b then delitem vol_meta key else Ret vol_meta) with
           | Raise x => (Raise x, st)
           | Ret vol_meta' =>
               let (ok, st') := save e st vol_path vol_meta' in (Ret ok, st')
           end
       end.

End KV.

(** ** Python library functions used by [vmdk_ops.py] *)

Module PyLib.
Import PyStr.
Local Open Scope list_scope.

Definition slash : ascii := "/"%char.

Fixpoint drop_while {A} (p : A -> bool) (l : list A) : list A :=
  match l with
  | x :: r => if p x then drop_while p r else l
  | [] => []
  end.

Fixpoint take_while {A} (p : A -> bool) (l : list A) : list A :=
  match l with
  | x :: r => if p x then x :: take_while p r else []
  | [] => []
  end.

Definition not_slash (c : ascii) : bool := negb (Ascii.eqb c slash).

(** [os.path.basename(p)]: what follows the last slash. *)
Definition basename (p : string) : string :=
  str (List.rev (take_while not_slash (List.rev (chars p)))).

(** [os.path.dirname(p)]: what precedes the last slash, without trailing
    slashes unless it has nothing else. *)
Definition dirname (p : string) : string :=
  let head := List.rev (drop_while not_slash (List.rev (chars p))) in
  if forallb (Ascii.eqb slash) head then str head
  else str (List.rev (drop_while (Ascii.eqb slash) (List.rev head))).

(** [os.path.join(a, b)] *)
Definition path_join (a b : string) : string :=
  if startswith b "/" then b
  else if String.eqb a "" || endswith a "/" then (a ++ b)%string
  else (a ++ "/" ++ b)%string.

(** [s.split(sep)] for a one-character [sep] *)
Fixpoint split_on (sep : ascii) (l : list ascii) : list (list ascii) :=
  match l with
  | [] => [[]]
  | c :: r =>
      if Ascii.eqb c sep then [] :: split_on sep r
      else match split_on sep r with
           | w :: ws => (c :: w) :: ws
           | [] => [[c]]
           end
  end.

Definition str_split (sep : ascii) (s : string) : list string :=
  List.map str (split_on sep (chars s)).

(** [c.isspace()]: the blank, the controls 9..13 and 28..31, the next-line
    control 133 and the no-break space 160. *)
Definition is_space (c : ascii) : bool :=
  let n := nat_of_ascii c in
  (n =? 32)%nat || ((9 <=? n)%nat && (n <=? 13)%nat)
  || ((28 <=? n)%nat && (n <=? 31)%nat)
  || (n =? 133)%nat || (n =? 160)%nat.

(** [s.split()]: the words between runs of blanks. *)
Fixpoint words_from (cur : list ascii) (l : list ascii) : list (list ascii) :=
  match l with
  | [] => match cur with [] => [] | _ => [List.rev cur] end
  | c :: r =>
      if is_space c
      then match cur with
           | [] => words_from [] r
           | _ => List.rev cur :: words_from [] r
           end
      else words_from (c :: cur) r
  end.

Definition words (s : string) : list string :=
  List.map str (words_from [] (chars s)).

(** [s.replace(old, new)] for a non-empty [old] *)
Fixpoint replace_from (fuel : nat) (old new l : list ascii) : list ascii :=
  match fuel with
  | O => l
  | S f =>
      match Json.strip_prefix old l with
      | Some rest => new ++ replace_from f old new rest
      | None => match l with
                | [] => []
                | c :: r => c :: replace_from f old new r
                end
      end
  end.

Definition replace (old new s : string) : string :=
  str (replace_from (S (String.length s)) (chars old) (chars new) (chars s)).

(** [range(lo, hi)] *)
Definition range (lo hi : Z) : list Z :=
  List.map (fun i => lo + Z.of_nat i) (seq 0 (Z.to_nat (hi - lo))).

(** A [set] of ints, kept as the list of its elements. *)
Definition in_set (x : Z) (s : list Z) : bool := existsb (Z.eqb x) s.

(** [s - taken] *)
Definition set_minus (s taken : list Z) : list Z :=
  List.filter (fun x => negb (in_set x taken)) s.

(** *** [set.pop()] in CPython

    The language leaves the element open.  CPython keeps a set in a table of
    slots and [pop] returns the first occupied slot.  The sets this service
    pops are differences of ranges below 16, built by inserting the remaining
    elements in increasing order: with five elements or more the table has 32
    slots and [n] sits in slot [n]; with fewer it has 8 slots, [n] goes to
    slot [n mod 8] and, when that is taken, on along [i -> (5 i + 1) mod 8].
    The sizes and the probe sequence are those of CPython 3.11; another
    version may grow the table at another size or probe differently. *)

Fixpoint probe (fuel : nat) (table : list (option Z)) (i : nat) : nat :=
  match fuel with
  | O => i
  | S f =>
      match nth i table None with
      | None => i
      | Some _ => probe f table ((5 * i + 1) mod 8)%nat
      end
  end.

Fixpoint set_nth {A} (i : nat) (x : A) (l : list A) : list A :=
  match l, i with
  | [], _ => []
  | _ :: r, O => x :: r
  | y :: r, S j => y :: set_nth j x r
  end.

Definition small_table (l : list Z) : list (option Z) :=
  fold_left
    (fun table n => set_nth (probe 8 table (Z.to_nat (n mod 8))) (Some n) table)
    l (repeat None 8).

Fixpoint first_occupied (table : list (option Z)) : option Z :=
  match table with
  | [] => None
  | Some n :: _ => Some n
  | None :: r => first_occupied r
  end.

Definition cpython_pop (l : list Z) : option Z :=
  if (5 <=? List.length l)%nat then hd_error l
  else first_occupied (small_table l).

End PyLib.

(** ** The volume operations, [vmdk_ops.py] *)

Module Ops.
Import PyStr PyLib Json Validation.
Local Open Scope string_scope.
Local Open Scope m_scope.

Definition MAX_VOL_NAME_LEN : nat := 100.
Definition MAX_DS_NAME_LEN : nat := 100.
Definition BIN_LOC := "/usr/lib/vmware/vmdkops/bin".
Definition OBJ_TOOL_CMD := "/usr/lib/vmware/osfs/bin/objtool open -u ".
Definition OSFS_MKDIR_CMD := "/usr/lib/vmware/osfs/bin/osfs-mkdir -n ".
Definition MKFS_CMD := BIN_LOC ++ "/mkfs.ext4 -qF -L ".
Definition VMDK_CREATE_CMD := "/sbin/vmkfstools".
Definition VMDK_DELETE_CMD := "/sbin/vmkfstools -U ".
Definition DOCK_VOLS_DIR := "dockvols".
Definition MAX_SKIP_COUNT : Z := 16.
Definition DEFAULT_DISK_SIZE := "100mb".

(** The creation options: a dict of strings, as the plugin sends it. *)
Definition options := list (string * string).

Fixpoint opt_get (k : string) (opts : options) : option string :=
  match opts with
  | [] => None
  | (k', v) :: rest => if String.eqb k' k then Some v else opt_get k rest
  end.

Definition opt_mem (k : string) (opts : options) : bool :=
  match opt_get k opts with Some _ => true | None => false end.

Definition json_of_options (opts : options) : json :=
  JObj (List.map (fun kv => (fst kv, JStr (snd kv))) opts).

(** *** The world *)

Definition with_kvstore (w : world) (st : store) : world :=
  {| kvstore := st; hw := hw w; reqs := reqs w; cmds := cmds w |}.
Definition with_hw (w : world) (devs : list device) : world :=
  {| kvstore := kvstore w; hw := devs; reqs := reqs w; cmds := cmds w |}.
Definition with_reqs (w : world) (r : list config_spec) : world :=
  {| kvstore := kvstore w; hw := hw w; reqs := r; cmds := cmds w |}.
Definition with_cmds (w : world) (c : list string) : world :=
  {| kvstore := kvstore w; hw := hw w; reqs := reqs w; cmds := c |}.

(** [RunCommand(cmd)]: the return code, and stdout or (on failure) stderr. *)
Definition RunCommand (e : env) (cmd : string) : M (Z * string) :=
  fun w => (Ret (run_command e (cmds w) cmd), with_cmds w (cmds w ++ [cmd])%list).

Definition os_path_isfile (e : env) (p : string) : M bool :=
  fun w => (Ret (isfile e (cmds w) p), w).

Definition os_path_isdir (e : env) (p : string) : M bool :=
  fun w => (Ret (isdir e (cmds w) p), w).

Definition kv_getAll (e : env) (p : string) : M json :=
  fun w => (Ret (KV.getAll e (kvstore w) p), w).

Definition kv_setAll (e : env) (p : string) (vol_meta : json) : M bool :=
  fun w => let (ok, st) := KV.setAll e (kvstore w) p vol_meta in
           (Ret ok, with_kvstore w st).

Definition kv_create (e : env) (p : string) (vol_meta : json) : M bool :=
  fun w => let (ok, st) := KV.create e (kvstore w) p vol_meta in
           (Ret ok, with_kvstore w st).

(** [wait_for_tasks(si, [vm.ReconfigVM_Task(spec=spec)])]: [Some msg] is a
    VimFault with that message. *)
Definition ReconfigVM_Task (e : env) (spec : config_spec) : M (option string) :=
  fun w =>
    let w1 := with_reqs w (reqs w ++ [spec])%list in
    match reconfig e (hw w) spec with
    | inl msg => (Ret (Some msg), w1)
    | inr devs => (Ret None, with_hw w1 devs)
    end.

Definition err (msg : string) : response := RError msg.

(** *** Creation options *)

Definition check (r : ValidationError + unit) (k : ValidationError + unit)
  : ValidationError + unit :=
  match r with inl x => inl x | inr _ => k end.

(** [validate_vsan_policy_name(policy_name, vmdk_path)] *)
Definition validate_vsan_policy_name (e : env) (policy_name vmdk_path : string)
  : ValidationError + unit :=
  if negb (is_on_vsan e vmdk_path)
  then inl (mkValidationError "Cannot use a VSAN policy on a non-VSAN datastore")
  else if negb (policy_exists e policy_name)
  then inl (mkValidationError ("Policy " ++ policy_name ++ " does not exist"))
  else inr tt.

(** [validate_disk_allocation_format(format)] *)
Definition validate_disk_allocation_format (format : string)
  : ValidationError + unit :=
  if negb (mem format KV.VALID_ALLOCATION_FORMATS)
  then inl (mkValidationError
              ("Disk Allocation Format '" ++ format ++
               "' does not exist. Valid options are: " ++
               "['zeroedthick', 'thin', 'eagerzeroedthick']"))
  else inr tt.

(** [validate_opts(opts, vmdk_path)] *)
Definition validate_opts (e : env) (opts : options) (vmdk_path : string)
  : ValidationError + unit :=
  let valid_opts := [KV.SIZE; KV.VSAN_POLICY_NAME; KV.DISK_ALLOCATION_FORMAT] in
  let invalid := List.filter (fun k => negb (mem k valid_opts)) (List.map fst opts) in
  if negb (List.length invalid =? 0)%nat then
    inl (mkValidationError
           ("Invalid options: " ++ repr_strs e invalid ++ " " ++ nl ++
            "Valid options and defaults: " ++ repr_opt_defaults e))
  else
    check (match opt_get KV.SIZE opts with
           | Some size => validate_size size
           | None => inr tt
           end)
   (check (match opt_get KV.VSAN_POLICY_NAME opts with
           | Some name => validate_vsan_policy_name e name vmdk_path
           | None => inr tt
           end)
          (match opt_get KV.DISK_ALLOCATION_FORMAT opts with
           | Some format => validate_disk_allocation_format format
           | None => inr tt
           end)).

(** [make_create_cmd(opts, vmdk_path)] *)
Definition make_create_cmd (e : env) (opts : options) (vmdk_path : string) : string :=
  let size := match opt_get "size" opts with
              | None => DEFAULT_DISK_SIZE
              | Some s => s
              end in
  let format := match opt_get KV.DISK_ALLOCATION_FORMAT opts with
                | None => KV.DEFAULT_ALLOCATION_FORMAT
                | Some f => f
                end in
  match opt_get KV.VSAN_POLICY_NAME opts with
  | Some name =>
      VMDK_CREATE_CMD ++ " -d " ++ format ++ " -c " ++ size ++
      " --policyFile " ++ policy_path e name ++ " " ++ vmdk_path
  | None =>
      VMDK_CREATE_CMD ++ " -d " ++ format ++ " -c " ++ size ++ " " ++ vmdk_path
  end.

(** [create_kv_store(vm_name, vmdk_path, opts)] *)
Definition create_kv_store (e : env) (vm_name vmdk_path : string) (opts : options)
  : M bool :=
  let vol_meta := JObj [(KV.STATUS, JStr KV.DETACHED);
                        (KV.VOL_OPTS, json_of_options opts);
                        (KV.CREATED, JStr (asctime e));
                        (KV.CREATED_BY, JStr vm_name)] in
  kv_create e vmdk_path vol_meta.

(** [removeVMDK(vmdk_path)] *)
Definition removeVMDK (e : env) (vmdk_path : string) : M response :=
  r <- RunCommand e (VMDK_DELETE_CMD ++ " " ++ vmdk_path) ;;
  let (rc, out) := r in
  if negb (rc =? 0)%Z
  then ret (err ("Failed to remove " ++ vmdk_path ++ ". " ++ out))
  else ret RNone.

(** *** The descriptor search of [getVMDKUuid]

    The expression searched for is: the letters RW and a blank; any
    characters; a blank, VMFS, a blank, a double quote and vsan://; the
    group, of any characters; a double quote.  Any character is any but the
    newline, and a run of them is as long as the rest of the expression
    allows. *)

Definition dquote : ascii := ascii_of_nat 34.

Definition is_newline (c : ascii) : bool := (nat_of_ascii c =? 10)%nat.

(** The characters up to the first newline: as far as a run can reach. *)
Fixpoint line_of (l : list ascii) : list ascii :=
  match l with
  | [] => []
  | c :: r => if is_newline c then [] else c :: line_of r
  end.

(** The group and the closing quote, at the start of what is left of the
    line: the group is all that stands before the last quote. *)
Fixpoint before_last_quote (l : list ascii) : option (list ascii) :=
  match l with
  | [] => None
  | c :: r =>
      match before_last_quote r with
      | Some g => Some (c :: g)
      | None => if Ascii.eqb c dquote then Some [] else None
      end
  end.

(** The words between the two runs. *)
Definition vsan_uri_head : list ascii :=
  chars " VMFS " ++ [dquote] ++ chars "vsan://".

(** The expression after [RW ], on the rest of the line: the first run
    stops at the last place where the words stand with a quote somewhere
    after them. *)
Fixpoint match_vsan_uri (l : list ascii) : option (list ascii) :=
  let here := match Json.strip_prefix vsan_uri_head l with
              | Some rest => before_last_quote rest
              | None => None
              end in
  match l with
  | [] => here
  | _ :: r =>
      match match_vsan_uri r with
      | Some g => Some g
      | None => here
      end
  end.

(** [exp.search(data).group(1)]: the match at the first [RW ] whose line
    has one; [None] when there is none. *)
Fixpoint search_vsan_uuid (data : list ascii) : option (list ascii) :=
  let here := match Json.strip_prefix (chars "RW ") data with
              | Some rest => match_vsan_uri (line_of rest)
              | None => None
              end in
  match data with
  | [] => here
  | _ :: r =>
      match here with
      | Some g => Some g
      | None => search_vsan_uuid r
      end
  end.

(** [getVMDKUuid(vmdk_path)]: the descriptor is read outside the [try], so
    what [open] or [read] raises leaves the function; a search that finds
    nothing gives [None]. *)
Definition getVMDKUuid (e : env) (vmdk_path : string) : M (option string) :=
  w <- get_world ;;
  data <- lift (read_file e (cmds w) vmdk_path) ;;
  ret (option_map str (search_vsan_uuid (chars data))).

(** [getVMDKBacking(vmdk_path)] *)
Definition getVMDKBacking (e : env) (vmdk_path : string) : M (option string) :=
  let flatBacking := replace ".vmdk" "-flat.vmdk" vmdk_path in
  flat <- os_path_isfile e flatBacking ;;
  if flat then ret (Some flatBacking)
  else
    uuid <- getVMDKUuid e vmdk_path ;;
    match uuid with
    | Some uuid =>
        if negb (String.eqb uuid "") then
          r <- RunCommand e (OBJ_TOOL_CMD ++ " " ++ uuid) ;;
          let fpath := "/vmfs/devices/vsan/" ++ uuid in
          there <- os_path_isfile e fpath ;;
          if (fst r =? 0)%Z && there then ret (Some fpath) else ret None
        else ret None
    | None => ret None
    end.

(** [formatVmdk(vmdk_path, vol_name)] *)
Definition formatVmdk (e : env) (vmdk_path vol_name : string) : M response :=
  backing <- getVMDKBacking e vmdk_path ;;
  match backing with
  | None => ret (err ("Failed to format " ++ vmdk_path ++ "."))
  | Some b =>
      r <- RunCommand e (MKFS_CMD ++ " " ++ vol_name ++ " " ++ b) ;;
      if negb (fst r =? 0)%Z then
        removed <- removeVMDK e vmdk_path ;;
        match removed with
        | RNone => ret (err ("Failed to format " ++ vmdk_path ++ "."))
        | _ => ret (err ("Unable to format " ++ vmdk_path ++
                         " and unable to delete volume. Please delete it manually."))
        end
      else ret RNone
  end.

(** [createVMDK(vmdk_path, vm_name, vol_name, opts)] *)
Definition createVMDK (e : env) (vmdk_path vm_name vol_name : string) (opts : options)
  : M response :=
  isfile <- os_path_isfile e vmdk_path ;;
  if isfile then ret (err ("File " ++ vmdk_path ++ " already exists"))
  else
    match validate_opts e opts vmdk_path with
    | inl (mkValidationError msg) => ret (err msg)
    | inr _ =>
        let cmd := make_create_cmd e opts vmdk_path in
        r <- RunCommand e cmd ;;
        let (rc, out) := r in
        if negb (rc =? 0)%Z
        then ret (err ("Failed to create " ++ vmdk_path ++ ". " ++ out))
        else
          created <- create_kv_store e vm_name vmdk_path opts ;;
          if negb created then
            let msg := "Failed to create metadata kv store for " ++ vmdk_path in
            removeVMDK e vmdk_path ;;;
            ret (err msg)
          else formatVmdk e vmdk_path vol_name
    end.

(** *** Creation, on the options as they were decoded

    A request can carry any value for its options.  The code looks at them
    only when it creates a volume, and at each value only as far as it
    needs it. *)

Definition check_exc (r k : exc (ValidationError + unit))
  : exc (ValidationError + unit) :=
  match r with
  | Ret (inr _) => k
  | _ => r
  end.

(** [validate_size(size)]: only a string has [lower]. *)
Definition validate_size_value (size : json) : exc (ValidationError + unit) :=
  match size with
  | JStr s => Ret (validate_size s)
  | _ => Raise AttributeError
  end.

(** [validate_vsan_policy_name(policy_name, vmdk_path)]: the name goes to
    [vsan_policy] as it is. *)
Definition validate_vsan_policy_name_value (e : env) (policy_name : json)
    (vmdk_path : string) : exc (ValidationError + unit) :=
  match policy_name with
  | JStr s => Ret (validate_vsan_policy_name e s vmdk_path)
  | v =>
      if negb (is_on_vsan e vmdk_path)
      then Ret (inl (mkValidationError
                       "Cannot use a VSAN policy on a non-VSAN datastore"))
      else
        match policy_exists_value e v with
        | Raise x => Raise x
        | Ret there =>
            if negb there
            then Ret (inl (mkValidationError
                             ("Policy " ++ format_value e v ++ " does not exist")))
            else Ret (inr tt)
        end
  end.

(** [validate_disk_allocation_format(format)]: a value that is no string is
    none of the formats. *)
Definition validate_disk_allocation_format_value (e : env) (format : json)
  : ValidationError + unit :=
  match format with
  | JStr s => validate_disk_allocation_format s
  | v => inl (mkValidationError
                ("Disk Allocation Format '" ++ format_value e v ++
                 "' does not exist. Valid options are: " ++
                 "['zeroedthick', 'thin', 'eagerzeroedthick']"))
  end.

(** [validate_opts(opts, vmdk_path)] on a dict. *)
Definition validate_opts_value (e : env) (opts : dict) (vmdk_path : string)
  : exc (ValidationError + unit) :=
  let valid_opts := [KV.SIZE; KV.VSAN_POLICY_NAME; KV.DISK_ALLOCATION_FORMAT] in
  let invalid := List.filter (fun k => negb (mem k valid_opts)) (List.map fst opts) in
  if negb (List.length invalid =? 0)%nat then
    Ret (inl (mkValidationError
                ("Invalid options: " ++ repr_strs e invalid ++ " " ++ nl ++
                 "Valid options and defaults: " ++ repr_opt_defaults e)))
  else
    check_exc (match dict_get KV.SIZE opts with
               | Some size => validate_size_value size
               | None => Ret (inr tt)
               end)
   (check_exc (match dict_get KV.VSAN_POLICY_NAME opts with
               | Some name => validate_vsan_policy_name_value e name vmdk_path
               | None => Ret (inr tt)
               end)
              (match dict_get KV.DISK_ALLOCATION_FORMAT opts with
               | Some format => Ret (validate_disk_allocation_format_value e format)
               | None => Ret (inr tt)
               end)).

(** [str(v)] *)
Definition str_of_value (e : env) (v : json) : string :=
  match v with
  | JStr s => s
  | _ => format_value e v
  end.

(** [make_create_cmd(opts, vmdk_path)] on a dict. *)
Definition make_create_cmd_value (e : env) (opts : dict) (vmdk_path : string)
  : exc string :=
  let size := match dict_get "size" opts with
              | None => DEFAULT_DISK_SIZE
              | Some s => str_of_value e s
              end in
  let format := match dict_get KV.DISK_ALLOCATION_FORMAT opts with
                | None => KV.DEFAULT_ALLOCATION_FORMAT
                | Some f => str_of_value e f
                end in
  match dict_get KV.VSAN_POLICY_NAME opts with
  | Some name =>
      match match name with
            | JStr n => Ret (policy_path e n)
            | v => policy_path_value e v
            end with
      | Raise x => Raise x
      | Ret policy_file =>
          Ret (VMDK_CREATE_CMD ++ " -d " ++ format ++ " -c " ++ size ++
               " --policyFile " ++ policy_file ++ " " ++ vmdk_path)
      end
  | None =>
      Ret (VMDK_CREATE_CMD ++ " -d " ++ format ++ " -c " ++ size ++ " " ++ vmdk_path)
  end.

(** [createVMDK(vmdk_path, vm_name, vol_name, opts)] on any value: one that
    is no dict has no [keys]. *)
Definition createVMDK_value (e : env) (vmdk_path vm_name vol_name : string)
    (opts : json) : M response :=
  isfile <- os_path_isfile e vmdk_path ;;
  if isfile then ret (err ("File " ++ vmdk_path ++ " already exists"))
  else
    match opts with
    | JObj d =>
        valid <- lift (validate_opts_value e d vmdk_path) ;;
        match valid with
        | inl (mkValidationError msg) => ret (err msg)
        | inr _ =>
            cmd <- lift (make_create_cmd_value e d vmdk_path) ;;
            r <- RunCommand e cmd ;;
            let (rc, out) := r in
            if negb (rc =? 0)%Z
            then ret (err ("Failed to create " ++ vmdk_path ++ ". " ++ out))
            else
              created <- kv_create e vmdk_path
                           (JObj [(KV.STATUS, JStr KV.DETACHED);
                                  (KV.VOL_OPTS, opts);
                                  (KV.CREATED, JStr (asctime e));
                                  (KV.CREATED_BY, JStr vm_name)]) ;;
              if negb created then
                let msg := "Failed to create metadata kv store for " ++ vmdk_path in
                removeVMDK e vmdk_path ;;;
                ret (err msg)
              else formatVmdk e vmdk_path vol_name
        end
    | _ => raise AttributeError
    end.

(** [getVMDK(vmdk_path, vol_name)] *)
Definition getVMDK (e : env) (vmdk_path vol_name : string) : M response :=
  isfile <- os_path_isfile e vmdk_path ;;
  if negb isfile
  then ret (err ("Volume " ++ vol_name ++ " not found (file: " ++ vmdk_path ++ ")"))
  else ret RNone.

(** [get_full_vol_name(vmdk_name, datastore, vm_datastore)] *)
Definition get_full_vol_name (e : env) (vmdk_name datastore vm_datastore : string)
  : string :=
  let vol_name := strip_vmdk_extension e vmdk_name in
  if String.eqb datastore vm_datastore then vol_name
  else vol_name ++ "@" ++ datastore.

(** [listVMDK(vm_datastore)] *)
Definition listVMDK (e : env) (vm_datastore : string) : M response :=
  ret (RVolumes (List.map (fun x => get_full_vol_name e (fst x) (snd x) vm_datastore)
                          (get_volumes e))).

(** [findVmByUuid(vm_uuid)]; [connectLocal] is part of the retry. *)
Definition findVmByUuid (e : env) (vm_uuid : string) : M vm :=
  match find_by_uuid e false vm_uuid with
  | Ret (Some vm) => ret vm
  | _ =>
      match find_by_uuid e true vm_uuid with
      | Ret (Some vm) => ret vm
      | Ret None => raise AttributeError
      | Raise x => raise x
      end
  end.

(** *** Devices *)

Definition controllerKey (d : device) : Z :=
  match d with VirtualDisk ck _ _ => ck | _ => 0 end.
Definition unitNumber (d : device) : Z :=
  match d with VirtualDisk _ u _ => u | _ => 0 end.
Definition is_disk (d : device) : bool :=
  match d with VirtualDisk _ _ _ => true | _ => false end.
Definition is_scsi_controller (d : device) : bool :=
  match d with VirtualSCSIController _ _ _ => true | _ => false end.
Definition is_pvscsi (d : device) : bool :=
  match d with VirtualSCSIController ParaVirtual _ _ => true | _ => false end.
Definition busNumber (d : device) : Z :=
  match d with VirtualSCSIController _ _ b => b | _ => 0 end.

(** The name a disk of the volume carries after the datastore part of its
    backing file name. *)
Definition virtual_disk_name (e : env) (vmdk_path : string) : string :=
  let dvol_dir := dirname vmdk_path in
  let real_vol_dir := basename (realpath e dvol_dir) in
  path_join real_vol_dir (basename vmdk_path).

(** [findDeviceByPath(vmdk_path, vm)] over the device list of [vm] *)
Fixpoint findDeviceByPath (e : env) (vmdk_path : string) (devs : list device)
  : exc (option device) :=
  match devs with
  | [] => Ret None
  | d :: rest =>
      match d with
      | VirtualDisk _ _ fileName =>
          match str_split " " fileName with
          | _ :: backing_disk :: _ =>
              if String.eqb (virtual_disk_name e vmdk_path) backing_disk
              then Ret (Some d)
              else findDeviceByPath e vmdk_path rest
          | _ => Raise IndexError
          end
      | _ => findDeviceByPath e vmdk_path rest
      end
  end.

(** [busInfo(unit_number, bus_number)] *)
Definition busInfo (unit_number bus_number : Z) : response :=
  RBusInfo (str_of_Z unit_number) (str_of_Z bus_number).

(** *** Attach state in the metadata *)

Definition or_empty (vol_meta : json) : json :=
  if negb (truthy vol_meta) then JObj [] else vol_meta.

(** [setStatusAttached(vmdk_path, vm)] *)
Definition setStatusAttached (e : env) (vmdk_path : string) (v : vm) : M unit :=
  vol_meta <- kv_getAll e vmdk_path ;;
  let vol_meta := or_empty vol_meta in
  m1 <- lift (KV.setitem vol_meta KV.STATUS (JStr KV.ATTACHED)) ;;
  m2 <- lift (KV.setitem m1 KV.ATTACHED_VM_UUID (JStr (vm_uuid v))) ;;
  m3 <- lift (KV.setitem m2 KV.ATTACHED_VM_NAME (JStr (vm_name v))) ;;
  kv_setAll e vmdk_path m3 ;;;
  ret tt.

(** The two [del] of [setStatusDetached], inside one [try] whose handler
    passes: the first failure skips what follows. *)
Definition del_attached_identity (vol_meta : json) : json :=
  match KV.delitem vol_meta KV.ATTACHED_VM_UUID with
  | Raise _ => vol_meta
  | Ret m1 =>
      match KV.delitem m1 KV.ATTACHED_VM_NAME with
      | Raise _ => m1
      | Ret m2 => m2
      end
  end.

(** [setStatusDetached(vmdk_path)] *)
Definition setStatusDetached (e : env) (vmdk_path : string) : M unit :=
  vol_meta <- kv_getAll e vmdk_path ;;
  let vol_meta := or_empty vol_meta in
  m1 <- lift (KV.setitem vol_meta KV.STATUS (JStr KV.DETACHED)) ;;
  kv_setAll e vmdk_path (del_attached_identity m1) ;;;
  ret tt.

(** [v == s] for a string [s] *)
Definition is_str (v : json) (s : string) : bool :=
  match v with JStr x => String.eqb x s | _ => false end.

(** [getStatusAttached(vmdk_path)]: [(attached, uuid)], the uuid [None]
    ([JNull]) when there is none. *)
Definition getStatusAttached (e : env) (st : store) (vmdk_path : string)
  : exc (bool * json) :=
  let vol_meta := KV.getAll e st vmdk_path in
  if negb (truthy vol_meta) then Ret (false, JNull)
  else
    match KV.contains vol_meta KV.STATUS with
    | Raise x => Raise x
    | Ret false => Ret (false, JNull)
    | Ret true =>
        match KV.getitem vol_meta KV.STATUS with
        | Raise x => Raise x
        | Ret status =>
            let attached := is_str status KV.ATTACHED in
            let uuid := match KV.getitem vol_meta KV.ATTACHED_VM_UUID with
                        | Ret u => u
                        | Raise _ => JNull
                        end in
            Ret (attached, uuid)
        end
    end.

(** *** Attach and detach *)

Definition offset_from_bus_number : Z := 1000.
Definition max_scsi_controllers : Z := 4.

(** [not disk_slot]: true for [None] and for [0]. *)
Definition not_slot (disk_slot : option Z) : bool :=
  match disk_slot with None => true | Some n => (n =? 0)%Z end.

(** The unit numbers taken on a controller, among the devices. *)
Definition taken_units (devices : list device) (controller_key : Z) : list Z :=
  List.map unitNumber
    (List.filter (fun dev => is_disk dev && (controllerKey dev =? controller_key)%Z)
                 devices).

Definition unit_slots : list Z := (range 0 7 ++ range 8 16)%list.

(** The end of [disk_attach]: request the disk at [disk_slot]. *)
Definition attach_at (e : env) (vmdk_path : string) (v : vm)
    (controller_key bus_number disk_slot : Z) : M response :=
  let disk_spec := AddDisk ("[] " ++ vmdk_path) disk_slot controller_key in
  fault <- ReconfigVM_Task e [disk_spec] ;;
  match fault with
  | Some ex_msg =>
      w <- get_world ;;
      st <- lift (getStatusAttached e (kvstore w) vmdk_path) ;;
      let (kv_status_attached, kv_uuid) := (st : bool * json) in
      if kv_status_attached && negb (is_str kv_uuid (vm_uuid v))
      then ret (err (ex_msg ++ " disk " ++ vmdk_path ++
                     " already attached to VM=" ++ format_value e kv_uuid))
      else ret (err ex_msg)
  | None =>
      setStatusAttached e vmdk_path v ;;;
      ret (busInfo disk_slot bus_number)
  end.

(** [disk_attach] from the check for a disk that is already attached on.
    [devices] is the list read at the start of [disk_attach]; the check reads
    the list again. *)
Definition place_disk (e : env) (vmdk_path : string) (v : vm)
    (devices : list device) (disk_slot : option Z)
    (controller_key bus_number : Z) : M response :=
  w <- get_world ;;
  device <- lift (findDeviceByPath e vmdk_path (hw w)) ;;
  match device with
  | Some d =>
      setStatusAttached e vmdk_path v ;;;
      ret (busInfo (unitNumber d) (controllerKey d - offset_from_bus_number))
  | None =>
      if not_slot disk_slot then
        let taken := taken_units devices controller_key in
        let availSlots := set_minus unit_slots taken in
        if (List.length availSlots =? 0)%nat
        then ret (err "Failed to place new disk - out of disk slots")
        else
          match set_pop e availSlots with
          | None => raise KeyError
          | Some slot => attach_at e vmdk_path v controller_key bus_number slot
          end
      else
        attach_at e vmdk_path v controller_key bus_number
                  (match disk_slot with Some n => n | None => 0 end)
  end.

(** [disk_attach(vmdk_path, vm)] *)
Definition disk_attach (e : env) (vmdk_path : string) (v : vm) : M response :=
  w <- get_world ;;
  let devices := hw w in
  let controllers := List.filter is_scsi_controller devices in
  let pvsci := List.filter is_pvscsi controllers in
  match pvsci with
  | p :: _ =>
      match p with
      | VirtualSCSIController _ key bus => place_disk e vmdk_path v devices None key bus
      | _ => raise AttributeError
      end
  | [] =>
      if (max_scsi_controllers <=? Z.of_nat (List.length controllers))%Z
      then ret (err "Failed to place PVSCI adapter - out of bus slots")
      else
        let taken := List.map busNumber controllers in
        let avail := set_minus (range 0 max_scsi_controllers) taken in
        match set_pop e avail with
        | None => raise KeyError
        | Some key =>
            let controller_key := (key + offset_from_bus_number)%Z in
            fault <- ReconfigVM_Task e [AddController controller_key key] ;;
            match fault with
            | Some ex_msg =>
                ret (RErrorPair "Failed to add PVSCSI Controller: %s" ex_msg)
            | None =>
                place_disk e vmdk_path v devices (Some 0%Z) controller_key key
            end
        end
  end.

(** [disk_detach(vmdk_path, vm)]; the handler is taken to catch the fault of
    the task, as the one of [disk_attach] does. *)
Definition disk_detach (e : env) (vmdk_path : string) (v : vm) : M response :=
  w <- get_world ;;
  device <- lift (findDeviceByPath e vmdk_path (hw w)) ;;
  match device with
  | None =>
      ret (err ("*** Detach failed: disk=" ++ vmdk_path ++ " not found. VM=" ++
                vm_uuid v))
  | Some d =>
      fault <- ReconfigVM_Task e [RemoveDevice d] ;;
      match fault with
      | Some ex_msg => ret (err ("Failed to detach " ++ vmdk_path ++ ": " ++ ex_msg))
      | None =>
          setStatusDetached e vmdk_path ;;;
          ret RNone
      end
  end.

(** [attachVMDK(vmdk_path, vm_uuid)] *)
Definition attachVMDK (e : env) (vmdk_path vm_uuid : string) : M response :=
  v <- findVmByUuid e vm_uuid ;;
  disk_attach e vmdk_path v.

(** [detachVMDK(vmdk_path, vm_uuid)] *)
Definition detachVMDK (e : env) (vmdk_path vm_uuid : string) : M response :=
  v <- findVmByUuid e vm_uuid ;;
  disk_detach e vmdk_path v.

End Ops.

(** ** The request dispatcher *)

Module Dispatch.
Import PyStr PyLib Json Validation Ops.
Local Open Scope string_scope.
Local Open Scope m_scope.

(** [\w] of a [str] pattern: what [isalnum] takes, and the underscore.
    Then the dot; with the dash for a datastore. *)
Definition is_word (c : ascii) : bool := is_alnum c || Ascii.eqb c "_".
Definition is_vol_char (c : ascii) : bool := is_word c || Ascii.eqb c ".".
Definition is_ds_char (c : ascii) : bool := is_vol_char c || Ascii.eqb c "-".

(** Where [$] matches: at the end, or before a last newline. *)
Definition at_end (l : list ascii) : bool :=
  match l with
  | [] => true
  | [c] => (nat_of_ascii c =? 10)%nat
  | _ => false
  end.

(** The groups 1 and 3 of the match of the volume name expression,
    [\A([\w\_.]+)(@([\w\_.\-]+))?$]. *)
Definition match_vol_name (full_vol_name : string) : option (string * option string) :=
  let l := chars full_vol_name in
  let vol := take_while is_vol_char l in
  let rest := drop_while is_vol_char l in
  match vol with
  | [] => None
  | _ =>
      match rest with
      | c :: r =>
          if Ascii.eqb c "@" then
            let ds := take_while is_ds_char r in
            match ds with
            | [] => None
            | _ => if at_end (drop_while is_ds_char r)
                   then Some (str vol, Some (str ds))
                   else None
            end
          else if at_end rest then Some (str vol, None) else None
      | [] => Some (str vol, None)
      end
  end.

(** [parse_vol_name(full_vol_name)] *)
Definition parse_vol_name (full_vol_name : string)
  : ValidationError + (string * option string) :=
  match match_vol_name full_vol_name with
  | None =>
      inl (mkValidationError
             ("Invalid syntax: '" ++ full_vol_name ++ "'." ++ nl ++
              "Valid syntax is volume@datastore, where 'volume' or 'datastore' " ++
              "contain up to 100 of allowed characters ([a-zA-Z0-9_.]) each"))
  | Some (vol_name, ds_name) =>
      if (MAX_VOL_NAME_LEN <? String.length vol_name)%nat
      then inl (mkValidationError "Volume name is too long (max len is 100)")
      else
        match ds_name with
        | Some ds =>
            if (MAX_DS_NAME_LEN <? String.length ds)%nat
            then inl (mkValidationError "Datastore name is too long (max len is 100)")
            else inr (vol_name, ds_name)
        | None => inr (vol_name, ds_name)
        end
  end.

(** [known_datastores()] *)
Definition known_datastores (e : env) : list string :=
  List.map fst (get_datastores e).

(** [get_datastore_name(config_path)] *)
Definition get_datastore_name (e : env) (config_path : string) : exc string :=
  match nth_error (str_split "/" config_path) 3 with
  | None => Raise IndexError
  | Some config_ds_name =>
      let ds_name :=
        List.map fst
          (List.filter (fun x => String.eqb (fst x) config_ds_name
                                 || String.eqb (snd x) config_ds_name)
                       (get_datastores e)) in
      match ds_name with
      | [] => Raise IndexError
      | d :: _ => Ret d
      end
  end.

(** [get_vol_path(datastore)] *)
Definition get_vol_path (e : env) (datastore : string) : M (option string) :=
  let path := path_join (path_join "/vmfs/volumes" datastore) DOCK_VOLS_DIR in
  there <- os_path_isdir e path ;;
  if there then ret (Some path)
  else
    r <- RunCommand e (OSFS_MKDIR_CMD ++ " " ++ path) ;;
    if (fst r =? 0)%Z then ret (Some path) else ret None.

(** The end of [executeRequest], once the datastore is settled: the volume
    directory, the path of the image and the handler of [cmd]. *)
Definition run_on_datastore (e : env) (vm_uuid vm_name cmd vol_name : string)
    (opts : options) (datastore : string) : M response :=
  path <- get_vol_path e datastore ;;
  match path with
  | None => ret (err "Failed to initialize volume path None")
  | Some path =>
      let vmdk_path := get_vmdk_path e path vol_name in
      if String.eqb cmd "get" then getVMDK e vmdk_path vol_name
      else if String.eqb cmd "create"
      then createVMDK e vmdk_path vm_name vol_name opts
      else if String.eqb cmd "remove" then removeVMDK e vmdk_path
      else if String.eqb cmd "attach" then attachVMDK e vmdk_path vm_uuid
      else if String.eqb cmd "detach" then detachVMDK e vmdk_path vm_uuid
      else ret (err ("Unknown command:" ++ cmd))
  end.

Definition invalid_datastore_msg (e : env) (datastore vm_datastore : string) : string :=
  "Invalid datastore '" ++ datastore ++ "'." ++ nl ++
  "Known datastores: " ++ join ", " (known_datastores e) ++ "." ++ nl ++
  "Default datastore: " ++ vm_datastore.

(** [executeRequest(vm_uuid, vm_name, config_path, cmd, full_vol_name, opts)] *)
Definition executeRequest (e : env)
    (vm_uuid vm_name config_path cmd full_vol_name : string) (opts : options)
  : M response :=
  vm_datastore <- lift (get_datastore_name e config_path) ;;
  if String.eqb cmd "list" then listVMDK e vm_datastore
  else
    match parse_vol_name full_vol_name with
    | inl (mkValidationError msg) => ret (err (repr_str e msg))
    | inr (vol_name, ds) =>
        match ds with
        | None =>
            run_on_datastore e vm_uuid vm_name cmd vol_name opts vm_datastore
        | Some datastore =>
            if negb (mem datastore (known_datastores e))
            then ret (err (invalid_datastore_msg e datastore vm_datastore))
            else run_on_datastore e vm_uuid vm_name cmd vol_name opts datastore
        end
    end.

(** The end of [executeRequest] on decoded values: a command that is no
    string is none of the commands, and cannot be appended to the text of
    the error. *)
Definition run_on_datastore_value (e : env) (vm_uuid vm_name : string) (cmd : json)
    (vol_name : string) (opts : json) (datastore : string) : M response :=
  path <- get_vol_path e datastore ;;
  match path with
  | None => ret (err "Failed to initialize volume path None")
  | Some path =>
      let vmdk_path := get_vmdk_path e path vol_name in
      if is_str cmd "get" then getVMDK e vmdk_path vol_name
      else if is_str cmd "create"
      then createVMDK_value e vmdk_path vm_name vol_name opts
      else if is_str cmd "remove" then removeVMDK e vmdk_path
      else if is_str cmd "attach" then attachVMDK e vmdk_path vm_uuid
      else if is_str cmd "detach" then detachVMDK e vmdk_path vm_uuid
      else match cmd with
           | JStr c => ret (err ("Unknown command:" ++ c))
           | _ => raise TypeError
           end
  end.

(** [executeRequest] on the values the loop decoded: the name is matched
    against the expression, which takes a string only, once the command is
    seen not to be [list]. *)
Definition executeRequest_value (e : env) (vm_uuid vm_name config_path : string)
    (cmd full_vol_name opts : json) : M response :=
  vm_datastore <- lift (get_datastore_name e config_path) ;;
  if is_str cmd "list" then listVMDK e vm_datastore
  else
    match full_vol_name with
    | JStr name =>
        match parse_vol_name name with
        | inl (mkValidationError msg) => ret (err (repr_str e msg))
        | inr (vol_name, ds) =>
            match ds with
            | None =>
                run_on_datastore_value e vm_uuid vm_name cmd vol_name opts vm_datastore
            | Some datastore =>
                if negb (mem datastore (known_datastores e))
                then ret (err (invalid_datastore_msg e datastore vm_datastore))
                else run_on_datastore_value e vm_uuid vm_name cmd vol_name opts datastore
            end
        end
    | _ => raise TypeError
    end.

End Dispatch.

(** ** The receive loop *)

Module Loop.
Import PyStr PyLib Json Ops.
Local Open Scope string_scope.

Definition VMCI_ERROR : Z := -1.
Definition ECONNABORTED : Z := 103.

(** What one call of [vmci_get_one_op] leaves: its return value, errno, the
    cartel of the client and the request buffer. *)
Record vmci_op := {
  op_ret : Z;
  op_errno : Z;
  op_cartel : Z;
  op_buf : string
}.

(** The values the handlers return and [json.dumps] is given: those of
    [json], and the tuple. *)
Inductive pyvalue :=
| PNone
| PBool (b : bool)
| PInt (n : Z)
| PFloat (lit : string)
| PStr (s : string)
| PList (l : list pyvalue)
| PTuple (l : list pyvalue)
| PDict (items : list (string * pyvalue)).

(** What [json.dumps] writes for a value: a tuple is written as an array,
    as a list is. *)
Fixpoint json_of_value (v : pyvalue) : json :=
  match v with
  | PNone => JNull
  | PBool b => JBool b
  | PInt n => JInt n
  | PFloat lit => JFloat lit
  | PStr s => JStr s
  | PList l => JArr (List.map json_of_value l)
  | PTuple l => JArr (List.map json_of_value l)
  | PDict items => JObj (List.map (fun kv => (fst kv, json_of_value (snd kv))) items)
  end.

(** What [json.loads] gives for a JSON value: an array is read as a list. *)
Fixpoint value_of_json (j : json) : pyvalue :=
  match j with
  | JNull => PNone
  | JBool b => PBool b
  | JInt n => PInt n
  | JFloat lit => PFloat lit
  | JStr s => PStr s
  | JArr l => PList (List.map value_of_json l)
  | JObj items => PDict (List.map (fun kv => (fst kv, value_of_json (snd kv))) items)
  end.

(** The value a response is: [None], [err(string)], [busInfo(unit, bus)] and
    the list of [listVMDK]. *)
Definition value_of_response (r : response) : pyvalue :=
  match r with
  | RNone => PNone
  | RError msg => PDict [("Error", PStr msg)]
  | RErrorPair fmt msg => PDict [("Error", PTuple [PStr fmt; PStr msg])]
  | RBusInfo u b => PDict [("Unit", PStr u); ("Bus", PStr b)]
  | RVolumes names =>
      PList (List.map (fun n => PDict [("Name", PStr n); ("Attributes", PDict [])]) names)
  end.

(** The reply payload as [json.dumps] writes it. *)
Definition json_of_response (r : response) : json :=
  json_of_value (value_of_response r).

(** The uuid in the form pyVmomi expects, from the 16 groups of the VSI
    form. *)
Definition format_uuid (uuid : string) : exc string :=
  match words (replace "-" " " uuid) with
  | g0 :: g1 :: g2 :: g3 :: g4 :: g5 :: g6 :: g7 :: g8 :: g9 :: g10 :: g11
    :: g12 :: g13 :: g14 :: g15 :: _ =>
      Ret (g0 ++ g1 ++ g2 ++ g3 ++ "-" ++ g4 ++ g5 ++ "-" ++ g6 ++ g7 ++ "-" ++
           g8 ++ g9 ++ "-" ++ g10 ++ g11 ++ g12 ++ g13 ++ g14 ++ g15)
  | _ => Raise IndexError
  end.

(** The answer to a buffer that is not JSON; [txt.value] is the text of the
    buffer. *)
Definition parse_error (buf : string) : response :=
  RError ("Failed to parse json '" ++ buf ++ "'.").

(** The dispatcher, as the loop calls it: [vm_uuid], [vm_name], [config_path],
    then [cmd], [full_vol_name] and [opts] as they were decoded. *)
Definition dispatcher : Type :=
  string -> string -> string -> json -> json -> json -> M response.

Section Serve.

Variable execute : dispatcher.

(** The [else] branch of the decoding: the fields of the request, then the
    dispatcher. *)
Definition run_request (vm_uuid vm_name cfg_path : string) (req : json) : M response :=
  bind (lift (KV.getitem req "details")) (fun details =>
  bind (lift (KV.contains details "Opts")) (fun has_opts =>
  bind (lift (if has_opts then KV.getitem details "Opts" else Ret (JObj []))) (fun opts =>
  bind (lift (KV.getitem req "cmd")) (fun cmd =>
  bind (lift (KV.getitem details "Name")) (fun name =>
  execute vm_uuid vm_name cfg_path cmd name opts))))).

(** What one turn of the loop does with the counter. *)
Inductive turn :=
| Skip (skip_count : Z)                  (* continue *)
| Reply (c : Z) (ret_string : string)    (* vmci_reply(c, ret_string) *)
| Stop (x : pyexc).                      (* an exception leaves the loop *)

(** The body of [while True] in [handleVmciRequests]. *)
Definition serve_one (e : env) (op : vmci_op) (skip_count : Z) (w : world)
  : turn * world :=
  if (op_errno op =? ECONNABORTED)%Z then (Skip skip_count, w)
  else if (op_ret op =? VMCI_ERROR)%Z then
    let skip_count := (skip_count - 1)%Z in
    if (skip_count <=? 0)%Z
    then (Stop (GiveUp "vmci_get_one_op: too many errors. Giving up."), w)
    else (Skip skip_count, w)
  else
    match vmm_group_info e (op_cartel op) with
    | Raise x => (Stop x, w)
    | Ret (vm_name, cfg_path, uuid) =>
        match format_uuid uuid with
        | Raise x => (Stop x, w)
        | Ret vm_uuid =>
            match loads (op_buf op) with
            | None => (Reply (op_ret op) (dumps (json_of_response (parse_error (op_buf op)))), w)
            | Some req =>
                match run_request vm_uuid vm_name cfg_path req w with
                | (Raise x, w') => (Stop x, w')
                | (Ret r, w') => (Reply (op_ret op) (dumps (json_of_response r)), w')
                end
            end
        end
    end.

(** The state of the loop between two turns. *)
Inductive loop_state :=
| Serving (skip_count : Z)
| Stopped (x : pyexc).

(** The loop over the operations received, from the counter [skip_count];
    the replies are listed oldest first. *)
Fixpoint serve (e : env) (ops : list vmci_op) (skip_count : Z) (w : world)
  : loop_state * list (Z * string) * world :=
  match ops with
  | [] => (Serving skip_count, [], w)
  | op :: rest =>
      match serve_one e op skip_count w with
      | (Skip n, w') => serve e rest n w'
      | (Reply c s, w') =>
          match serve e rest MAX_SKIP_COUNT w' with
          | (st, out, w'') => (st, (c, s) :: out, w'')
          end
      | (Stop x, w') => (Stopped x, [], w')
      end
  end.

End Serve.

(** The dispatcher of the service: [executeRequest], on the values as they
    were decoded. *)
Definition execute_decoded (e : env) : dispatcher :=
  Dispatch.executeRequest_value e.

(** [handleVmciRequests], once the socket is open, over the operations
    received. *)
Definition handleVmciRequests (e : env) (ops : list vmci_op) (w : world)
  : loop_state * list (Z * string) * world :=
  serve (execute_decoded e) e ops MAX_SKIP_COUNT w.

End Loop.

(** ** A small host to run the model on *)

Module Testbed.
Import PyStr PyLib Json Ops.
Local Open Scope string_scope.

Definition scsi_kind_eqb (a b : scsi_kind) : bool :=
  match a, b with
  | ParaVirtual, ParaVirtual | LsiLogic, LsiLogic
  | LsiLogicSAS, LsiLogicSAS | BusLogic, BusLogic => true
  | _, _ => false
  end.

Definition device_eqb (a b : device) : bool :=
  match a, b with
  | VirtualDisk ck u f, VirtualDisk ck' u' f' =>
      (ck =? ck')%Z && (u =? u')%Z && String.eqb f f'
  | VirtualSCSIController k key bus, VirtualSCSIController k' key' bus' =>
      scsi_kind_eqb k k' && (key =? key')%Z && (bus =? bus')%Z
  | OtherDevice k, OtherDevice k' => (k =? k')%Z
  | _, _ => false
  end.

(** The backing file name the host reports for a disk added as [[] path]:
    the datastore, then the last directory and the file. *)
Definition resolved_file_name (fileName : string) : string :=
  match str_split " " fileName with
  | _ :: p :: _ =>
      "[" ++ basename (dirname (dirname p)) ++ "] " ++
      path_join (basename (dirname p)) (basename p)
  | _ => fileName
  end.

Definition apply_change (devs : list device) (c : device_change) : list device :=
  match c with
  | AddController key bus => (devs ++ [VirtualSCSIController ParaVirtual key bus])%list
  | AddDisk f u ck => (devs ++ [VirtualDisk ck u (resolved_file_name f)])%list
  | RemoveDevice d => List.filter (fun x => negb (device_eqb x d)) devs
  end.

(** The descriptor of an image on VSAN: the extent line names the object. *)
Definition vsan_uuid : string := "e8f1b356-3c21-0ecb-a8ab-020043d4b1e4".

Definition vsan_descriptor : string :=
  "# Disk DescriptorFile" ++ nl ++
  "version=1" ++ nl ++
  "CID=fffffffe" ++ nl ++
  "createType=" ++ str [dquote] ++ "vmfs" ++ str [dquote] ++ nl ++
  nl ++
  "# Extent description" ++ nl ++
  "RW 209715200 VMFS " ++ str [dquote] ++ "vsan://" ++ vsan_uuid ++ str [dquote] ++ nl.

(** A host on which every command and every reconfiguration succeeds, with
    one datastore [ds1] and CPython's [set.pop]. *)
Definition host : env := {|
  set_pop := cpython_pop;
  format_value := fun v => match v with JStr s => s | _ => "None" end;
  repr_str := fun s => "'" ++ s ++ "'";
  repr_strs := fun l => "[" ++ join ", " (List.map (fun s => "'" ++ s ++ "'") l) ++ "]";
  repr_opt_defaults := "<zip>";
  asctime := "Thu Jan  1 00:00:00 1970";
  run_command := fun _ _ => (0%Z, "");
  isfile := fun _ _ => false;
  isdir := fun _ _ => true;
  realpath := fun p => p;
  read_file := fun _ _ => Ret vsan_descriptor;
  get_kv_name := fun p => replace ".vmdk" ".vmfd" p;
  create_kv := fun _ => true;
  get_datastores := [("ds1", "5a0b1c2d")];
  get_vmdk_path := fun path vol => path_join path (vol ++ ".vmdk");
  get_volumes := [];
  strip_vmdk_extension := fun f => replace ".vmdk" "" f;
  is_on_vsan := fun _ => false;
  policy_exists := fun _ => false;
  policy_path := fun n => "/vmfs/volumes/vsanDatastore/dockvols/policies/" ++ n;
  policy_exists_value := fun _ => Raise TypeError;
  policy_path_value := fun _ => Raise TypeError;
  reconfig := fun devs spec => inr (fold_left apply_change spec devs);
  find_by_uuid := fun _ u => Ret (Some {| vm_uuid := u; vm_name := "vm1" |});
  vmm_group_info := fun _ =>
    Ret ("vm1", "/vmfs/volumes/ds1/vm1/vm1.vmx",
         "56 4d ac 12 b1 a0 f7 35-0d f3 bc eb 00 b3 03 40")
|}.

(** The same host with a vmkfstools that fails to delete and a [disk_ops]
    that fails to create the side car. *)
Definition host_kv_and_delete_fail : env := {|
  set_pop := set_pop host;
  format_value := format_value host;
  repr_str := repr_str host;
  repr_strs := repr_strs host;
  repr_opt_defaults := repr_opt_defaults host;
  asctime := asctime host;
  run_command := fun _ cmd =>
    if startswith cmd VMDK_DELETE_CMD then (1%Z, "Device or resource busy")
    else (0%Z, "");
  isfile := isfile host;
  isdir := isdir host;
  realpath := realpath host;
  read_file := read_file host;
  get_kv_name := get_kv_name host;
  create_kv := fun _ => false;
  get_datastores := get_datastores host;
  get_vmdk_path := get_vmdk_path host;
  get_volumes := get_volumes host;
  strip_vmdk_extension := strip_vmdk_extension host;
  is_on_vsan := is_on_vsan host;
  policy_exists := policy_exists host;
  policy_path := policy_path host;
  policy_exists_value := policy_exists_value host;
  policy_path_value := policy_path_value host;
  reconfig := reconfig host;
  find_by_uuid := find_by_uuid host;
  vmm_group_info := vmm_group_info host
|}.

(** Three things the socket can deliver: a failure that is counted, a
    failure with errno ECONNABORTED, and a buffer that is not JSON. *)
Definition failed_receive : Loop.vmci_op :=
  {| Loop.op_ret := Loop.VMCI_ERROR; Loop.op_errno := 104;
     Loop.op_cartel := 0; Loop.op_buf := "" |}.

Definition aborted_receive : Loop.vmci_op :=
  {| Loop.op_ret := Loop.VMCI_ERROR; Loop.op_errno := Loop.ECONNABORTED;
     Loop.op_cartel := 0; Loop.op_buf := "" |}.

Definition not_json : Loop.vmci_op :=
  {| Loop.op_ret := 7; Loop.op_errno := 0;
     Loop.op_cartel := 1234; Loop.op_buf := "{cmd" |}.

Definition empty_store : store :=
  {| files := ∅; unreadable := ∅; unwritable := ∅ |}.

Definition world_of (devs : list device) (st : store) : world :=
  {| kvstore := st; hw := devs; reqs := []; cmds := [] |}.

Definition vm1 : vm := {| vm_uuid := "564dac12-b1a0-f735-0df3-bceb00b30340"; vm_name := "vm1" |}.

Definition v1_path : string := "/vmfs/volumes/ds1/dockvols/v1.vmdk".

(** The record of a volume just created. *)
Definition record0 : dict :=
  [(KV.STATUS, JStr KV.DETACHED);
   (KV.VOL_OPTS, JObj [(KV.SIZE, JStr "1gb")]);
   (KV.CREATED, JStr "Thu Jan  1 00:00:00 1970");
   (KV.CREATED_BY, JStr "vm1")].
Definition v1_disk (ck u : Z) : device := VirtualDisk ck u "[ds1] dockvols/v1.vmdk".
Definition other_disk (ck u : Z) : device := VirtualDisk ck u "[ds1] vm1/vm1.vmdk".

End Testbed.


(** ** Notions the properties are stated with *)

Module Spec.
Import PyStr PyLib Json Ops.

(** The side car of [vol_path] holds the padded dump of the record [d]. *)
Definition stored_record (e : env) (st : store) (vol_path : string) (d : dict)
  : Prop :=
  exists text,
    files st !! get_kv_name e vol_path = Some text
    /\ KV.align_str (dumps (JObj d)) KV.KV_ALIGN = Some text.

(** The record says: attached, to the VM [v]. *)
Definition attached_to (v : vm) (d : dict) : Prop :=
  dict_get KV.STATUS d = Some (JStr KV.ATTACHED)
  /\ dict_get KV.ATTACHED_VM_UUID d = Some (JStr (vm_uuid v))
  /\ dict_get KV.ATTACHED_VM_NAME d = Some (JStr (vm_name v)).





(** The datastore a request is run on: the one its volume names, the one of
    the VM otherwise. *)
Definition datastore_of (ds : option string) (vm_datastore : string) : string :=
  match ds with Some d => d | None => vm_datastore end.



Definition received (op : Loop.vmci_op) : Prop :=
  Loop.op_ret op <> Loop.VMCI_ERROR /\ Loop.op_errno op <> Loop.ECONNABORTED.


(** The reconfiguration requests issued from [w] to [w']. *)
Definition issued (w w' : world) : list config_spec :=
  skipn (List.length (reqs w)) (reqs w').

(** The VM has a paravirtual SCSI controller. *)
Definition has_pvscsi (devs : list device) : bool := existsb is_pvscsi devs.

(** The SCSI controllers of the VM. *)
Definition controllers (devs : list device) : list device :=
  List.filter is_scsi_controller devs.

(** The bus numbers no controller has, and the units of a controller that
    hold no disk, as [disk_attach] computes them. *)
Definition bus_slots (devs : list device) : list Z :=
  set_minus (range 0 max_scsi_controllers) (List.map busNumber (controllers devs)).

Definition free_units (devs : list device) (ck : Z) : list Z :=
  set_minus unit_slots (taken_units devs ck).

(** The two capacity errors. *)
Definition out_of_bus_slots : response :=
  RError "Failed to place PVSCI adapter - out of bus slots".

Definition out_of_disk_slots : response :=
  RError "Failed to place new disk - out of disk slots".

(** The record [setStatusAttached] writes over [d]. *)
Definition attached_record (v : vm) (d : dict) : dict :=
  dict_set KV.ATTACHED_VM_NAME (JStr (vm_name v))
    (dict_set KV.ATTACHED_VM_UUID (JStr (vm_uuid v))
       (dict_set KV.STATUS (JStr KV.ATTACHED) d)).

(** [x] is the least element of [s]. *)
Definition lowest (x : Z) (s : list Z) : Prop :=
  In x s /\ forall y, In y s -> (x <= y)%Z.

(** The unit [u] of the controller [ck] holds a disk. *)
Definition occupied (devs : list device) (ck u : Z) : Prop :=
  exists f, In (VirtualDisk ck u f) devs.

End Spec.

(** ** Further notions *)

Module Notions.
Import PyStr PyLib Json Ops.
Local Open Scope string_scope.

(** The size [align_str] gives a text of [n] characters, newline included:
    the next multiple of [block], but [n + 1] when [n] is a multiple
    itself. *)
Definition aligned_size (n block : Z) : Z :=
  (if n mod block =? 0 then n + 1 else (n / block + 1) * block)%Z.

(** Names the volume name expression takes for a volume and for a
    datastore. *)
Definition valid_vol_name (s : string) : bool :=
  negb (String.eqb s "") && forallb Dispatch.is_vol_char (chars s)
  && (String.length s <=? MAX_VOL_NAME_LEN)%nat.

Definition valid_ds_name (s : string) : bool :=
  negb (String.eqb s "") && forallb Dispatch.is_ds_char (chars s)
  && (String.length s <=? MAX_DS_NAME_LEN)%nat.

(** The record [create_kv_store] writes. *)
Definition created_record (e : env) (vm_name : string) (opts : options) : dict :=
  [(KV.STATUS, JStr KV.DETACHED);
   (KV.VOL_OPTS, json_of_options opts);
   (KV.CREATED, JStr (asctime e));
   (KV.CREATED_BY, JStr vm_name)].

(** A request was received: neither a failure nor a client on a port
    without privilege. *)
Definition is_received (op : Loop.vmci_op) : bool :=
  negb (Loop.op_errno op =? Loop.ECONNABORTED)%Z
  && negb (Loop.op_ret op =? Loop.VMCI_ERROR)%Z.

End Notions.

(** ** Further hosts *)

Module Hosts.
Import PyStr PyLib Json Ops Testbed.
Local Open Scope string_scope.

(** The host of [Testbed] with a flat backing file beside every image. *)
Definition host_flat : env := {|
  set_pop := set_pop host;
  format_value := format_value host;
  repr_str := repr_str host;
  repr_strs := repr_strs host;
  repr_opt_defaults := repr_opt_defaults host;
  asctime := asctime host;
  run_command := run_command host;
  isfile := fun _ p => endswith p "-flat.vmdk";
  isdir := isdir host;
  realpath := realpath host;
  read_file := read_file host;
  get_kv_name := get_kv_name host;
  create_kv := create_kv host;
  get_datastores := get_datastores host;
  get_vmdk_path := get_vmdk_path host;
  get_volumes := get_volumes host;
  strip_vmdk_extension := strip_vmdk_extension host;
  is_on_vsan := is_on_vsan host;
  policy_exists := policy_exists host;
  policy_path := policy_path host;
  policy_exists_value := policy_exists_value host;
  policy_path_value := policy_path_value host;
  reconfig := reconfig host;
  find_by_uuid := find_by_uuid host;
  vmm_group_info := vmm_group_info host
|}.

(** The host of [Testbed] without volume directories and with a mkdir that
    fails. *)
Definition host_no_dir : env := {|
  set_pop := set_pop host;
  format_value := format_value host;
  repr_str := repr_str host;
  repr_strs := repr_strs host;
  repr_opt_defaults := repr_opt_defaults host;
  asctime := asctime host;
  run_command := fun _ _ => (1%Z, "No space left on device");
  isfile := isfile host;
  isdir := fun _ _ => false;
  realpath := realpath host;
  read_file := read_file host;
  get_kv_name := get_kv_name host;
  create_kv := create_kv host;
  get_datastores := get_datastores host;
  get_vmdk_path := get_vmdk_path host;
  get_volumes := get_volumes host;
  strip_vmdk_extension := strip_vmdk_extension host;
  is_on_vsan := is_on_vsan host;
  policy_exists := policy_exists host;
  policy_path := policy_path host;
  policy_exists_value := policy_exists_value host;
  policy_path_value := policy_path_value host;
  reconfig := reconfig host;
  find_by_uuid := find_by_uuid host;
  vmm_group_info := vmm_group_info host
|}.

(** The host of [Testbed] with a hypervisor that refuses every
    reconfiguration. *)
Definition host_faulty : env := {|
  set_pop := set_pop host;
  format_value := format_value host;
  repr_str := repr_str host;
  repr_strs := repr_strs host;
  repr_opt_defaults := repr_opt_defaults host;
  asctime := asctime host;
  run_command := run_command host;
  isfile := isfile host;
  isdir := isdir host;
  realpath := realpath host;
  read_file := read_file host;
  get_kv_name := get_kv_name host;
  create_kv := create_kv host;
  get_datastores := get_datastores host;
  get_vmdk_path := get_vmdk_path host;
  get_volumes := get_volumes host;
  strip_vmdk_extension := strip_vmdk_extension host;
  is_on_vsan := is_on_vsan host;
  policy_exists := policy_exists host;
  policy_path := policy_path host;
  policy_exists_value := policy_exists_value host;
  policy_path_value := policy_path_value host;
  reconfig := fun _ _ => inl "The operation is not allowed";
  find_by_uuid := find_by_uuid host;
  vmm_group_info := vmm_group_info host
|}.

(** The host of [Testbed] on VSAN: no flat file, and the objects under the
    devices. *)
Definition host_vsan : env := {|
  set_pop := set_pop host;
  format_value := format_value host;
  repr_str := repr_str host;
  repr_strs := repr_strs host;
  repr_opt_defaults := repr_opt_defaults host;
  asctime := asctime host;
  run_command := run_command host;
  isfile := fun _ p => startswith p "/vmfs/devices/vsan/";
  isdir := isdir host;
  realpath := realpath host;
  read_file := read_file host;
  get_kv_name := get_kv_name host;
  create_kv := create_kv host;
  get_datastores := get_datastores host;
  get_vmdk_path := get_vmdk_path host;
  get_volumes := get_volumes host;
  strip_vmdk_extension := strip_vmdk_extension host;
  is_on_vsan := is_on_vsan host;
  policy_exists := policy_exists host;
  policy_path := policy_path host;
  policy_exists_value := policy_exists_value host;
  policy_path_value := policy_path_value host;
  reconfig := reconfig host;
  find_by_uuid := find_by_uuid host;
  vmm_group_info := vmm_group_info host
|}.

(** The host of [Testbed] with descriptors that cannot be opened. *)
Definition host_no_descriptor : env := {|
  set_pop := set_pop host;
  format_value := format_value host;
  repr_str := repr_str host;
  repr_strs := repr_strs host;
  repr_opt_defaults := repr_opt_defaults host;
  asctime := asctime host;
  run_command := run_command host;
  isfile := isfile host;
  isdir := isdir host;
  realpath := realpath host;
  read_file := fun _ _ => Raise OSError;
  get_kv_name := get_kv_name host;
  create_kv := create_kv host;
  get_datastores := get_datastores host;
  get_vmdk_path := get_vmdk_path host;
  get_volumes := get_volumes host;
  strip_vmdk_extension := strip_vmdk_extension host;
  is_on_vsan := is_on_vsan host;
  policy_exists := policy_exists host;
  policy_path := policy_path host;
  policy_exists_value := policy_exists_value host;
  policy_path_value := policy_path_value host;
  reconfig := reconfig host;
  find_by_uuid := find_by_uuid host;
  vmm_group_info := vmm_group_info host
|}.

(** A request that is JSON, and a dict, and has no key. *)
Definition empty_request : Loop.vmci_op :=
  {| Loop.op_ret := 7; Loop.op_errno := 0;
     Loop.op_cartel := 1234; Loop.op_buf := "{}" |}.

End Hosts.
(** * Properties *)

(** ** Strings *)

Module PyStrFacts.
Import PyStr.
Local Open Scope list_scope.

Lemma chars_str (l : list ascii) : chars (str l) = l.
Proof. apply list_ascii_of_string_of_list_ascii. Qed.

Lemma str_chars (s : string) : str (chars s) = s.
Proof. apply string_of_list_ascii_of_string. Qed.

Lemma chars_app (a b : string) : chars (a ++ b)%string = chars a ++ chars b.
Proof. induction a as [|c a IH]; simpl; [reflexivity | now rewrite IH]. Qed.

Lemma str_app (a b : list ascii) : str (a ++ b) = (str a ++ str b)%string.
Proof. induction a as [|c a IH]; simpl; [reflexivity | now rewrite IH]. Qed.

Lemma length_chars (s : string) : String.length s = List.length (chars s).
Proof. induction s as [|c s IH]; simpl; [reflexivity | now rewrite IH]. Qed.

Lemma chars_inj (a b : string) : chars a = chars b -> a = b.
Proof. intros H. rewrite <- (str_chars a), <- (str_chars b). now rewrite H. Qed.

Lemma length_lower (s : string) : String.length (lower s) = String.length s.
Proof.
  unfold lower. now rewrite !length_chars, chars_str, length_map.
Qed.

Lemma lower_app (a b : string) : lower (a ++ b)%string = (lower a ++ lower b)%string.
Proof. unfold lower. now rewrite chars_app, map_app, str_app. Qed.

(** The last [k] characters of the lowered text are the lowered last [k]. *)
Lemma take_last_lower (k : nat) (s : string) :
  take_last k (lower s) = lower (take_last k s).
Proof.
  unfold take_last, lower.
  rewrite !length_chars, !chars_str, length_map. f_equal.
  now rewrite skipn_map.
Qed.

Lemma drop_take_last (k : nat) (s : string) :
  (drop_last k s ++ take_last k s)%string = s.
Proof.
  unfold drop_last, take_last. rewrite <- str_app, firstn_skipn. apply str_chars.
Qed.

Lemma drop_last_app (d u : string) :
  drop_last (String.length u) (d ++ u)%string = d.
Proof.
  unfold drop_last. rewrite !length_chars, chars_app, length_app.
  replace (List.length (chars d) + List.length (chars u) - List.length (chars u))%nat
    with (List.length (chars d) + 0)%nat by lia.
  rewrite firstn_app_2. simpl. rewrite List.app_nil_r. apply str_chars.
Qed.

Lemma take_last_app (d u : string) :
  take_last (String.length u) (d ++ u)%string = u.
Proof.
  unfold take_last. rewrite !length_chars, chars_app, length_app.
  replace (List.length (chars d) + List.length (chars u) - List.length (chars u))%nat
    with (List.length (chars d)) by lia.
  rewrite skipn_app, skipn_all, Nat.sub_diag. simpl. apply str_chars.
Qed.

Lemma length_take_last (k : nat) (s : string) :
  (k <= String.length s)%nat -> String.length (take_last k s) = k.
Proof.
  intros H. unfold take_last.
  rewrite length_chars, chars_str, length_skipn, <- length_chars. lia.
Qed.

Lemma mem_In (x : string) (l : list string) : mem x l = true <-> In x l.
Proof.
  unfold mem. rewrite existsb_exists. split.
  - intros [y [Hy E]]. apply String.eqb_eq in E. now subst.
  - intros H. exists x. split; [assumption | apply String.eqb_refl].
Qed.

Lemma endswith_spec (s suf : string) :
  endswith s suf = true <->
  (String.length suf <= String.length s)%nat /\ take_last (String.length suf) s = suf.
Proof.
  unfold endswith. rewrite andb_true_iff, Nat.leb_le, String.eqb_eq. reflexivity.
Qed.

End PyStrFacts.

(** ** Size validation *)

Module ValidationFacts.
Import PyStr PyStrFacts Validation.

Lemma unit_length (u : string) : In u size_units -> String.length u = 2%nat.
Proof.
  unfold size_units. simpl.
  intros [H | [H | [H | [H | []]]]]; subst; reflexivity.
Qed.

(** What [validate_size] accepts: digits, then two characters that are a
    unit once lowered. *)
Lemma validate_size_accepts (size : string) :
  validate_size size = inr tt <->
  exists d u, size = (d ++ u)%string /\ isdigit d = true
              /\ mem (lower u) size_units = true.
Proof.
  unfold validate_size. split.
  - destruct (endswith_any (lower size) size_units) eqn:E;
      cbn [negb orb]; [|discriminate].
    destruct (isdigit (drop_last 2 size)) eqn:D; cbn [negb]; [|discriminate].
    intros _. exists (drop_last 2 size), (take_last 2 size).
    split; [symmetry; apply drop_take_last|]. split; [assumption|].
    unfold endswith_any in E. apply existsb_exists in E.
    destruct E as [u [Hu E]]. apply endswith_spec in E. destruct E as [_ E].
    rewrite (unit_length u Hu), take_last_lower in E.
    apply mem_In. now rewrite E.
  - intros [d [u [-> [D U]]]].
    apply mem_In in U. pose proof (unit_length _ U) as L.
    rewrite length_lower in L.
    assert (E : endswith_any (lower (d ++ u)) size_units = true).
    { unfold endswith_any. apply existsb_exists. exists (lower u).
      split; [assumption|]. apply endswith_spec.
      rewrite lower_app, take_last_app. split; [|reflexivity].
      rewrite !length_chars, chars_app, length_app. lia. }
    rewrite E. rewrite <- L, drop_last_app, D. reflexivity.
Qed.

(** The letters [lower] takes to the first and to the second letter of a
    unit: the letter itself and its capital. *)
Lemma lower_char_unit_head (a : ascii) :
  existsb (Ascii.eqb (lower_char a)) ["k"; "m"; "g"; "t"]%char
  = existsb (Nat.eqb (nat_of_ascii a)) [75; 107; 77; 109; 71; 103; 84; 116]%nat.
Proof. destruct a as [[] [] [] [] [] [] [] []]; reflexivity. Qed.

Lemma lower_char_unit_tail (b : ascii) :
  Ascii.eqb (lower_char b) "b" = existsb (Nat.eqb (nat_of_ascii b)) [66; 98]%nat.
Proof. destruct b as [[] [] [] [] [] [] [] []]; reflexivity. Qed.

Lemma existsb_nat_In (n : nat) (l : list nat) :
  existsb (Nat.eqb n) l = true <-> In n l.
Proof.
  rewrite existsb_exists. split.
  - intros [m [Hm E]]. apply Nat.eqb_eq in E. now subst.
  - intros H. exists n. split; [assumption | apply Nat.eqb_refl].
Qed.

Lemma lower_two (a b : ascii) :
  lower (String a (String b EmptyString))
  = String (lower_char a) (String (lower_char b) EmptyString).
Proof. reflexivity. Qed.

Lemma mem_units_two (x y : ascii) :
  mem (String x (String y EmptyString)) size_units
  = existsb (Ascii.eqb x) ["k"; "m"; "g"; "t"]%char && Ascii.eqb y "b".
Proof.
  unfold mem, size_units. cbn [existsb String.eqb].
  destruct (Ascii.eqb x "k"), (Ascii.eqb x "m"), (Ascii.eqb x "g"), (Ascii.eqb x "t"),
    (Ascii.eqb y "b"); reflexivity.
Qed.

(** What a unit is, letter case apart. *)
Lemma unit_spec (u : string) :
  mem (lower u) size_units = true <->
  exists a b, u = String a (String b EmptyString)
              /\ In (nat_of_ascii a) [75; 107; 77; 109; 71; 103; 84; 116]%nat
              /\ In (nat_of_ascii b) [66; 98]%nat.
Proof.
  split.
  - intros H. assert (L : String.length u = 2%nat).
    { rewrite <- (length_lower u). apply unit_length. now apply mem_In. }
    destruct u as [|a [|b [|c u]]]; try discriminate L.
    exists a, b. split; [reflexivity|].
    rewrite lower_two, mem_units_two, lower_char_unit_head, lower_char_unit_tail in H.
    apply andb_true_iff in H. destruct H as [Ha Hb].
    split; now apply existsb_nat_In.
  - intros [a [b [-> [Ha Hb]]]].
    rewrite lower_two, mem_units_two, lower_char_unit_head, lower_char_unit_tail.
    apply andb_true_iff. split; now apply existsb_nat_In.
Qed.

(** The characters [isdigit] takes. *)
Lemma is_unicode_digit_spec (c : ascii) :
  is_unicode_digit c = true <->
  (48 <= nat_of_ascii c <= 57 \/ nat_of_ascii c = 178 \/ nat_of_ascii c = 179
   \/ nat_of_ascii c = 185)%nat.
Proof.
  unfold is_unicode_digit, is_digit, between. cbv zeta.
  rewrite !orb_true_iff, !andb_true_iff, !Nat.leb_le. lia.
Qed.

Lemma isdigit_spec (d : string) :
  isdigit d = true <->
  d <> EmptyString
  /\ forall c, In c (chars d) ->
       (48 <= nat_of_ascii c <= 57 \/ nat_of_ascii c = 178 \/ nat_of_ascii c = 179
        \/ nat_of_ascii c = 185)%nat.
Proof.
  unfold isdigit. destruct d as [|c0 d].
  - cbn. split; [discriminate | now intros [H _]].
  - change (chars (String c0 d)) with (c0 :: chars d).
    rewrite forallb_forall. split.
    + intros H. split; [discriminate|].
      intros c Hc. apply is_unicode_digit_spec. now apply H.
    + intros [_ H] c Hc. apply is_unicode_digit_spec. now apply H.
Qed.

(** C2, as stated, fails at [0mb]: the code accepts it, and it is no positive
    integer followed by a unit. *)
Lemma validate_size_zero_accepted :
  validate_size "0mb" = inr tt /\ spec_size "0mb" = false.
Proof. split; reflexivity. Qed.

(** C2, amended: [validate_size] accepts a size exactly when it is a
    non-empty run of digits followed at once by [kb], [mb], [gb] or [tb] in
    any letter case, and raises ValidationError otherwise.  A digit is a
    character [str.isdigit] takes: one of the ten decimal digits, zero and
    leading zeros included, or one of the superscripts two, three and one
    (178, 179, 185), so that a superscript two followed by [mb] is
    accepted.  [100mb] is accepted and [100], [-5gb], [10xb] are
    rejected. *)
Theorem validate_size_digits_then_unit :
  (forall size,
      validate_size size = inr tt <->
      exists d u, size = (d ++ u)%string /\ isdigit d = true
                  /\ mem (lower u) size_units = true)
  /\ (forall size,
        validate_size size = inr tt
        \/ validate_size size = inl (mkValidationError size_msg))
  /\ (forall d,
        isdigit d = true <->
        d <> EmptyString
        /\ forall c, In c (chars d) ->
             (48 <= nat_of_ascii c <= 57 \/ nat_of_ascii c = 178
              \/ nat_of_ascii c = 179 \/ nat_of_ascii c = 185)%nat)
  /\ (forall u,
        mem (lower u) size_units = true <->
        exists a b, u = String a (String b EmptyString)
                    /\ In (nat_of_ascii a) [75; 107; 77; 109; 71; 103; 84; 116]%nat
                    /\ In (nat_of_ascii b) [66; 98]%nat)
  /\ validate_size "100mb" = inr tt
  /\ validate_size "007Gb" = inr tt
  /\ validate_size (String (ascii_of_nat 178) "mb") = inr tt
  /\ validate_size "100" = inl (mkValidationError size_msg)
  /\ validate_size "-5gb" = inl (mkValidationError size_msg)
  /\ validate_size "10xb" = inl (mkValidationError size_msg).
Proof.
  split; [exact validate_size_accepts|].
  split.
  { intros size. unfold validate_size.
    destruct (_ || _); [right | left]; reflexivity. }
  split; [exact isdigit_spec|].
  split; [exact unit_spec|].
  repeat split; reflexivity.
Qed.

End ValidationFacts.

(** ** The JSON codec *)

Module JsonFacts.
Import PyStr PyStrFacts Json.
Local Open Scope list_scope.

(** *** String literals *)

Lemma scan_escape_char (c : ascii) (tail : list ascii) :
  scan_string (escape_char c ++ tail) = opt_cons c (scan_string tail).
Proof.
  destruct c as [[] [] [] [] [] [] [] []]; reflexivity.
Qed.

Lemma scan_string_escaped (l tail : list ascii) :
  scan_string (flat_map escape_char l ++ dq :: tail) = Some (l, tail).
Proof.
  induction l as [|c l IH]; simpl.
  - reflexivity.
  - rewrite <- app_assoc, scan_escape_char, IH. reflexivity.
Qed.

(** [quote s] without its opening quote reads back as [s]. *)
Lemma scan_string_quote (s : string) (tail : list ascii) :
  exists body, quote s = dq :: body
               /\ scan_string (body ++ tail) = Some (chars s, tail).
Proof.
  exists (flat_map escape_char (chars s) ++ [dq]). split; [reflexivity|].
  rewrite <- app_assoc. apply scan_string_escaped.
Qed.

(** *** Numbers *)

#[local] Arguments is_digit : simpl never.

Lemma uint_digits (d : uint) :
  forallb is_digit (chars (NilEmpty.string_of_uint d)) = true.
Proof. induction d; simpl; auto. Qed.

Lemma span_digits_app (ds tail : list ascii) :
  forallb is_digit ds = true -> no_digit_head tail = true ->
  span_digits (ds ++ tail) = (ds, tail).
Proof.
  intros Hd Ht. induction ds as [|c ds IH]; simpl in *.
  - destruct tail as [|c tail]; [reflexivity|]. simpl in Ht |- *.
    apply negb_true_iff in Ht. now rewrite Ht.
  - apply andb_true_iff in Hd. destruct Hd as [Hc Hd].
    now rewrite Hc, (IH Hd).
Qed.

Lemma nzhead_no_D0 (u d : uint) : nzhead u <> D0 d.
Proof. induction u; simpl; try discriminate. assumption. Qed.

Lemma to_uint_unorm (p : positive) : unorm (Pos.to_uint p) = Pos.to_uint p.
Proof.
  rewrite <- DecimalPos.Unsigned.to_of, DecimalPos.Unsigned.of_to. reflexivity.
Qed.

Lemma to_uint_head (p : positive) :
  exists c r, chars (NilEmpty.string_of_uint (Pos.to_uint p)) = c :: r
              /\ is_digit c = true /\ Ascii.eqb c "0" = false.
Proof.
  pose proof (to_uint_unorm p) as U.
  pose proof (DecimalPos.Unsigned.to_uint_nonzero p) as Z.
  pose proof (DecimalPos.Unsigned.to_uint_nonnil p) as N.
  pose proof (uint_digits (Pos.to_uint p)) as D.
  unfold unorm in U.
  destruct (Pos.to_uint p) as [|d|d|d|d|d|d|d|d|d|d] eqn:E;
    try (eexists; eexists; split; [reflexivity|split; reflexivity]).
  - now contradiction N.
  - exfalso. destruct (nzhead (D0 d)) as [|u|u|u|u|u|u|u|u|u|u] eqn:Hn;
      try discriminate U.
    + apply Z. now rewrite <- U.
    + exact (nzhead_no_D0 (D0 d) u Hn).
Qed.

Lemma digit_not_minus (c : ascii) : is_digit c = true -> Ascii.eqb c "-" = false.
Proof. destruct c as [[] [] [] [] [] [] [] []]; vm_compute; congruence. Qed.

Lemma follow_no_digit (tail : list ascii) :
  follow_ok tail = true -> no_digit_head tail = true.
Proof.
  destruct tail as [|c tail]; [reflexivity|]. simpl.
  destruct c as [[] [] [] [] [] [] [] []]; vm_compute; congruence.
Qed.

Lemma follow_no_frac (tail : list ascii) :
  follow_ok tail = true -> scan_frac tail = ([], tail).
Proof.
  destruct tail as [|c [|d tail]]; try reflexivity. unfold scan_frac.
  destruct c as [[] [] [] [] [] [] [] []]; vm_compute; try congruence; reflexivity.
Qed.

Lemma follow_no_exp (tail : list ascii) :
  follow_ok tail = true -> scan_exp tail = ([], tail).
Proof.
  destruct tail as [|c tail]; try reflexivity. unfold scan_exp.
  destruct c as [[] [] [] [] [] [] [] []]; vm_compute; try congruence; reflexivity.
Qed.

Lemma int_of_uint_digits (p : positive) :
  int_of_digits false (chars (NilEmpty.string_of_uint (Pos.to_uint p))) = Z.pos p
  /\ int_of_digits true (chars (NilEmpty.string_of_uint (Pos.to_uint p))) = Z.neg p.
Proof.
  unfold int_of_digits. rewrite str_chars, NilEmpty.usu.
  unfold Z.of_uint. rewrite DecimalPos.Unsigned.of_to. split; reflexivity.
Qed.

Lemma string_of_to_uint (p : positive) :
  NilZero.string_of_uint (Pos.to_uint p) = NilEmpty.string_of_uint (Pos.to_uint p).
Proof.
  pose proof (DecimalPos.Unsigned.to_uint_nonnil p).
  destruct (Pos.to_uint p); [contradiction | reflexivity..].
Qed.

(** A positive numeral reads back whole. *)
Lemma scan_int_part_pos (p : positive) (tail : list ascii) :
  no_digit_head tail = true ->
  scan_int_part (chars (NilEmpty.string_of_uint (Pos.to_uint p)) ++ tail)
  = Some (chars (NilEmpty.string_of_uint (Pos.to_uint p)), tail).
Proof.
  intros Ht. destruct (to_uint_head p) as [c [r [E [Hc H0]]]].
  pose proof (uint_digits (Pos.to_uint p)) as D. rewrite E in *.
  simpl in D. apply andb_true_iff in D. destruct D as [_ D].
  simpl. rewrite H0, Hc, (span_digits_app r tail D Ht). reflexivity.
Qed.

Lemma scan_number_dec (n : Z) (tail : list ascii) :
  follow_ok tail = true ->
  scan_number (dec n ++ tail) = Some (JInt n, tail).
Proof.
  intros Hf. pose proof (follow_no_digit _ Hf) as Hd.
  unfold dec. destruct n as [|p|p]; unfold Z.to_int, NilZero.string_of_int.
  - simpl. unfold scan_number. simpl.
    now rewrite (follow_no_frac _ Hf), (follow_no_exp _ Hf).
  - rewrite string_of_to_uint. unfold scan_number.
    destruct (to_uint_head p) as [c [r [E [Hc H0]]]].
    assert (M : match chars (NilEmpty.string_of_uint (Pos.to_uint p)) ++ tail with
                | c :: r => if Ascii.eqb c "-" then (true, r)
                            else (false, chars (NilEmpty.string_of_uint (Pos.to_uint p)) ++ tail)
                | [] => (false, chars (NilEmpty.string_of_uint (Pos.to_uint p)) ++ tail)
                end = (false, chars (NilEmpty.string_of_uint (Pos.to_uint p)) ++ tail)).
    { rewrite E. simpl. now rewrite (digit_not_minus c Hc). }
    rewrite M, (scan_int_part_pos p tail Hd).
    rewrite (follow_no_frac _ Hf), (follow_no_exp _ Hf).
    now rewrite (proj1 (int_of_uint_digits p)).
  - rewrite string_of_to_uint.
    change (chars (String "-" (NilEmpty.string_of_uint (Pos.to_uint p))) ++ tail)
      with ("-"%char :: (chars (NilEmpty.string_of_uint (Pos.to_uint p)) ++ tail)).
    unfold scan_number. rewrite Ascii.eqb_refl.
    rewrite (scan_int_part_pos p tail Hd).
    rewrite (follow_no_frac _ Hf), (follow_no_exp _ Hf).
    now rewrite (proj2 (int_of_uint_digits p)).
Qed.

(** *** Values *)

Lemma digit_head (c : ascii) :
  is_digit c = true ->
  is_ws c = false /\ Ascii.eqb c "]" = false /\ Ascii.eqb c "-" = false
  /\ Ascii.eqb "I" c = false.
Proof.
  destruct c as [[] [] [] [] [] [] [] []]; vm_compute; intros; try discriminate;
    repeat split.
Qed.

Lemma skip_ws_nonws (c : ascii) (r : list ascii) :
  is_ws c = false -> skip_ws (c :: r) = c :: r.
Proof. intros H. simpl. now rewrite H. Qed.

Lemma dec_head (n : Z) :
  exists c r, dec n = c :: r
    /\ (is_digit c = true
        \/ (c = "-"%char /\ exists d r', r = d :: r' /\ is_digit d = true)).
Proof.
  unfold dec. destruct n as [|p|p]; unfold Z.to_int, NilZero.string_of_int.
  - exists "0"%char, []. split; [reflexivity | left; reflexivity].
  - rewrite string_of_to_uint. destruct (to_uint_head p) as [c [r [E [Hc _]]]].
    exists c, r. split; [assumption | now left].
  - rewrite string_of_to_uint. destruct (to_uint_head p) as [c [r [E [Hc _]]]].
    exists "-"%char, (c :: r). split.
    + change (chars (String "-" (NilEmpty.string_of_uint (Pos.to_uint p))))
        with ("-"%char :: chars (NilEmpty.string_of_uint (Pos.to_uint p))).
      now rewrite E.
    + right. split; [reflexivity|]. now exists c, r.
Qed.

(** The first character of a dump is no blank and no closing bracket. *)
Lemma encode_head (v : json) :
  well_formed v = true ->
  exists c r, encode v = c :: r /\ is_ws c = false /\ Ascii.eqb c "]" = false.
Proof.
  destruct v as [|[]|n|lit|s|l|items]; simpl; intros W; try discriminate;
    try (eexists; eexists; split; [reflexivity|split; reflexivity]).
  destruct (dec_head n) as [c [r [E [Hc | [Hm _]]]]]; exists c, r.
  - destruct (digit_head c Hc) as [H1 [H2 _]]. now rewrite E.
  - subst c. now rewrite E.
Qed.

(** At a numeral, [scan_value] is [scan_number]. *)
Lemma scan_value_number (f : nat) (c : ascii) (r : list ascii) :
  is_digit c = true
  \/ (c = "-"%char /\ exists d r', r = d :: r' /\ is_digit d = true) ->
  scan_value (S f) (c :: r) = scan_number (c :: r).
Proof.
  intros [Hc | [-> [d [r' [-> Hd]]]]].
  - destruct c as [[] [] [] [] [] [] [] []]; try discriminate Hc; reflexivity.
  - destruct (digit_head d Hd) as [_ [_ [_ HI]]].
    cbn [scan_value]. cbv [Ascii.eqb dq ascii_of_nat ascii_of_pos ascii_of_N Pos.of_succ_nat Pos.succ N.of_nat Bool.eqb].
    cbn. unfold scan_word. cbn [chars list_ascii_of_string strip_prefix].
    rewrite Ascii.eqb_refl, HI. reflexivity.
Qed.

Lemma scan_value_str (f : nat) (rest : list ascii) :
  scan_value (S f) (dq :: rest) =
  match scan_string rest with
  | Some (s, r) => Some (JStr (str s), r)
  | None => None
  end.
Proof. reflexivity. Qed.

Lemma scan_value_arr (f : nat) (rest : list ascii) :
  scan_value (S f) ("["%char :: rest) =
  match skip_ws rest with
  | c1 :: r1 =>
      if Ascii.eqb c1 "]" then Some (JArr [], r1)
      else match scan_elements f (c1 :: r1) with
           | Some (vs, r) => Some (JArr vs, r)
           | None => None
           end
  | [] => None
  end.
Proof. reflexivity. Qed.

Lemma scan_value_obj (f : nat) (rest : list ascii) :
  scan_value (S f) ("{"%char :: rest) =
  match skip_ws rest with
  | c1 :: r1 =>
      if Ascii.eqb c1 "}" then Some (JObj [], r1)
      else if Ascii.eqb c1 dq then
        match scan_members f r1 with
        | Some (pairs, r) => Some (JObj (dict_of_pairs pairs), r)
        | None => None
        end
      else None
  | [] => None
  end.
Proof. reflexivity. Qed.

Lemma scan_elements_S (f : nat) (l : list ascii) :
  scan_elements (S f) l =
  match scan_value f l with
  | None => None
  | Some (v, r1) =>
      match skip_ws r1 with
      | c :: r2 =>
          if Ascii.eqb c "]" then Some ([v], r2)
          else if Ascii.eqb c "," then
            match scan_elements f (skip_ws r2) with
            | Some (more, r) => Some (v :: more, r)
            | None => None
            end
          else None
      | [] => None
      end
  end.
Proof. reflexivity. Qed.

Lemma scan_members_S (f : nat) (l : list ascii) :
  scan_members (S f) l =
  match scan_string l with
  | None => None
  | Some (k, r0) =>
      match skip_ws r0 with
      | colon :: r1 =>
          if Ascii.eqb colon ":" then
            match scan_value f (skip_ws r1) with
            | None => None
            | Some (v, r2) =>
                match skip_ws r2 with
                | c :: r3 =>
                    if Ascii.eqb c "}" then Some ([(str k, v)], r3)
                    else if Ascii.eqb c "," then
                      match skip_ws r3 with
                      | q :: r4 =>
                          if Ascii.eqb q dq then
                            match scan_members f r4 with
                            | Some (more, r) => Some ((str k, v) :: more, r)
                            | None => None
                            end
                          else None
                      | [] => None
                      end
                    else None
                | [] => None
                end
            end
          else None
      | [] => None
      end
  end.
Proof. reflexivity. Qed.

(** *** Dicts *)

Lemma distinct_NoDup (l : list string) : distinct l = true <-> NoDup l.
Proof.
  induction l as [|x l IH]; simpl.
  - split; [constructor | reflexivity].
  - rewrite andb_true_iff, negb_true_iff, IH. split.
    + intros [H1 H2]. constructor; [|assumption].
      intros Hin. apply mem_In in Hin. congruence.
    + intros H. inversion H as [|? ? H1 H2]; subst. split; [|assumption].
      destruct (mem x l) eqn:E; [|reflexivity].
      apply mem_In in E. contradiction.
Qed.

Lemma dict_set_fresh (k : string) (v : json) (d : dict) :
  ~ In k (List.map fst d) -> dict_set k v d = d ++ [(k, v)].
Proof.
  induction d as [|[k' v'] d IH]; simpl; intros H; [reflexivity|].
  destruct (String.eqb_spec k' k) as [->|Hne].
  - exfalso. apply H. now left.
  - rewrite IH; [reflexivity|]. intros Hin. apply H. now right.
Qed.

Lemma fold_dict_set (items acc : dict) :
  NoDup (List.map fst (acc ++ items)) ->
  fold_left (fun d kv => dict_set (fst kv) (snd kv) d) items acc = acc ++ items.
Proof.
  revert acc. induction items as [|[k v] items IH]; intros acc H; simpl.
  - now rewrite List.app_nil_r.
  - rewrite dict_set_fresh.
    + rewrite IH; rewrite <- app_assoc; [reflexivity | exact H].
    + rewrite map_app in H. simpl in H. apply NoDup_remove_2 in H.
      intros Hin. apply H. apply in_or_app. now left.
Qed.

Lemma dict_of_pairs_distinct (items : dict) :
  distinct (List.map fst items) = true -> dict_of_pairs items = items.
Proof.
  intros H. unfold dict_of_pairs. rewrite fold_dict_set; [reflexivity|].
  now apply distinct_NoDup.
Qed.

(** *** The round trip *)

Lemma sep_by_cons2 (sep x y : list ascii) (r : list (list ascii)) :
  sep_by sep (x :: y :: r) = x ++ sep ++ sep_by sep (y :: r).
Proof. reflexivity. Qed.

Lemma sep_by_first (sep x : list ascii) (r : list (list ascii))
    (c : ascii) (t : list ascii) :
  x = c :: t -> exists t', sep_by sep (x :: r) = c :: t'.
Proof. intros ->. destruct r; simpl; eauto. Qed.

Lemma skip_ws_space (u : list ascii) : skip_ws (" "%char :: u) = skip_ws u.
Proof. reflexivity. Qed.

(** After the separator, the next dump starts at once. *)
Lemma skip_item_sep (x : list ascii) (r : list (list ascii)) (c : ascii)
    (t u : list ascii) :
  x = c :: t -> is_ws c = false ->
  skip_ws (item_sep ++ sep_by item_sep (x :: r) ++ u)
  = ","%char :: " "%char :: sep_by item_sep (x :: r) ++ u
  /\ skip_ws (" "%char :: sep_by item_sep (x :: r) ++ u)
    = sep_by item_sep (x :: r) ++ u.
Proof.
  intros E Hws. destruct (sep_by_first item_sep x r c t E) as [t' E'].
  rewrite E'. split; [reflexivity|].
  rewrite skip_ws_space. cbn [app]. now apply skip_ws_nonws.
Qed.

Lemma scan_elements_encode (l : list json) :
  l <> [] -> Forall reads_back l -> forallb well_formed l = true ->
  forall fuel tail,
    (S (List.length (sep_by item_sep (List.map encode l))) <= fuel)%nat ->
    scan_elements fuel (sep_by item_sep (List.map encode l) ++ "]"%char :: tail)
    = Some (l, tail).
Proof.
  induction l as [|x l IH]; [congruence|]. intros _ HP HW fuel tail Hfuel.
  inversion HP as [|? ? Hx Hl]; subst.
  simpl in HW. apply andb_true_iff in HW. destruct HW as [Wx Wl].
  destruct fuel as [|f]; [lia|]. rewrite scan_elements_S.
  destruct l as [|y l].
  - simpl in *. rewrite (Hx Wx f ("]"%char :: tail)); [reflexivity | lia | reflexivity].
  - cbn [List.map] in *. rewrite sep_by_cons2 in *.
    rewrite !length_app in Hfuel. rewrite <- !app_assoc.
    rewrite (Hx Wx f); [| lia | reflexivity].
    destruct (encode_head y) as [c [r [E [Hws _]]]].
    { simpl in Wl. now apply andb_true_iff in Wl. }
    destruct (skip_item_sep (encode y) (List.map encode l) c r
                ("]"%char :: tail) E Hws) as [S1 S2].
    rewrite S1. cbn [Ascii.eqb Bool.eqb]. rewrite S2.
    rewrite IH; [reflexivity | discriminate | assumption | assumption |].
    change (List.length item_sep) with 2%nat in Hfuel. cbn [List.map]. lia.
Qed.

Lemma members_text_rest (items : dict) (tail : list ascii) :
  items <> [] ->
  sep_by item_sep (List.map enc_item items) ++ "}"%char :: tail
  = dq :: members_rest items tail.
Proof.
  induction items as [|[k v] items IH]; [congruence|]. intros _.
  destruct items as [|kv items].
  - cbn [List.map sep_by members_rest]. unfold enc_item, quote. cbn [fst snd].
    rewrite <- !app_assoc, <- !app_comm_cons, <- !app_assoc. reflexivity.
  - cbn [List.map]. rewrite sep_by_cons2. cbn [List.map] in IH.
    rewrite <- !app_assoc, IH by discriminate.
    cbn [members_rest]. unfold enc_item at 1, quote. cbn [fst snd].
    rewrite <- !app_assoc, <- !app_comm_cons, <- !app_assoc. reflexivity.
Qed.

Lemma length_quote (k : string) : (2 <= List.length (quote k))%nat.
Proof. unfold quote. cbn [List.length]. rewrite length_app. simpl. lia. Qed.

Lemma members_rest_cons (k : string) (v : json) (more : dict) (tail : list ascii) :
  members_rest ((k, v) :: more) tail =
  flat_map escape_char (chars k) ++ dq :: key_sep ++ encode v ++
  match more with
  | [] => "}"%char :: tail
  | _ :: _ => item_sep ++ dq :: members_rest more tail
  end.
Proof. reflexivity. Qed.

Lemma skip_ws_key_sep (u : list ascii) :
  skip_ws (key_sep ++ u) = ":"%char :: " "%char :: u.
Proof. reflexivity. Qed.

(** One member: the key, the colon, the value, and what comes next. *)
Lemma scan_members_step (f : nat) (k : string) (v : json) (X : list ascii) :
  well_formed v = true ->
  scan_value f (encode v ++ X) = Some (v, X) ->
  scan_members (S f)
    (flat_map escape_char (chars k) ++ dq :: key_sep ++ encode v ++ X) =
  match skip_ws X with
  | c :: r3 =>
      if Ascii.eqb c "}" then Some ([(k, v)], r3)
      else if Ascii.eqb c "," then
        match skip_ws r3 with
        | q :: r4 =>
            if Ascii.eqb q dq then
              match scan_members f r4 with
              | Some (more, r) => Some ((k, v) :: more, r)
              | None => None
              end
            else None
        | [] => None
        end
      else None
  | [] => None
  end.
Proof.
  intros W H. rewrite scan_members_S, scan_string_escaped, skip_ws_key_sep.
  rewrite Ascii.eqb_refl, skip_ws_space.
  destruct (encode_head v W) as [c [r [E [Hws _]]]].
  assert (Hs : skip_ws (encode v ++ X) = encode v ++ X).
  { rewrite E. cbn [app]. now apply skip_ws_nonws. }
  rewrite Hs, H, str_chars. reflexivity.
Qed.

Lemma scan_members_encode (items : dict) :
  items <> [] ->
  Forall (fun kv => reads_back (snd kv)) items ->
  forallb (fun kv => well_formed (snd kv)) items = true ->
  forall fuel tail,
    (List.length (sep_by item_sep (List.map enc_item items)) <= fuel)%nat ->
    scan_members fuel (members_rest items tail) = Some (items, tail).
Proof.
  induction items as [|[k v] items IH]; [congruence|]. intros _ HP HW fuel tail Hfuel.
  inversion HP as [|? ? Hx Hl]; subst. cbn [snd] in Hx.
  simpl in HW. apply andb_true_iff in HW. destruct HW as [Wx Wl].
  pose proof (length_quote k) as Lq.
  rewrite members_rest_cons.
  destruct items as [|kv items].
  - cbn [List.map sep_by] in Hfuel. unfold enc_item in Hfuel. cbn [fst snd] in Hfuel.
    rewrite !length_app in Hfuel.
    destruct fuel as [|f]; [lia|].
    rewrite scan_members_step; [reflexivity | assumption |].
    apply (Hx Wx f); [lia | reflexivity].
  - cbn [List.map] in Hfuel. rewrite sep_by_cons2 in Hfuel.
    unfold enc_item at 1 in Hfuel. cbn [fst snd] in Hfuel.
    rewrite !length_app in Hfuel. change (List.length item_sep) with 2%nat in Hfuel.
    destruct fuel as [|f]; [lia|].
    rewrite scan_members_step; [| assumption | apply (Hx Wx f); [lia | reflexivity]].
    change (skip_ws (item_sep ++ dq :: ?u)) with (","%char :: " "%char :: dq :: u).
    change (Ascii.eqb "," "}") with false. change (Ascii.eqb "," ",") with true.
    cbv iota.
    change (skip_ws (" "%char :: dq :: ?u)) with (dq :: u).
    rewrite Ascii.eqb_refl.
    rewrite IH; [reflexivity | discriminate | assumption | assumption |].
    cbn [List.map]. lia.
Qed.

Lemma one_app {A} (x : A) (t : list A) : [x] ++ t = x :: t.
Proof. reflexivity. Qed.

(** Every well-formed value reads back from its dump. *)
Lemma scan_value_encode (v : json) : reads_back v.
Proof.
  induction v as [|b|n|lit|s|l IH|items IH] using json_nested_ind;
    intros W fuel tail Hfuel Hf.
  - destruct fuel as [|f]; [simpl in Hfuel; lia | reflexivity].
  - destruct fuel as [|f]; [destruct b; simpl in Hfuel; lia | destruct b; reflexivity].
  - cbn [encode] in *. destruct (dec_head n) as [c [r [E H]]].
    destruct fuel as [|f]; [rewrite E in Hfuel; simpl in Hfuel; lia|].
    rewrite <- (scan_number_dec n tail Hf). rewrite E. cbn [app].
    now apply scan_value_number; destruct H as [H | [-> [d [r' [-> H]]]]];
      [left | right; split; [reflexivity | exists d, (r' ++ tail)]].
  - discriminate W.
  - cbn [encode] in *. unfold quote in *.
    destruct fuel as [|f]; [simpl in Hfuel; lia|].
    rewrite <- app_comm_cons, scan_value_str, <- app_assoc, one_app.
    rewrite scan_string_escaped. now rewrite str_chars.
  - cbn [encode well_formed] in *.
    destruct fuel as [|f]; [simpl in Hfuel; lia|].
    rewrite <- app_comm_cons, scan_value_arr, <- app_assoc, one_app.
    destruct l as [|x l].
    + reflexivity.
    + destruct (encode_head x) as [c [r [E [Hws Hb]]]].
      { simpl in W. now apply andb_true_iff in W. }
      destruct (sep_by_first item_sep (encode x) (List.map encode l) c r E)
        as [t' E'].
      assert (Es : scan_elements f
                     (sep_by item_sep (List.map encode (x :: l)) ++ "]"%char :: tail)
                   = Some (x :: l, tail)).
      { apply scan_elements_encode; try assumption; [discriminate|].
        cbn [List.length] in Hfuel. rewrite length_app in Hfuel.
        cbn [List.length] in Hfuel. lia. }
      cbn [List.map] in *. rewrite E' in *. rewrite <- app_comm_cons in *.
      rewrite skip_ws_nonws by assumption. rewrite Hb, Es. reflexivity.
  - cbn [encode well_formed] in *. apply andb_true_iff in W. destruct W as [Wd Wi].
    destruct fuel as [|f]; [simpl in Hfuel; lia|].
    rewrite <- app_comm_cons, scan_value_obj, <- app_assoc, one_app.
    destruct items as [|kv items].
    + reflexivity.
    + change (fun kv0 : string * json => quote (fst kv0) ++ key_sep ++ encode (snd kv0))
        with enc_item in *.
      rewrite members_text_rest by discriminate.
      change (skip_ws (dq :: ?u)) with (dq :: u). cbv beta iota.
      change (Ascii.eqb dq "}") with false. cbv iota. rewrite Ascii.eqb_refl.
      rewrite scan_members_encode; try assumption; [|discriminate|].
      * now rewrite dict_of_pairs_distinct.
      * cbn [List.length] in Hfuel. rewrite length_app in Hfuel.
        cbn [List.length] in Hfuel. lia.
Qed.

Lemma skip_ws_all (pad : list ascii) : forallb is_ws pad = true -> skip_ws pad = [].
Proof.
  induction pad as [|c pad IH]; simpl; [reflexivity|].
  intros H. apply andb_true_iff in H. destruct H as [Hc Hp]. now rewrite Hc, IH.
Qed.

(** [loads] reads a dump back, with any run of blanks after it. *)
Lemma loads_dump_padded (v : json) (pad : list ascii) :
  well_formed v = true -> forallb is_ws pad = true ->
  loads (str (encode v ++ pad)) = Some v.
Proof.
  intros W Hp. unfold loads. rewrite chars_str.
  destruct (encode_head v W) as [c [r [E [Hws _]]]].
  assert (Hs : skip_ws (encode v ++ pad) = encode v ++ pad).
  { rewrite E. cbn [app]. now apply skip_ws_nonws. }
  rewrite Hs, (scan_value_encode v W).
  - now rewrite skip_ws_all.
  - rewrite length_app. lia.
  - destruct pad as [|p pad]; [reflexivity|]. simpl in Hp |- *.
    apply andb_true_iff in Hp. destruct Hp as [-> _]. now rewrite !orb_true_r.
Qed.

End JsonFacts.

(** ** Dicts, and what the decoder returns *)

Module DictFacts.
Import PyStr PyStrFacts Json JsonFacts.
Local Open Scope list_scope.

Lemma dict_mem_get (k : string) (d : dict) :
  dict_mem k d = match dict_get k d with Some _ => true | None => false end.
Proof.
  induction d as [|[k' v'] d IH]; simpl; [reflexivity|].
  destruct (String.eqb k' k); [reflexivity | exact IH].
Qed.

Lemma dict_mem_In (k : string) (d : dict) :
  dict_mem k d = true <-> In k (List.map fst d).
Proof.
  induction d as [|[k' v'] d IH]; simpl.
  - split; [discriminate | contradiction].
  - destruct (String.eqb_spec k' k) as [->|Hne]; simpl.
    + split; auto.
    + rewrite IH. split; [auto | intros [H|H]; [congruence | assumption]].
Qed.

Lemma dict_get_set_same (k : string) (v : json) (d : dict) :
  dict_get k (dict_set k v d) = Some v.
Proof.
  induction d as [|[k' v'] d IH]; simpl.
  - now rewrite String.eqb_refl.
  - destruct (String.eqb k' k) eqn:E; simpl; rewrite E; [reflexivity | exact IH].
Qed.

Lemma dict_get_set_other (k k' : string) (v : json) (d : dict) :
  k <> k' -> dict_get k' (dict_set k v d) = dict_get k' d.
Proof.
  intros Hne. induction d as [|[k0 v0] d IH]; simpl.
  - destruct (String.eqb_spec k k'); [contradiction | reflexivity].
  - destruct (String.eqb_spec k0 k) as [->|H0]; simpl.
    + destruct (String.eqb_spec k k'); [contradiction | reflexivity].
    + now rewrite IH.
Qed.

Lemma NoDup_snoc {A} (x : A) (l : list A) :
  ~ In x l -> NoDup l -> NoDup (l ++ [x]).
Proof.
  intros Hx H. induction H as [|y l Hy H IH]; simpl.
  - constructor; [intros [] | constructor].
  - constructor.
    + intros Hin. apply in_app_or in Hin. destruct Hin as [Hin|[<-|[]]].
      * contradiction.
      * apply Hx. now left.
    + apply IH. intros Hin. apply Hx. now right.
Qed.

Lemma dict_set_keys (k : string) (v : json) (d : dict) :
  NoDup (List.map fst d) -> NoDup (List.map fst (dict_set k v d)).
Proof.
  intros H. destruct (in_dec string_dec k (List.map fst d)) as [Hin|Hnin].
  - assert (E : List.map fst (dict_set k v d) = List.map fst d); [|now rewrite E].
    clear H. induction d as [|[k' v'] d IH]; simpl in *; [contradiction|].
    destruct (String.eqb_spec k' k) as [->|Hne]; simpl; [reflexivity|].
    f_equal. apply IH. destruct Hin; [contradiction | assumption].
  - rewrite dict_set_fresh by assumption. rewrite map_app. simpl.
    now apply NoDup_snoc.
Qed.

Lemma dict_del_none (k : string) (d : dict) :
  dict_del k d = None <-> dict_mem k d = false.
Proof.
  induction d as [|[k' v'] d IH]; simpl; [tauto|].
  destruct (String.eqb k' k); simpl; [split; discriminate|].
  destruct (dict_del k d); rewrite <- IH; split; congruence.
Qed.

(** Deleting the one entry of a key. *)
Lemma dict_del_some (k : string) (d d' : dict) :
  NoDup (List.map fst d) -> dict_del k d = Some d' ->
  dict_mem k d' = false
  /\ NoDup (List.map fst d')
  /\ forall k', k' <> k -> dict_get k' d' = dict_get k' d.
Proof.
  revert d'. induction d as [|[k0 v0] d IH]; simpl; intros d' Hnd Hdel; [discriminate|].
  inversion Hnd as [|? ? Hnin Hnd']; subst.
  destruct (String.eqb_spec k0 k) as [->|Hne].
  - injection Hdel as <-. split; [|split].
    + destruct (dict_mem k d) eqn:E; [|reflexivity].
      apply dict_mem_In in E. contradiction.
    + assumption.
    + intros k' Hk. destruct (String.eqb_spec k k'); [congruence | reflexivity].
  - destruct (dict_del k d) as [r|] eqn:E; [|discriminate].
    injection Hdel as <-. destruct (IH r Hnd' eq_refl) as [H1 [H2 H3]].
    split; [|split].
    + simpl. destruct (String.eqb_spec k0 k); [contradiction | exact H1].
    + simpl. constructor; [|assumption].
      intros Hin. apply Hnin.
      apply dict_mem_In. apply dict_mem_In in Hin.
      rewrite dict_mem_get in *. destruct (String.eqb_spec k0 k); [contradiction|].
      now rewrite <- (H3 k0).
    + intros k' Hk. simpl. destruct (String.eqb k0 k'); [reflexivity | now apply H3].
Qed.


(** *** The values the decoder builds *)






End DictFacts.

(** ** The metadata store *)

Module KVFacts.
Import PyStr PyStrFacts Json JsonFacts KV.

Lemma len_pos (s : string) : s <> EmptyString -> 0 < len s.
Proof. destruct s; [congruence|]. unfold len. simpl. lia. Qed.

(** On a non-empty text [align_str] only adds blanks and a newline. *)
Lemma align_str_pads (s : string) :
  s <> EmptyString ->
  exists k, align_str s KV_ALIGN = Some (s ++ spaces k ++ nl).
Proof.
  intros H. apply len_pos in H. unfold align_str, KV_ALIGN.
  assert (1 <= (len s + 4096 - 1) / 4096) by (apply Z.div_le_lower_bound; lia).
  destruct (_ <? 0) eqn:E; [apply Z.ltb_lt in E; lia|]. eauto.
Qed.

Lemma dumps_nonempty (v : json) : well_formed v = true -> dumps v <> EmptyString.
Proof.
  intros W. destruct (encode_head v W) as [c [r [E _]]].
  unfold dumps. rewrite E. discriminate.
Qed.

Lemma padding_blank (k : nat) :
  forallb is_ws (repeat " "%char k ++ chars nl)%list = true.
Proof. induction k; simpl; [reflexivity | assumption]. Qed.

(** What [save] writes reads back as the record. *)
Lemma loads_aligned (v : json) (text : string) :
  well_formed v = true ->
  align_str (dumps v) KV_ALIGN = Some text ->
  loads text = Some v.
Proof.
  intros W A. destruct (align_str_pads (dumps v) (dumps_nonempty v W)) as [k E].
  rewrite E in A. injection A as <-.
  unfold dumps, spaces. rewrite <- (str_chars nl). rewrite <- !str_app.
  apply loads_dump_padded; [assumption | apply padding_blank].
Qed.

Lemma save_writes (e : env) (st st' : store) (p : string) (v : json) :
  save e st p v = (true, st') ->
  (get_kv_name e p ∉ unwritable st)
  /\ unreadable st' = unreadable st /\ unwritable st' = unwritable st
  /\ exists text, align_str (dumps v) KV_ALIGN = Some text
                  /\ files st' = <[get_kv_name e p := text]> (files st).
Proof.
  unfold save. destruct (decide _) as [|Hw]; [discriminate|].
  destruct (align_str (dumps v) KV_ALIGN) as [text|]; [|discriminate].
  intros [= <-]. repeat split; eauto.
Qed.

Lemma save_ok (e : env) (st : store) (p : string) (v : json) :
  well_formed v = true -> get_kv_name e p ∉ unwritable st ->
  exists st', save e st p v = (true, st').
Proof.
  intros W Hw. unfold save. destruct (decide _); [contradiction|].
  destruct (align_str_pads (dumps v) (dumps_nonempty v W)) as [k ->]. eauto.
Qed.

Lemma save_fails (e : env) (st : store) (p : string) (v : json) :
  get_kv_name e p ∈ unwritable st -> save e st p v = (false, st).
Proof. intros H. unfold save. now destruct (decide _). Qed.

(** Saving, then loading. *)
Lemma load_save (e : env) (st st' : store) (p : string) (v : json) :
  well_formed v = true ->
  save e st p v = (true, st') ->
  get_kv_name e p ∉ unreadable st ->
  load e st' p = v.
Proof.
  intros W S R. apply save_writes in S.
  destruct S as [_ [Hr [_ [text [A F]]]]].
  unfold load. rewrite Hr. destruct (decide _); [contradiction|].
  rewrite F, lookup_insert_eq. now rewrite (loads_aligned v text W A).
Qed.

(** C8: for every volume record (a mapping whose dump json can write: no key
    twice, no float), saving it and then loading it gives the record back,
    the padding to the block size notwithstanding: what is stored is the dump
    followed by blanks and a newline. *)
Theorem save_then_load (e : env) (st st' : store) (vol_path : string)
    (items : dict) :
  well_formed (JObj items) = true ->
  save e st vol_path (JObj items) = (true, st') ->
  get_kv_name e vol_path ∉ unreadable st ->
  load e st' vol_path = JObj items
  /\ exists k, files st' !! get_kv_name e vol_path
               = Some (dumps (JObj items) ++ spaces k ++ nl).
Proof.
  intros W S R. split; [now apply (load_save e st st')|].
  apply save_writes in S. destruct S as [_ [_ [_ [text [A F]]]]].
  destruct (align_str_pads _ (dumps_nonempty _ W)) as [k E].
  exists k. rewrite F, lookup_insert_eq. congruence.
Qed.

Import Testbed.

Lemma save_then_load_witness :
  load host (snd (save host empty_store v1_path (JObj record0))) v1_path = JObj record0
  /\ exists k, files (snd (save host empty_store v1_path (JObj record0)))
                 !! get_kv_name host v1_path
               = Some (dumps (JObj record0) ++ spaces k ++ nl).
Proof.
  apply (save_then_load host empty_store).
  - reflexivity.
  - vm_compute. reflexivity.
  - apply not_elem_of_empty.
Defined.

End KVFacts.

(** ** Attach state in the metadata *)

Module StatusFacts.
Import PyStr PyStrFacts Json JsonFacts DictFacts KV KVFacts Ops Spec.

Lemma or_empty_dict (v : json) :
  (exists d, or_empty v = JObj d) \/ (truthy v = true /\ forall d, v <> JObj d).
Proof.
  unfold or_empty. destruct (truthy v) eqn:T; simpl; [|eauto].
  destruct v; eauto; right; split; congruence.
Qed.

Lemma truthy_set (k : string) (x : json) (d : dict) :
  truthy (JObj (dict_set k x d)) = true.
Proof. destruct d as [|[k' v'] d]; simpl; [reflexivity|]. now destruct (String.eqb k' k). Qed.




Lemma attached_record_says (v : vm) (d : dict) : attached_to v (attached_record v d).
Proof.
  unfold attached_to, attached_record. repeat split.
  - rewrite !dict_get_set_other by discriminate. apply dict_get_set_same.
  - rewrite dict_get_set_other by discriminate. apply dict_get_set_same.
  - apply dict_get_set_same.
Qed.

(** [setStatusAttached] on a record, or on nothing usable. *)
Lemma setStatusAttached_record (e : env) (p : string) (v : vm) (w : world) (d : dict) :
  or_empty (load e (kvstore w) p) = JObj d ->
  setStatusAttached e p v w
  = (Ret tt, with_kvstore w (snd (save e (kvstore w) p (JObj (attached_record v d))))).
Proof.
  intros H. unfold setStatusAttached, bind, kv_getAll, getAll, lift, kv_setAll, ret.
  rewrite H. cbn [setitem]. unfold setAll.
  fold (attached_record v d). unfold attached_record at 1. rewrite truthy_set.
  now destruct (save _ _ _ _).
Qed.

End StatusFacts.

(** ** Attach *)

Module AttachFacts.
Import PyStr PyStrFacts PyLib Json JsonFacts DictFacts KV KVFacts Ops Spec StatusFacts.
Import Testbed.


Lemma disk_attach_pvscsi (e : env) (p : string) (v : vm) (w : world)
    (key bus : Z) (rest : list device) :
  List.filter is_pvscsi (List.filter is_scsi_controller (hw w))
  = VirtualSCSIController ParaVirtual key bus :: rest ->
  disk_attach e p v w = place_disk e p v (hw w) None key bus w.
Proof.
  intros H. unfold disk_attach, bind, get_world. now rewrite H.
Qed.


Lemma setStatusAttached_world (e : env) (p : string) (v : vm) (w w' : world)
    (r : exc unit) :
  setStatusAttached e p v w = (r, w') ->
  hw w' = hw w /\ reqs w' = reqs w /\ cmds w' = cmds w.
Proof.
  unfold setStatusAttached, bind, kv_getAll, lift, kv_setAll, ret.
  destruct (or_empty (getAll e (kvstore w) p)); cbn [setitem];
    try (intros [= <- <-]; now repeat split).
  destruct (setAll _ _ _ _) as [ok st]. intros [= <- <-]. now repeat split.
Qed.

(** What [attach_at] asks of the hypervisor. *)
Lemma attach_at_reqs (e : env) (p : string) (v : vm) (ck bus slot : Z)
    (w w' : world) (r : exc response) :
  attach_at e p v ck bus slot w = (r, w') ->
  reqs w' = (reqs w ++ [[AddDisk ("[] " ++ p) slot ck]])%list.
Proof.
  unfold attach_at, bind, ReconfigVM_Task.
  destruct (reconfig e (hw w) _) as [msg|devs].
  - unfold get_world, lift.
    destruct (getStatusAttached _ _ _) as [[a u]|x]; cbn [kvstore with_reqs];
      [|now intros [= <- <-]].
    destruct (a && _); unfold ret; now intros [= <- <-].
  - destruct (setStatusAttached e p v _) as [[[]|x] w1] eqn:S;
      apply setStatusAttached_world in S; destruct S as [_ [S _]];
      unfold ret; intros [= <- <-]; exact S.
Qed.

(** What [place_disk] asks of the hypervisor: nothing, or one disk at a unit
    that [set.pop()] took from the free ones. *)
Lemma place_disk_reqs (e : env) (p : string) (v : vm) (devices : list device)
    (slot : option Z) (ck bus : Z) (w w' : world) (r : exc response) :
  not_slot slot = true ->
  place_disk e p v devices slot ck bus w = (r, w') ->
  reqs w' = reqs w
  \/ exists u,
       reqs w' = (reqs w ++ [[AddDisk ("[] " ++ p) u ck]])%list
       /\ set_pop e (set_minus unit_slots (taken_units devices ck)) = Some u.
Proof.
  intros Hs. unfold place_disk, bind, get_world, lift. rewrite Hs.
  destruct (findDeviceByPath e p (hw w)) as [[dev|]|x].
  - destruct (setStatusAttached e p v w) as [[[]|x] w1] eqn:S;
      apply setStatusAttached_world in S; destruct S as [_ [S _]];
      unfold ret; intros [= <- <-]; now left.
  - destruct (List.length _ =? 0)%nat; [unfold ret; intros [= <- <-]; now left|].
    destruct (set_pop e _) as [u|] eqn:P; [|unfold raise; intros [= <- <-]; now left].
    intros A. right. exists u. split; [exact (attach_at_reqs _ _ _ _ _ _ _ _ _ A) | reflexivity].
  - intros [= <- <-]. now left.
Qed.

Lemma filter_pvscsi_head (l rest : list device) (x : device) :
  List.filter is_pvscsi l = x :: rest ->
  exists key bus, x = VirtualSCSIController ParaVirtual key bus.
Proof.
  intros H. assert (Hx : In x (List.filter is_pvscsi l)) by (rewrite H; now left).
  apply filter_In in Hx. destruct Hx as [_ Hx].
  destruct x as [? ? ?|[] key bus|?]; try discriminate. eauto.
Qed.

(** Every way through [disk_attach], by the requests it issues. *)
Lemma disk_attach_reqs (e : env) (p : string) (v : vm) (w w' : world)
    (r : exc response) :
  disk_attach e p v w = (r, w') ->
  (exists key bus rest,
      List.filter is_pvscsi (controllers (hw w))
      = VirtualSCSIController ParaVirtual key bus :: rest
      /\ (reqs w' = reqs w
          \/ exists u,
               reqs w' = (reqs w ++ [[AddDisk ("[] " ++ p) u key]])%list
               /\ set_pop e (free_units (hw w) key) = Some u))
  \/ (List.filter is_pvscsi (controllers (hw w)) = []
      /\ (((4 <= List.length (controllers (hw w)))%nat
           /\ r = Ret out_of_bus_slots /\ w' = w)
          \/ ((List.length (controllers (hw w)) < 4)%nat
              /\ set_pop e (bus_slots (hw w)) = None /\ w' = w)
          \/ ((List.length (controllers (hw w)) < 4)%nat
              /\ exists bus,
                   set_pop e (bus_slots (hw w)) = Some bus
                   /\ (reqs w' = (reqs w ++ [[AddController (bus + 1000) bus]])%list
                       \/ exists u,
                            reqs w'
                            = (reqs w ++ [[AddController (bus + 1000) bus];
                                          [AddDisk ("[] " ++ p) u (bus + 1000)]])%list
                            /\ set_pop e (free_units (hw w) (bus + 1000)) = Some u)))).
Proof.
  unfold disk_attach, bind, get_world. fold (controllers (hw w)).
  destruct (List.filter is_pvscsi (controllers (hw w))) as [|x rest] eqn:F.
  - intros H. right. split; [reflexivity|].
    destruct (max_scsi_controllers <=? _)%Z eqn:C.
    + left. apply Z.leb_le in C. unfold max_scsi_controllers in C.
      injection H as <- <-. repeat split. lia.
    + apply Z.leb_gt in C. unfold max_scsi_controllers in C.
      fold (bus_slots (hw w)) in H.
      destruct (set_pop e (bus_slots (hw w))) as [bus|] eqn:P.
      * right. right. split; [lia|]. exists bus. split; [reflexivity|].
        unfold ReconfigVM_Task, offset_from_bus_number in H.
        destruct (reconfig e (hw w) _) as [msg|devs].
        -- injection H as <- <-. now left.
        -- apply place_disk_reqs in H; [|reflexivity]. cbn [reqs with_hw with_reqs] in H.
           destruct H as [H|[u [H Hu]]]; [now left|].
           right. exists u. split; [|exact Hu].
           rewrite H, <- app_assoc. reflexivity.
      * right. left. injection H as <- <-. repeat split. lia.
  - destruct (filter_pvscsi_head _ _ _ F) as [key [bus ->]].
    intros H. left. exists key, bus, rest. split; [reflexivity|].
    apply place_disk_reqs in H; [exact H | reflexivity].
Qed.

(** *** Sets of unit and bus numbers *)

Lemma in_set_In (x : Z) (s : list Z) : in_set x s = true <-> In x s.
Proof.
  unfold in_set. rewrite existsb_exists. split.
  - intros [y [Hy E]]. apply Z.eqb_eq in E. now subst.
  - intros H. exists x. split; [assumption | apply Z.eqb_refl].
Qed.

Lemma In_set_minus (x : Z) (s taken : list Z) :
  In x (set_minus s taken) <-> In x s /\ ~ In x taken.
Proof.
  unfold set_minus. rewrite filter_In, negb_true_iff.
  split; intros [H1 H2]; (split; [assumption|]).
  - intros Hin. apply in_set_In in Hin. congruence.
  - destruct (in_set x taken) eqn:E; [|reflexivity].
    apply in_set_In in E. contradiction.
Qed.

Lemma In_taken_units (devs : list device) (ck u : Z) :
  In u (taken_units devs ck) <-> occupied devs ck u.
Proof.
  unfold taken_units, occupied. rewrite in_map_iff. split.
  - intros [dev [Hu Hin]]. apply filter_In in Hin. destruct Hin as [Hin Hd].
    destruct dev as [ck' u' f|? ? ?|?]; try discriminate. simpl in *.
    apply Z.eqb_eq in Hd. subst. eauto.
  - intros [f Hin]. exists (VirtualDisk ck u f). split; [reflexivity|].
    apply filter_In. split; [assumption|]. simpl. apply Z.eqb_refl.
Qed.

Lemma In_unit_slots (u : Z) : In u unit_slots <-> 0 <= u <= 15 /\ u <> 7.
Proof.
  change unit_slots with [0; 1; 2; 3; 4; 5; 6; 8; 9; 10; 11; 12; 13; 14; 15].
  simpl. lia.
Qed.

Lemma In_bus_range (b : Z) : In b (range 0 max_scsi_controllers) <-> 0 <= b < 4.
Proof. change (range 0 max_scsi_controllers) with [0; 1; 2; 3]. simpl. lia. Qed.

(** A free unit: one of the fifteen, with no disk at it. *)
Lemma In_free_units (devs : list device) (ck u : Z) :
  In u (free_units devs ck) <-> (0 <= u <= 15 /\ u <> 7) /\ ~ occupied devs ck u.
Proof.
  unfold free_units. now rewrite In_set_minus, In_unit_slots, In_taken_units.
Qed.

Lemma issued_app (w w' : world) (new : list config_spec) :
  reqs w' = (reqs w ++ new)%list -> issued w w' = new.
Proof.
  intros H. unfold issued. rewrite H, skipn_app, skipn_all, Nat.sub_diag.
  reflexivity.
Qed.

Lemma issued_none (w w' : world) : reqs w' = reqs w -> issued w w' = [].
Proof. intros H. apply issued_app. now rewrite List.app_nil_r. Qed.

Lemma no_pvscsi (devs : list device) :
  has_pvscsi devs = false -> List.filter is_pvscsi (controllers devs) = [].
Proof.
  unfold has_pvscsi, controllers. induction devs as [|d devs IH]; simpl; [reflexivity|].
  destruct d as [? ? ?|[] ? ?|?]; simpl; try discriminate; assumption.
Qed.

Lemma filter_none {A} (f : A -> bool) (l : list A) :
  (forall x, In x l -> f x = false) -> List.filter f l = [].
Proof.
  induction l as [|a l IH]; simpl; intros H; [reflexivity|].
  rewrite (H a) by now left. apply IH. intros x Hx. apply H. now right.
Qed.

Lemma place_disk_full (e : env) (p : string) (v : vm) (devices : list device)
    (slot : option Z) (ck bus : Z) (w : world) :
  not_slot slot = true ->
  findDeviceByPath e p (hw w) = Ret None ->
  free_units devices ck = [] ->
  place_disk e p v devices slot ck bus w = (Ret out_of_disk_slots, w).
Proof.
  intros Hs F E. unfold place_disk, bind, get_world, lift. rewrite F, Hs.
  unfold free_units in E. now rewrite E.
Qed.

(** *** Safety of the placement, whatever [set.pop()] returns *)

(** C5: for every VM device snapshot, a disk that attach requests is never
    placed at unit 7 nor at a unit of that controller where the snapshot has
    a disk; a controller is requested only when fewer than 4 are present (and
    at most one per call), and without a paravirtual controller among 4
    present attach fails with the capacity error; and when the disk is not
    attached yet and all 15 eligible units of the chosen controller hold a
    disk, attach fails with the capacity error, asking nothing. *)
Theorem placement_is_safe (e : env) (vmdk_path : string) (v : vm) (w w' : world)
    (r : exc response) :
  (forall s x, set_pop e s = Some x -> In x s) ->
  disk_attach e vmdk_path v w = (r, w') ->
  (forall f u ck, In [AddDisk f u ck] (issued w w') ->
     u <> 7 /\ 0 <= u <= 15 /\ ~ occupied (hw w) ck u)
  /\ (forall key bus, In [AddController key bus] (issued w w') ->
       (List.length (controllers (hw w)) < 4)%nat
       /\ forall key' bus', In [AddController key' bus'] (issued w w') ->
                            key' = key /\ bus' = bus)
  /\ (has_pvscsi (hw w) = false ->
      (4 <= List.length (controllers (hw w)))%nat ->
      r = Ret out_of_bus_slots /\ w' = w)
  /\ (forall key bus rest,
        List.filter is_pvscsi (controllers (hw w))
        = VirtualSCSIController ParaVirtual key bus :: rest ->
        findDeviceByPath e vmdk_path (hw w) = Ret None ->
        (forall u, In u unit_slots -> occupied (hw w) key u) ->
        r = Ret out_of_disk_slots /\ w' = w).
Proof.
  intros Hpop H. pose proof (disk_attach_reqs _ _ _ _ _ _ H) as R.
  assert (Unit : forall ck u, set_pop e (free_units (hw w) ck) = Some u ->
                 u <> 7 /\ 0 <= u <= 15 /\ ~ occupied (hw w) ck u).
  { intros ck u P. apply Hpop, In_free_units in P. tauto. }
  split; [|split; [|split]].
  - intros f u ck Hin.
    destruct R as [[key [bus [rest [_ [E|[u0 [E P]]]]]]]
                  |[_ [[_ [_ ->]]|[[_ [_ ->]]|[_ [bus [_ [E|[u0 [E P]]]]]]]]]].
    + rewrite (issued_none _ _ E) in Hin. destruct Hin.
    + rewrite (issued_app _ _ _ E) in Hin. destruct Hin as [[= <- <- <-]|[]].
      now apply Unit.
    + rewrite (issued_none w w eq_refl) in Hin. destruct Hin.
    + rewrite (issued_none w w eq_refl) in Hin. destruct Hin.
    + rewrite (issued_app _ _ _ E) in Hin. destruct Hin as [[=]|[]].
    + rewrite (issued_app _ _ _ E) in Hin.
      destruct Hin as [[=]|[[= <- <- <-]|[]]]. now apply Unit.
  - intros key bus Hin.
    destruct R as [[key0 [bus0 [rest [_ [E|[u0 [E P]]]]]]]
                  |[_ [[_ [_ ->]]|[[_ [_ ->]]|[Hc [bus0 [_ [E|[u0 [E P]]]]]]]]]].
    + rewrite (issued_none _ _ E) in Hin. destruct Hin.
    + rewrite (issued_app _ _ _ E) in Hin. destruct Hin as [[=]|[]].
    + rewrite (issued_none w w eq_refl) in Hin. destruct Hin.
    + rewrite (issued_none w w eq_refl) in Hin. destruct Hin.
    + rewrite (issued_app _ _ _ E) in *. destruct Hin as [[= <- <-]|[]].
      split; [assumption|]. intros key' bus' [[= <- <-]|[]]. now split.
    + rewrite (issued_app _ _ _ E) in *. destruct Hin as [[= <- <-]|[[=]|[]]].
      split; [assumption|]. intros key' bus' [[= <- <-]|[[=]|[]]]. now split.
  - intros Hno Hc. apply no_pvscsi in Hno.
    destruct R as [[key [bus [rest [F _]]]]
                  |[_ [[_ [-> ->]]|[[Hlt _]|[Hlt _]]]]];
      [congruence | now split | lia | lia].
  - intros key bus rest F Hnone Hall.
    rewrite (disk_attach_pvscsi e vmdk_path v w key bus rest F) in H.
    rewrite place_disk_full in H; [now injection H as <- <- | reflexivity | assumption |].
    apply filter_none. intros u Hu. apply negb_false_iff, in_set_In, In_taken_units.
    now apply Hall.
Qed.

(** *** CPython's [set.pop()] *)

Lemma first_occupied_In (table : list (option Z)) (x : Z) :
  first_occupied table = Some x -> In (Some x) table.
Proof.
  induction table as [|[n|] table IH]; simpl; [discriminate| |].
  - intros [= ->]. now left.
  - intros H. right. now apply IH.
Qed.

Lemma set_nth_In {A} (i : nat) (x y : A) (l : list A) :
  In y (set_nth i x l) -> y = x \/ In y l.
Proof.
  revert i. induction l as [|a l IH]; intros [|i]; simpl; try tauto.
  - intros [<-|H]; auto.
  - intros [<-|H]; auto. destruct (IH i H); auto.
Qed.

Lemma small_table_In (l : list Z) (n : Z) :
  In (Some n) (small_table l) -> In n l.
Proof.
  unfold small_table.
  assert (G : forall table,
             In (Some n)
                (fold_left
                   (fun table n =>
                      set_nth (probe 8 table (Z.to_nat (n mod 8))) (Some n) table)
                   l table) ->
             In (Some n) table \/ In n l).
  { induction l as [|a l IH]; intros table; cbn [fold_left]; [tauto|].
    intros H. apply IH in H. destruct H as [H|H]; [|right; now right].
    apply set_nth_In in H. destruct H as [[= ->]|H]; [right; now left | now left]. }
  intros H. apply G in H. destruct H as [H|H]; [|assumption].
  cbn [repeat In] in H. intuition discriminate.
Qed.

(** [cpython_pop] returns an element of the set. *)
Lemma cpython_pop_sound (s : list Z) (x : Z) : cpython_pop s = Some x -> In x s.
Proof.
  unfold cpython_pop. destruct (5 <=? List.length s)%nat.
  - destruct s; simpl; [discriminate|]. intros [= ->]. now left.
  - intros H. now apply small_table_In, first_occupied_In.
Qed.

Lemma sorted_filter_head (f : Z -> bool) (s : list Z) (x : Z) :
  StronglySorted Z.le s -> hd_error (List.filter f s) = Some x ->
  lowest x (List.filter f s).
Proof.
  intros Hs. induction Hs as [|a s Hs IH Ha]; simpl; [discriminate|].
  destruct (f a) eqn:Fa; [|exact IH].
  simpl. intros [= ->]. split; [now left|].
  intros y [<-|Hy]; [lia|].
  apply filter_In in Hy. destruct Hy as [Hy _].
  rewrite List.Forall_forall in Ha. now apply Ha.
Qed.

Lemma unit_slots_sorted : StronglySorted Z.le unit_slots.
Proof.
  change unit_slots with [0; 1; 2; 3; 4; 5; 6; 8; 9; 10; 11; 12; 13; 14; 15].
  repeat match goal with
         | |- StronglySorted _ _ => constructor
         | |- List.Forall _ _ => constructor
         | |- _ <= _ => lia
         end.
Qed.

(** With five free units or more, CPython pops the lowest. *)
Lemma cpython_pop_units (taken : list Z) (u : Z) :
  (5 <= List.length (set_minus unit_slots taken))%nat ->
  cpython_pop (set_minus unit_slots taken) = Some u ->
  lowest u (set_minus unit_slots taken).
Proof.
  intros H5. unfold cpython_pop. apply Nat.leb_le in H5. rewrite H5.
  apply sorted_filter_head, unit_slots_sorted.
Qed.

(** Among the four bus numbers, CPython pops the lowest. *)
Lemma cpython_pop_bus (taken : list Z) (b : Z) :
  cpython_pop (set_minus (range 0 max_scsi_controllers) taken) = Some b ->
  lowest b (set_minus (range 0 max_scsi_controllers) taken).
Proof.
  change (range 0 max_scsi_controllers) with [0; 1; 2; 3].
  unfold set_minus, lowest. cbn [List.filter].
  destruct (negb (in_set 0 taken)), (negb (in_set 1 taken)),
           (negb (in_set 2 taken)), (negb (in_set 3 taken));
    vm_compute; intros [= <-]; (split; [tauto|]);
    intros y Hy; repeat (destruct Hy as [<-|Hy]; [discriminate|]); destruct Hy.
Qed.




(** *** The choice of unit and bus under CPython *)

(** C4, as stated, fails: with units 6 and 13 free on the paravirtual
    controller, attach places the disk at unit 13. *)
Lemma attach_picks_unit_13_over_6 :
  let devs := VirtualSCSIController ParaVirtual 1000 0
              :: List.map (other_disk 1000)
                          [0; 1; 2; 3; 4; 5; 8; 9; 10; 11; 12; 14; 15] in
  let w := world_of devs empty_store in
  free_units devs 1000 = [6; 13]
  /\ issued w (snd (disk_attach host v1_path vm1 w))
     = [[AddDisk "[] /vmfs/volumes/ds1/dockvols/v1.vmdk" 13 1000]]
  /\ ~ lowest 13 (free_units devs 1000).
Proof.
  vm_compute. split; [reflexivity|]. split; [reflexivity|].
  intros [_ H]. specialize (H 6%Z (or_introl eq_refl)). apply H. reflexivity.
Qed.

(** C4, amended: when attach must place the disk on a controller it picks
    an unused unit number in {0..6, 8..15} of the chosen controller, which
    under the set.pop() of CPython 3.11 is the lowest one whenever at least
    five are unused; when it must add a controller it picks, under the same
    set.pop(), the lowest unused bus number in [0,4), and makes the
    controller key 1000 plus that bus number. *)
Theorem placement_choice (e : env) (vmdk_path : string) (v : vm) (w w' : world)
    (r : exc response) :
  set_pop e = cpython_pop ->
  disk_attach e vmdk_path v w = (r, w') ->
  (forall f u ck, In [AddDisk f u ck] (issued w w') ->
     ((0 <= u <= 15 /\ u <> 7) /\ ~ occupied (hw w) ck u)
     /\ ((5 <= List.length (free_units (hw w) ck))%nat ->
         lowest u (free_units (hw w) ck)))
  /\ (forall key bus, In [AddController key bus] (issued w w') ->
       lowest bus (bus_slots (hw w)) /\ key = 1000 + bus).
Proof.
  intros Hpop H. pose proof (disk_attach_reqs _ _ _ _ _ _ H) as R.
  rewrite Hpop in R.
  assert (Unit : forall ck u, cpython_pop (free_units (hw w) ck) = Some u ->
                 ((0 <= u <= 15 /\ u <> 7) /\ ~ occupied (hw w) ck u)
                 /\ ((5 <= List.length (free_units (hw w) ck))%nat ->
                     lowest u (free_units (hw w) ck))).
  { intros ck u P. split.
    - now apply In_free_units, cpython_pop_sound.
    - intros H5. now apply cpython_pop_units. }
  split.
  - intros f u ck Hin.
    destruct R as [[key [bus [rest [_ [E|[u0 [E P]]]]]]]
                  |[_ [[_ [_ ->]]|[[_ [_ ->]]|[_ [bus [_ [E|[u0 [E P]]]]]]]]]].
    + rewrite (issued_none _ _ E) in Hin. destruct Hin.
    + rewrite (issued_app _ _ _ E) in Hin. destruct Hin as [[= <- <- <-]|[]].
      now apply Unit.
    + rewrite (issued_none w w eq_refl) in Hin. destruct Hin.
    + rewrite (issued_none w w eq_refl) in Hin. destruct Hin.
    + rewrite (issued_app _ _ _ E) in Hin. destruct Hin as [[=]|[]].
    + rewrite (issued_app _ _ _ E) in Hin.
      destruct Hin as [[=]|[[= <- <- <-]|[]]]. now apply Unit.
  - intros key bus Hin.
    destruct R as [[key0 [bus0 [rest [_ [E|[u0 [E P]]]]]]]
                  |[_ [[_ [_ ->]]|[[_ [_ ->]]|[Hc [bus0 [Pb [E|[u0 [E P]]]]]]]]]].
    + rewrite (issued_none _ _ E) in Hin. destruct Hin.
    + rewrite (issued_app _ _ _ E) in Hin. destruct Hin as [[=]|[]].
    + rewrite (issued_none w w eq_refl) in Hin. destruct Hin.
    + rewrite (issued_none w w eq_refl) in Hin. destruct Hin.
    + rewrite (issued_app _ _ _ E) in Hin. destruct Hin as [[= <- <-]|[]].
      split; [now apply cpython_pop_bus | lia].
    + rewrite (issued_app _ _ _ E) in Hin. destruct Hin as [[= <- <-]|[[=]|[]]].
      split; [now apply cpython_pop_bus | lia].
Qed.

Lemma placement_choice_witness :
  let w := world_of [VirtualSCSIController ParaVirtual 1000 0; other_disk 1000 0]
                    empty_store in
  let w' := snd (disk_attach host v1_path vm1 w) in
  In [AddDisk "[] /vmfs/volumes/ds1/dockvols/v1.vmdk" 1 1000] (issued w w')
  /\ lowest 1 (free_units (hw w) 1000).
Proof.
  intros w w'.
  assert (I : In [AddDisk "[] /vmfs/volumes/ds1/dockvols/v1.vmdk" 1 1000]
                 (issued w w')) by (vm_compute; left; reflexivity).
  split; [exact I|].
  refine (proj2 (proj1 (placement_choice host v1_path vm1 w w'
                          (fst (disk_attach host v1_path vm1 w)) _ _) _ _ _ I) _).
  - reflexivity.
  - apply surjective_pairing.
  - vm_compute. lia.
Defined.

Lemma placement_is_safe_witness :
  let w := world_of [VirtualSCSIController ParaVirtual 1000 0; other_disk 1000 0]
                    empty_store in
  let w' := snd (disk_attach host v1_path vm1 w) in
  In [AddDisk "[] /vmfs/volumes/ds1/dockvols/v1.vmdk" 1 1000] (issued w w')
  /\ (1 <> 7 /\ 0 <= 1 <= 15 /\ ~ occupied (hw w) 1000 1).
Proof.
  intros w w'.
  assert (I : In [AddDisk "[] /vmfs/volumes/ds1/dockvols/v1.vmdk" 1 1000]
                 (issued w w')) by (vm_compute; left; reflexivity).
  split; [exact I|].
  refine (proj1 (placement_is_safe host v1_path vm1 w w'
                   (fst (disk_attach host v1_path vm1 w)) _ _) _ _ _ I).
  - intros s x. apply cpython_pop_sound.
  - apply surjective_pairing.
Defined.

End AttachFacts.
(** ** Detach, and the status of a volume without metadata *)

Module DetachFacts.
Import PyStr PyStrFacts PyLib Json JsonFacts DictFacts KV KVFacts Ops Spec StatusFacts.
Import Testbed.




Lemma setStatusDetached_world (e : env) (p : string) (w w' : world) (r : exc unit) :
  setStatusDetached e p w = (r, w') ->
  hw w' = hw w /\ reqs w' = reqs w /\ cmds w' = cmds w
  /\ (r = Ret tt ->
      exists d, or_empty (load e (kvstore w) p) = JObj d
                /\ kvstore w'
                   = snd (setAll e (kvstore w) p
                            (del_attached_identity
                               (JObj (dict_set STATUS (JStr DETACHED) d))))).
Proof.
  unfold setStatusDetached, bind, kv_getAll, lift, kv_setAll, ret, getAll.
  destruct (or_empty (load e (kvstore w) p)) eqn:O; cbn [setitem];
    try (intros [= <- <-]; repeat split; discriminate).
  destruct (setAll _ _ _ _) as [ok st] eqn:S. intros [= <- <-].
  repeat split. intros _. exists items. split; [reflexivity|]. now rewrite S.
Qed.

(** The two deletions share one [try]: on a record that names the attached
    VM without its uuid, which no writer of the service leaves, the first
    deletion raises and the name stays in the detached record. *)
Lemma detach_keeps_name_without_uuid :
  let st := snd (save host empty_store v1_path
                      (JObj [(STATUS, JStr ATTACHED);
                             (ATTACHED_VM_NAME, JStr "vm1")])) in
  let w := world_of [VirtualSCSIController ParaVirtual 1000 0; v1_disk 1000 0] st in
  fst (disk_detach host v1_path vm1 w) = Ret RNone
  /\ load host (kvstore (snd (disk_detach host v1_path vm1 w))) v1_path
     = JObj [(STATUS, JStr DETACHED); (ATTACHED_VM_NAME, JStr "vm1")].
Proof. vm_compute. split; reflexivity. Qed.










End DetachFacts.
(** ** Creation, when the metadata cannot be created *)

Module CreateFacts.
Import PyStr PyStrFacts PyLib Json KV KVFacts Ops Spec.

Lemma create_kv_store_fails (e : env) (vm_name vmdk_path : string) (opts : options)
    (w : world) :
  create_kv e vmdk_path = false \/ (get_kv_name e vmdk_path ∈ unwritable (kvstore w)) ->
  create_kv_store e vm_name vmdk_path opts w = (Ret false, w).
Proof.
  intros H. unfold create_kv_store, kv_create, create.
  destruct (create_kv e vmdk_path) eqn:C.
  - destruct H as [H|H]; [discriminate|].
    rewrite (save_fails _ _ _ _ H). now destruct w.
  - now destruct w.
Qed.

(** C3: when the image has been created and its metadata record cannot
    be, [createVMDK] runs the command that removes the image and answers
    with the metadata failure; the answer is the same whatever the removal
    returned, so a removal that failed is not reported. *)
Theorem create_reports_only_metadata_failure (e : env)
    (vmdk_path vm_name vol_name : string) (opts : options) (w : world) :
  isfile e (cmds w) vmdk_path = false ->
  validate_opts e opts vmdk_path = inr tt ->
  fst (run_command e (cmds w) (make_create_cmd e opts vmdk_path)) = 0 ->
  create_kv e vmdk_path = false \/ (get_kv_name e vmdk_path ∈ unwritable (kvstore w)) ->
  fst (createVMDK e vmdk_path vm_name vol_name opts w)
  = Ret (RError ("Failed to create metadata kv store for " ++ vmdk_path))
  /\ cmds (snd (createVMDK e vmdk_path vm_name vol_name opts w))
     = (cmds w ++ [make_create_cmd e opts vmdk_path;
                   (VMDK_DELETE_CMD ++ " " ++ vmdk_path)%string])%list
  /\ kvstore (snd (createVMDK e vmdk_path vm_name vol_name opts w)) = kvstore w.
Proof.
  intros F V R K.
  assert (H : createVMDK e vmdk_path vm_name vol_name opts w
              = (Ret (RError ("Failed to create metadata kv store for " ++ vmdk_path)),
                 with_cmds w (cmds w ++ [make_create_cmd e opts vmdk_path;
                                         (VMDK_DELETE_CMD ++ " " ++ vmdk_path)%string]))).
  { unfold createVMDK, bind, os_path_isfile. rewrite F, V.
    unfold RunCommand at 1.
    destruct (run_command e (cmds w) (make_create_cmd e opts vmdk_path))
      as [rc out] eqn:E.
    simpl in R. subst rc. cbn [negb Z.eqb].
    rewrite create_kv_store_fails by exact K. cbn [negb].
    unfold removeVMDK, bind, RunCommand.
    cbn [with_cmds cmds kvstore hw reqs].
    destruct (run_command e _ (VMDK_DELETE_CMD ++ " " ++ vmdk_path)) as [rc out'].
    rewrite <- app_assoc.
    destruct (negb (rc =? 0)); reflexivity. }
  rewrite H. repeat split.
Qed.

Import Testbed.

Lemma create_reports_only_metadata_failure_witness :
  let w := world_of [] empty_store in
  fst (createVMDK host_kv_and_delete_fail v1_path "vm1" "v1" [("size", "1gb")] w)
  = Ret (RError ("Failed to create metadata kv store for " ++ v1_path))
  /\ cmds (snd (createVMDK host_kv_and_delete_fail v1_path "vm1" "v1"
                  [("size", "1gb")] w))
     = (cmds w ++ [make_create_cmd host_kv_and_delete_fail [("size", "1gb")] v1_path;
                   (VMDK_DELETE_CMD ++ " " ++ v1_path)%string])%list
  /\ kvstore (snd (createVMDK host_kv_and_delete_fail v1_path "vm1" "v1"
                     [("size", "1gb")] w)) = kvstore w.
Proof.
  intros w.
  apply (create_reports_only_metadata_failure host_kv_and_delete_fail).
  - reflexivity.
  - vm_compute. reflexivity.
  - reflexivity.
  - left. reflexivity.
Defined.

(** On a host whose vmkfstools cannot delete the image, the removal that
    [createVMDK] runs fails, the image stays, and the answer names the
    metadata failure alone. *)
Lemma create_cleanup_failure_unreported :
  let e := host_kv_and_delete_fail in
  let w := world_of [] empty_store in
  fst (createVMDK e v1_path "vm1" "v1" [("size", "1gb")] w)
  = Ret (RError "Failed to create metadata kv store for /vmfs/volumes/ds1/dockvols/v1.vmdk")
  /\ fst (removeVMDK e v1_path
            (with_cmds w [make_create_cmd e [("size", "1gb")] v1_path]))
     = Ret (RError "Failed to remove /vmfs/volumes/ds1/dockvols/v1.vmdk. Device or resource busy").
Proof. vm_compute. split; reflexivity. Qed.

End CreateFacts.
(** ** The dispatcher *)

Module DispatchFacts.
Import PyStr PyStrFacts PyLib Json Validation Ops Dispatch Spec.




Import Testbed.



End DispatchFacts.
(** ** The receive loop *)

Module LoopFacts.
Import PyStr PyLib Json Ops Loop Spec.
Local Open Scope list_scope.






(** A request received is never skipped. *)
Lemma serve_one_received (execute : dispatcher) (e : env) (op : vmci_op)
    (skip_count : Z) (w : world) :
  received op ->
  forall n w', serve_one execute e op skip_count w <> (Skip n, w').
Proof.
  intros [R E] n w'. unfold serve_one.
  destruct (Z.eqb_spec (op_errno op) ECONNABORTED); [contradiction|].
  destruct (Z.eqb_spec (op_ret op) VMCI_ERROR); [contradiction|].
  destruct (vmm_group_info e (op_cartel op)) as [[[vm_name cfg] uuid]|x];
    [|discriminate].
  destruct (format_uuid uuid); [|discriminate].
  destruct (loads (op_buf op)); [|discriminate].
  destruct (run_request _ _ _ _ _ _) as [[r|x] w1]; discriminate.
Qed.


Import Testbed.



End LoopFacts.
(** ** More on the metadata store *)

Module KVMore.
Import PyStr PyStrFacts Json JsonFacts DictFacts KV KVFacts Ops Spec Notions StatusFacts.

Lemma len_app (a b : string) : len (a ++ b) = len a + len b.
Proof.
  unfold len. rewrite !length_chars, chars_app, length_app. lia.
Qed.

Lemma len_spaces (k : nat) : len (spaces k) = Z.of_nat k.
Proof.
  unfold len, spaces. now rewrite length_chars, chars_str, repeat_length.
Qed.

Lemma align_str_size (s text : string) (block : Z) :
  0 < block ->
  align_str s block = Some text ->
  0 < len s
  /\ (exists k, text = s ++ spaces k ++ nl)
  /\ len text = aligned_size (len s) block.
Proof.
  intros B. unfold align_str, aligned_size.
  assert (L : 0 <= len s) by (unfold len; lia).
  destruct (Z.ltb_spec ((len s + block - 1) / block * block - 1) 0) as [H|H];
    [discriminate|].
  intros [= <-].
  assert (P : 0 < len s).
  { destruct (Z.eq_dec (len s) 0) as [E|E]; [|lia].
    rewrite E in H. rewrite Z.div_small in H by lia. lia. }
  split; [assumption|]. split; [eauto|].
  rewrite !len_app, len_spaces. change (len nl) with 1.
  pose proof (Z.div_mod (len s) block ltac:(lia)) as D.
  pose proof (Z.mod_pos_bound (len s) block B) as M.
  destruct (Z.eqb_spec (len s mod block) 0) as [E|E].
  - assert (Q : (len s + block - 1) / block = len s / block).
    { symmetry. apply (Z.div_unique _ _ _ (block - 1)); [lia|].
      rewrite E, Z.add_0_r in D. lia. }
    rewrite Q. rewrite E, Z.add_0_r in D.
    replace (len s / block * block) with (len s) by lia. lia.
  - assert (Q : (len s + block - 1) / block = len s / block + 1).
    { symmetry. apply (Z.div_unique _ _ _ (len s mod block - 1)); lia. }
    rewrite Q. nia.
Qed.

(** X1: the size of a side car: [save] writes the dump, blanks and one newline,
    in all the next multiple of 4096 characters above the length of the
    dump; but a dump whose length is a multiple of 4096 gets no blank and
    the text is one character longer than that. *)
Theorem saved_text_size (e : env) (st st' : store) (vol_path : string)
    (vol_meta : json) :
  save e st vol_path vol_meta = (true, st') ->
  exists text k,
    files st' !! get_kv_name e vol_path = Some text
    /\ text = dumps vol_meta ++ spaces k ++ nl
    /\ len text = aligned_size (len (dumps vol_meta)) KV_ALIGN
    /\ (len (dumps vol_meta) mod KV_ALIGN <> 0 -> len text mod KV_ALIGN = 0).
Proof.
  intros S. apply save_writes in S. destruct S as [_ [_ [_ [text [A F]]]]].
  destruct (align_str_size _ _ KV_ALIGN eq_refl A) as [_ [[k E] L]].
  exists text, k. rewrite F, lookup_insert_eq. repeat split; try assumption.
  intros N. rewrite L. unfold aligned_size.
  destruct (Z.eqb_spec (len (dumps vol_meta) mod KV_ALIGN) 0); [contradiction|].
  apply Z.mod_mul. discriminate.
Qed.

Lemma well_formed_set (k : string) (v : json) (d : dict) :
  well_formed (JObj d) = true -> well_formed v = true ->
  well_formed (JObj (dict_set k v d)) = true.
Proof.
  cbn [well_formed]. rewrite !andb_true_iff, !distinct_NoDup.
  intros [N F] W. split; [now apply dict_set_keys|].
  clear N. induction d as [|[k' v'] d IH]; cbn [dict_set forallb snd].
  - now rewrite W.
  - cbn [forallb snd] in F. apply andb_true_iff in F. destruct F as [F1 F2].
    destruct (String.eqb k' k); cbn [forallb snd].
    + now rewrite W, F2.
    + now rewrite F1, IH.
Qed.

Lemma well_formed_del (k : string) (d d' : dict) :
  well_formed (JObj d) = true -> dict_del k d = Some d' ->
  well_formed (JObj d') = true.
Proof.
  cbn [well_formed]. rewrite !andb_true_iff, !distinct_NoDup.
  intros [N F] D. split; [now apply (dict_del_some k d d' N D)|].
  clear N. revert d' D. induction d as [|[k' v'] d IH]; cbn [dict_del]; intros d' D;
    [discriminate|].
  cbn [forallb snd] in F. apply andb_true_iff in F. destruct F as [F1 F2].
  destruct (String.eqb k' k).
  - now injection D as <-.
  - destruct (dict_del k d) as [r|]; [|discriminate]. injection D as <-.
    cbn [forallb snd]. now rewrite F1, (IH F2 r eq_refl).
Qed.

(** [get_kv] on a stored dict. *)
Lemma get_kv_dict (e : env) (st : store) (p k : string) (d : dict) :
  load e st p = JObj d ->
  get_kv e st p k = Ret (match dict_get k d with Some x => x | None => JNull end).
Proof.
  intros L. unfold get_kv. rewrite L. destruct d as [|kv d]; [reflexivity|].
  cbn [truthy negb contains getitem]. rewrite dict_mem_get.
  now destruct (dict_get k (kv :: d)).
Qed.

(** X2: setting a key and reading it: on a volume whose side car holds a
    record (a dict that is not empty, of values json writes back as they
    are) and can be read and written, [set_kv] returns True, after which
    [get_kv] gives the value set for that key and what it gave before for
    every other key. *)
Theorem set_kv_then_get_kv (e : env) (st : store) (vol_path key : string)
    (val : json) (d : dict) :
  load e st vol_path = JObj d -> d <> [] ->
  well_formed (JObj d) = true -> well_formed val = true ->
  (get_kv_name e vol_path ∉ unwritable st) ->
  (get_kv_name e vol_path ∉ unreadable st) ->
  exists st',
    set_kv e st vol_path key val = (Ret true, st')
    /\ get_kv e st' vol_path key = Ret val
    /\ forall k, k <> key -> get_kv e st' vol_path k = get_kv e st vol_path k.
Proof.
  intros L N W Wv Hw Hr.
  pose proof (well_formed_set key val d W Wv) as W'.
  destruct (save_ok e st vol_path _ W' Hw) as [st' S].
  pose proof (load_save e st st' vol_path _ W' S Hr) as L'.
  exists st'. split; [|split].
  - unfold set_kv. rewrite L. destruct d; [contradiction|].
    cbn [truthy negb setitem]. now rewrite S.
  - rewrite (get_kv_dict e st' vol_path key _ L'). now rewrite dict_get_set_same.
  - intros k Hk. rewrite (get_kv_dict e st' vol_path k _ L'), (get_kv_dict e st vol_path k _ L).
    rewrite dict_get_set_other by congruence. reflexivity.
Qed.

(** X3: removing a key: under the same conditions [remove] returns True,
    whether the key was there or not, after which [get_kv] gives None for
    that key and what it gave before for every other key. *)
Theorem remove_then_get_kv (e : env) (st : store) (vol_path key : string)
    (d : dict) :
  load e st vol_path = JObj d -> d <> [] ->
  well_formed (JObj d) = true ->
  (get_kv_name e vol_path ∉ unwritable st) ->
  (get_kv_name e vol_path ∉ unreadable st) ->
  exists st',
    remove e st vol_path key = (Ret true, st')
    /\ get_kv e st' vol_path key = Ret JNull
    /\ forall k, k <> key -> get_kv e st' vol_path k = get_kv e st vol_path k.
Proof.
  intros L N W Hw Hr.
  assert (Nd : NoDup (List.map fst d)).
  { cbn [well_formed] in W. apply andb_true_iff in W. now apply distinct_NoDup. }
  unfold remove. rewrite L. destruct d as [|kv0 d0] eqn:Ed; [contradiction|].
  rewrite <- Ed in *. assert (T : truthy (JObj d) = true) by now rewrite Ed.
  rewrite T. cbn [negb contains delitem].
  destruct (dict_mem key d) eqn:M.
  - destruct (dict_del key d) as [d'|] eqn:D;
      [|apply dict_del_none in D; congruence].
    pose proof (well_formed_del key d d' W D) as W'.
    destruct (dict_del_some key d d' Nd D) as [M' [_ G]].
    destruct (save_ok e st vol_path _ W' Hw) as [st' S].
    pose proof (load_save e st st' vol_path _ W' S Hr) as L'.
    rewrite S. exists st'. split; [reflexivity|]. split.
    + rewrite (get_kv_dict e st' vol_path key _ L').
      rewrite dict_mem_get in M'. now destruct (dict_get key d').
    + intros k Hk.
      rewrite (get_kv_dict e st' vol_path k _ L'), (get_kv_dict e st vol_path k _ L).
      now rewrite G.
  - destruct (save_ok e st vol_path _ W Hw) as [st' S].
    pose proof (load_save e st st' vol_path _ W S Hr) as L'.
    rewrite S. exists st'. split; [reflexivity|]. split.
    + rewrite (get_kv_dict e st' vol_path key _ L').
      rewrite dict_mem_get in M. now destruct (dict_get key d).
    + intros k Hk.
      now rewrite (get_kv_dict e st' vol_path k _ L'), (get_kv_dict e st vol_path k _ L).
Qed.



Import Testbed.

Lemma set_kv_then_get_kv_witness :
  exists st',
    set_kv host (snd (save host empty_store v1_path (JObj record0))) v1_path
      "status" (JStr "attached") = (Ret true, st')
    /\ get_kv host st' v1_path "status" = Ret (JStr "attached")
    /\ forall k, k <> "status" ->
         get_kv host st' v1_path k
         = get_kv host (snd (save host empty_store v1_path (JObj record0))) v1_path k.
Proof.
  apply (set_kv_then_get_kv host _ v1_path "status" (JStr "attached") record0).
  - vm_compute. reflexivity.
  - discriminate.
  - reflexivity.
  - reflexivity.
  - apply not_elem_of_empty.
  - apply not_elem_of_empty.
Defined.

Lemma remove_then_get_kv_witness :
  exists st',
    remove host (snd (save host empty_store v1_path (JObj record0))) v1_path
      "created" = (Ret true, st')
    /\ get_kv host st' v1_path "created" = Ret JNull
    /\ forall k, k <> "created" ->
         get_kv host st' v1_path k
         = get_kv host (snd (save host empty_store v1_path (JObj record0))) v1_path k.
Proof.
  apply (remove_then_get_kv host _ v1_path "created" record0).
  - vm_compute. reflexivity.
  - discriminate.
  - reflexivity.
  - apply not_elem_of_empty.
  - apply not_elem_of_empty.
Defined.


Lemma saved_text_size_witness :
  exists text k,
    files (snd (save host empty_store v1_path (JObj record0)))
      !! get_kv_name host v1_path = Some text
    /\ text = dumps (JObj record0) ++ spaces k ++ nl
    /\ len text = aligned_size (len (dumps (JObj record0))) KV_ALIGN
    /\ (len (dumps (JObj record0)) mod KV_ALIGN <> 0 -> len text mod KV_ALIGN = 0).
Proof.
  apply (saved_text_size host empty_store). vm_compute. reflexivity.
Defined.

End KVMore.
(** ** Creation options and volume names *)

Module NameFacts.
Import PyStr PyStrFacts PyLib Json Validation KV Ops Dispatch Spec Notions.
Local Open Scope list_scope.

Lemma filter_nil_iff {A} (f : A -> bool) (l : list A) :
  List.filter f l = [] <-> forall x, In x l -> f x = false.
Proof.
  induction l as [|a l IH]; simpl.
  - split; [intros _ x [] | reflexivity].
  - destruct (f a) eqn:E.
    + split; [discriminate|]. intros H. specialize (H a (or_introl eq_refl)). congruence.
    + rewrite IH. split.
      * intros H x [<-|Hx]; auto.
      * intros H x Hx. apply H. now right.
Qed.

Lemma check_ok (a b : ValidationError + unit) :
  check a b = inr tt <-> a = inr tt /\ b = inr tt.
Proof.
  unfold check. destruct a as [x|[]]; [|tauto].
  split; [discriminate | intros [H _]; discriminate].
Qed.

Lemma size_ok (opts : options) :
  match opt_get SIZE opts with
  | Some size => validate_size size
  | None => inr tt
  end = inr tt
  <-> forall s, opt_get SIZE opts = Some s -> validate_size s = inr tt.
Proof.
  destruct (opt_get SIZE opts) as [s|].
  - split; [intros H s' [= <-]; exact H | auto].
  - split; [discriminate | reflexivity].
Qed.

Lemma policy_ok (e : env) (opts : options) (vmdk_path : string) :
  match opt_get VSAN_POLICY_NAME opts with
  | Some name => validate_vsan_policy_name e name vmdk_path
  | None => inr tt
  end = inr tt
  <-> forall n, opt_get VSAN_POLICY_NAME opts = Some n ->
                is_on_vsan e vmdk_path = true /\ policy_exists e n = true.
Proof.
  destruct (opt_get VSAN_POLICY_NAME opts) as [n|].
  - unfold validate_vsan_policy_name.
    destruct (is_on_vsan e vmdk_path); cbn [negb].
    + destruct (policy_exists e n) eqn:P; cbn [negb].
      * split; [intros _ n' [= <-]; now split | reflexivity].
      * split; [discriminate|]. intros H. destruct (H n eq_refl). congruence.
    + split; [discriminate|]. intros H. destruct (H n eq_refl). discriminate.
  - split; [discriminate | reflexivity].
Qed.

Lemma format_ok (opts : options) :
  match opt_get DISK_ALLOCATION_FORMAT opts with
  | Some format => validate_disk_allocation_format format
  | None => inr tt
  end = inr tt
  <-> forall f, opt_get DISK_ALLOCATION_FORMAT opts = Some f ->
                In f VALID_ALLOCATION_FORMATS.
Proof.
  destruct (opt_get DISK_ALLOCATION_FORMAT opts) as [f|].
  - unfold validate_disk_allocation_format.
    destruct (mem f VALID_ALLOCATION_FORMATS) eqn:M; cbn [negb].
    + split; [intros _ f' [= <-]; now apply mem_In | reflexivity].
    + split; [discriminate|]. intros H. specialize (H f eq_refl).
      apply mem_In in H. congruence.
  - split; [discriminate | reflexivity].
Qed.

(** X5: what [validate_opts] accepts: options that are all among size,
    vsan-policy-name and diskformat, with a size [validate_size] takes, a
    policy that exists for a volume on VSAN, and one of the three
    allocation formats, each only when given. *)
Theorem validate_opts_accepts (e : env) (opts : options) (vmdk_path : string) :
  validate_opts e opts vmdk_path = inr tt <->
  (forall k, In k (List.map fst opts) ->
             In k [SIZE; VSAN_POLICY_NAME; DISK_ALLOCATION_FORMAT])
  /\ (forall s, opt_get SIZE opts = Some s -> validate_size s = inr tt)
  /\ (forall n, opt_get VSAN_POLICY_NAME opts = Some n ->
                is_on_vsan e vmdk_path = true /\ policy_exists e n = true)
  /\ (forall f, opt_get DISK_ALLOCATION_FORMAT opts = Some f ->
                In f VALID_ALLOCATION_FORMATS).
Proof.
  unfold validate_opts.
  set (valid := [SIZE; VSAN_POLICY_NAME; DISK_ALLOCATION_FORMAT]).
  set (invalid := List.filter (fun k => negb (mem k valid)) (List.map fst opts)).
  assert (I : invalid = [] <-> forall k, In k (List.map fst opts) -> In k valid).
  { unfold invalid. rewrite filter_nil_iff. split; intros H k Hk.
    - apply mem_In. specialize (H k Hk). now apply negb_false_iff in H.
    - apply negb_false_iff, mem_In. auto. }
  rewrite <- I. clear I.
  destruct invalid as [|x invalid']; cbn [List.length Nat.eqb negb];
    [|split; [discriminate | intros [H _]; discriminate]].
  rewrite !check_ok.
  rewrite (size_ok opts), (policy_ok e opts vmdk_path), (format_ok opts).
  tauto.
Qed.

(** *** Volume names *)

Lemma take_drop_while {A} (p : A -> bool) (l : list A) :
  take_while p l ++ drop_while p l = l.
Proof.
  induction l as [|x l IH]; simpl; [reflexivity|].
  destruct (p x); simpl; [now rewrite IH | reflexivity].
Qed.

Lemma take_while_all {A} (p : A -> bool) (l : list A) :
  forallb p (take_while p l) = true.
Proof.
  induction l as [|x l IH]; simpl; [reflexivity|].
  destruct (p x) eqn:E; simpl; [now rewrite E | reflexivity].
Qed.

Lemma while_app {A} (p : A -> bool) (a b : list A) :
  forallb p a = true ->
  match b with [] => True | x :: _ => p x = false end ->
  take_while p (a ++ b) = a /\ drop_while p (a ++ b) = b.
Proof.
  intros Ha Hb. induction a as [|x a IH]; simpl.
  - destruct b as [|y b]; [now split|]. simpl. now rewrite Hb.
  - simpl in Ha. apply andb_true_iff in Ha. destruct Ha as [Hx Ha].
    rewrite Hx. destruct (IH Ha) as [-> ->]. now split.
Qed.

Lemma at_end_cases (l : list ascii) :
  at_end l = true -> l = [] \/ l = chars nl.
Proof.
  destruct l as [|c [|c' l]]; simpl; try discriminate; [now left|].
  intros H. right. apply Nat.eqb_eq in H.
  rewrite <- (ascii_nat_embedding c), H. reflexivity.
Qed.

Lemma valid_vol_chars (l : list ascii) :
  l <> [] -> forallb is_vol_char l = true ->
  (String.length (str l) <=? MAX_VOL_NAME_LEN)%nat = true ->
  valid_vol_name (str l) = true.
Proof.
  intros N F L. unfold valid_vol_name. rewrite chars_str, F, L.
  destruct l; [contradiction | reflexivity].
Qed.

Lemma valid_ds_chars (l : list ascii) :
  l <> [] -> forallb is_ds_char l = true ->
  (String.length (str l) <=? MAX_DS_NAME_LEN)%nat = true ->
  valid_ds_name (str l) = true.
Proof.
  intros N F L. unfold valid_ds_name. rewrite chars_str, F, L.
  destruct l; [contradiction | reflexivity].
Qed.

Lemma match_vol_name_sound (full vol : string) (ds : option string) :
  match_vol_name full = Some (vol, ds) ->
  vol <> EmptyString /\ forallb is_vol_char (chars vol) = true
  /\ match ds with
     | None => full = vol \/ full = (vol ++ nl)%string
     | Some d =>
         d <> EmptyString /\ forallb is_ds_char (chars d) = true
         /\ (full = (vol ++ "@" ++ d)%string \/ full = (vol ++ "@" ++ d ++ nl)%string)
     end.
Proof.
  unfold match_vol_name.
  pose proof (take_drop_while is_vol_char (chars full)) as E.
  pose proof (take_while_all is_vol_char (chars full)) as V.
  destruct (take_while is_vol_char (chars full)) as [|v0 vs] eqn:Tv; [discriminate|].
  destruct (drop_while is_vol_char (chars full)) as [|c r] eqn:Dv.
  - intros [= <- <-]. change (String v0 (str vs)) with (str (v0 :: vs)).
    rewrite chars_str. repeat split; [discriminate | assumption |].
    left. rewrite <- (str_chars full), <- E. now rewrite List.app_nil_r.
  - destruct (Ascii.eqb_spec c "@"%char) as [->|Hc].
    + pose proof (take_drop_while is_ds_char r) as Ed.
      pose proof (take_while_all is_ds_char r) as Vd.
      destruct (take_while is_ds_char r) as [|d0 dr] eqn:Td; [discriminate|].
      destruct (at_end (drop_while is_ds_char r)) eqn:A; [|discriminate].
      intros [= <- <-]. change (String v0 (str vs)) with (str (v0 :: vs)).
      change (String d0 (str dr)) with (str (d0 :: dr)). rewrite !chars_str.
      repeat split; [discriminate | assumption | discriminate | assumption |].
      apply at_end_cases in A. rewrite <- (str_chars full), <- E, <- Ed.
      destruct A as [-> | ->]; [left | right].
      * now rewrite List.app_nil_r, str_app.
      * change ("@"%char :: (d0 :: dr) ++ chars nl)
          with (["@"%char] ++ (d0 :: dr) ++ chars nl).
        rewrite !str_app, str_chars. reflexivity.
    + destruct (at_end (c :: r)) eqn:A; [|discriminate].
      intros [= <- <-]. change (String v0 (str vs)) with (str (v0 :: vs)).
      rewrite chars_str.
      repeat split; [discriminate | assumption |].
      destruct (at_end_cases _ A) as [A'|A']; [discriminate|]. right.
      rewrite <- (str_chars full), <- E, A', str_app. now rewrite str_chars.
Qed.

(** The word characters: the ASCII letters and digits, the underscore, and
    the letters and numerals of Latin-1. *)
Lemma is_word_spec (c : ascii) :
  is_word c = true <->
  (48 <= nat_of_ascii c <= 57 \/ 65 <= nat_of_ascii c <= 90
   \/ nat_of_ascii c = 95 \/ 97 <= nat_of_ascii c <= 122
   \/ nat_of_ascii c = 170 \/ 178 <= nat_of_ascii c <= 179
   \/ nat_of_ascii c = 181 \/ 185 <= nat_of_ascii c <= 186
   \/ 188 <= nat_of_ascii c <= 190 \/ 192 <= nat_of_ascii c <= 214
   \/ 216 <= nat_of_ascii c <= 246 \/ 248 <= nat_of_ascii c <= 255)%nat.
Proof.
  assert (U : (Ascii.eqb c "_" = true <-> nat_of_ascii c = 95)%nat).
  { rewrite Ascii.eqb_eq. split; [now intros -> |].
    intros H. rewrite <- (ascii_nat_embedding c), H. reflexivity. }
  unfold is_word, is_alnum, between. cbv zeta.
  rewrite !orb_true_iff, !andb_true_iff, !Nat.leb_le, U. lia.
Qed.

(** A name of Latin-1 letters is taken: here the one letter 233, e with an
    acute accent. *)
Lemma latin1_name_parses :
  parse_vol_name (str [ascii_of_nat 233]) = inr (str [ascii_of_nat 233], None)
  /\ Notions.valid_vol_name (str [ascii_of_nat 233]) = true.
Proof. split; reflexivity. Qed.

Lemma vol_char_plain (c : ascii) :
  is_vol_char c = true ->
  c <> "-"%char /\ c <> "/"%char /\ c <> "@"%char /\ c <> " "%char.
Proof.
  intros H. repeat split; intros ->; discriminate.
Qed.

(** X6: what [parse_vol_name] returns: a volume name that is not empty, has at
    most 100 characters and only word characters and dots (so no dash,
    slash, at sign or blank), and with it a datastore name of the same
    kind, dashes allowed, when the text has one after an at sign; the text
    is these, with at most a newline after them.  A word character is what
    the class of the expression takes: a letter or a numeral, those of
    Latin-1 included, or an underscore. *)
Theorem parse_vol_name_sound (full_vol_name vol_name : string) (ds : option string) :
  parse_vol_name full_vol_name = inr (vol_name, ds) ->
  valid_vol_name vol_name = true
  /\ (forall c, In c (chars vol_name) ->
        c <> "-"%char /\ c <> "/"%char /\ c <> "@"%char /\ c <> " "%char)
  /\ match ds with
     | None => full_vol_name = vol_name \/ full_vol_name = (vol_name ++ nl)%string
     | Some d =>
         valid_ds_name d = true
         /\ (full_vol_name = (vol_name ++ "@" ++ d)%string
             \/ full_vol_name = (vol_name ++ "@" ++ d ++ nl)%string)
     end.
Proof.
  unfold parse_vol_name.
  destruct (match_vol_name full_vol_name) as [[v d]|] eqn:M; [|discriminate].
  destruct (match_vol_name_sound _ _ _ M) as [Nv [Fv R]].
  destruct (MAX_VOL_NAME_LEN <? String.length v)%nat eqn:Lv; [discriminate|].
  assert (Vv : valid_vol_name v = true).
  { unfold valid_vol_name. rewrite Fv.
    destruct (String.eqb_spec v ""); [contradiction|].
    apply Nat.ltb_ge in Lv. apply Nat.leb_le in Lv. now rewrite Lv. }
  assert (Cv : forall c, In c (chars v) ->
               c <> "-"%char /\ c <> "/"%char /\ c <> "@"%char /\ c <> " "%char).
  { intros c Hc. apply vol_char_plain.
    rewrite forallb_forall in Fv. now apply Fv. }
  destruct d as [d|].
  - destruct (MAX_DS_NAME_LEN <? String.length d)%nat eqn:Ld; [discriminate|].
    intros [= <- <-]. split; [assumption|]. split; [assumption|].
    destruct R as [Nd [Fd R]]. split; [|assumption].
    unfold valid_ds_name. rewrite Fd.
    destruct (String.eqb_spec d ""); [contradiction|].
    apply Nat.ltb_ge in Ld. apply Nat.leb_le in Ld. now rewrite Ld.
  - intros [= <- <-]. split; [assumption|]. split; assumption.
Qed.

Lemma valid_vol_name_inv (s : string) :
  valid_vol_name s = true ->
  chars s <> [] /\ forallb is_vol_char (chars s) = true
  /\ (MAX_VOL_NAME_LEN <? String.length s)%nat = false.
Proof.
  unfold valid_vol_name. rewrite !andb_true_iff, negb_true_iff.
  intros [[N F] L]. repeat split; [|assumption|].
  - destruct s; [discriminate | discriminate].
  - apply Nat.ltb_ge. now apply Nat.leb_le.
Qed.

Lemma valid_ds_name_inv (s : string) :
  valid_ds_name s = true ->
  chars s <> [] /\ forallb is_ds_char (chars s) = true
  /\ (MAX_DS_NAME_LEN <? String.length s)%nat = false.
Proof.
  unfold valid_ds_name. rewrite !andb_true_iff, negb_true_iff.
  intros [[N F] L]. repeat split; [|assumption|].
  - destruct s; [discriminate | discriminate].
  - apply Nat.ltb_ge. now apply Nat.leb_le.
Qed.

Lemma parse_plain (vol : string) :
  valid_vol_name vol = true -> parse_vol_name vol = inr (vol, None).
Proof.
  intros V. destruct (valid_vol_name_inv _ V) as [N [F L]].
  unfold parse_vol_name, match_vol_name.
  destruct (while_app is_vol_char (chars vol) [] F I) as [T D].
  rewrite List.app_nil_r in T, D. rewrite T, D.
  destruct (chars vol) as [|c l] eqn:E; [contradiction|].
  rewrite <- E, str_chars, L. reflexivity.
Qed.

Lemma parse_qualified (vol ds : string) :
  valid_vol_name vol = true -> valid_ds_name ds = true ->
  parse_vol_name (vol ++ "@" ++ ds) = inr (vol, Some ds).
Proof.
  intros V W. destruct (valid_vol_name_inv _ V) as [N [F L]].
  destruct (valid_ds_name_inv _ W) as [Nd [Fd Ld]].
  unfold parse_vol_name, match_vol_name.
  rewrite chars_app. change (chars ("@" ++ ds)) with ("@"%char :: chars ds).
  destruct (while_app is_vol_char (chars vol) ("@"%char :: chars ds) F eq_refl) as [-> ->].
  destruct (while_app is_ds_char (chars ds) [] Fd I) as [T D].
  rewrite List.app_nil_r in T, D.
  destruct (chars vol) as [|c l] eqn:E; [contradiction|].
  rewrite <- E. cbn [Ascii.eqb Bool.eqb]. rewrite T, D.
  destruct (chars ds) as [|c' l'] eqn:E'; [contradiction|].
  rewrite <- E'. cbn [at_end]. rewrite !str_chars, L, Ld. reflexivity.
Qed.

(** X7: the names of a listing parse back: the name [get_full_vol_name] makes
    for a volume, whose name without the extension and whose datastore
    are of the kinds above, is taken by [parse_vol_name], which returns the
    volume name, and the datastore unless it is the one of the VM. *)
Theorem listed_name_parses_back (e : env) (vmdk_name datastore vm_datastore : string) :
  valid_vol_name (strip_vmdk_extension e vmdk_name) = true ->
  valid_ds_name datastore = true ->
  parse_vol_name (get_full_vol_name e vmdk_name datastore vm_datastore)
  = inr (strip_vmdk_extension e vmdk_name,
         if String.eqb datastore vm_datastore then None else Some datastore).
Proof.
  intros V W. unfold get_full_vol_name.
  destruct (String.eqb datastore vm_datastore).
  - now apply parse_plain.
  - now apply parse_qualified.
Qed.

(** X8: the datastore of the VM: [get_datastore_name] returns the name of a
    known datastore whose name or url is the fourth part of the
    configuration path, and raises IndexError when the path has no
    fourth part or no datastore has it. *)
Theorem default_datastore_is_known (e : env) (config_path : string) :
  (forall d, get_datastore_name e config_path = Ret d ->
     mem d (known_datastores e) = true
     /\ exists c url, nth_error (str_split "/" config_path) 3 = Some c
                      /\ In (d, url) (get_datastores e) /\ (d = c \/ url = c))
  /\ (forall x, get_datastore_name e config_path = Raise x -> x = IndexError)
  /\ (nth_error (str_split "/" config_path) 3 = None ->
      get_datastore_name e config_path = Raise IndexError).
Proof.
  unfold get_datastore_name.
  destruct (nth_error (str_split "/" config_path) 3) as [c|].
  - set (f := fun x : string * string => String.eqb (fst x) c || String.eqb (snd x) c).
    destruct (List.filter f (get_datastores e)) as [|[d url] rest] eqn:F; cbn [List.map fst].
    + split; [discriminate|]. split; [now intros x [= <-] | discriminate].
    + assert (Hin : In (d, url) (List.filter f (get_datastores e)))
        by (rewrite F; now left).
      apply filter_In in Hin. destruct Hin as [Hin Hf].
      split; [|split; discriminate].
      intros d' [= <-]. split.
      * apply mem_In. unfold known_datastores. apply in_map_iff. now exists (d, url).
      * exists c, url. split; [reflexivity|]. split; [assumption|].
        unfold f in Hf. cbn [fst snd] in Hf. apply orb_true_iff in Hf.
        destruct Hf as [H|H]; apply String.eqb_eq in H; auto.
  - split; [discriminate|]. split; [now intros x [= <-] | reflexivity].
Qed.

Import Testbed.

Lemma parse_vol_name_sound_witness :
  valid_vol_name "v1" = true
  /\ (forall c, In c (chars "v1") ->
        c <> "-"%char /\ c <> "/"%char /\ c <> "@"%char /\ c <> " "%char)
  /\ (valid_ds_name "ds-1" = true
      /\ ("v1@ds-1" = ("v1" ++ "@" ++ "ds-1")%string
          \/ "v1@ds-1" = ("v1" ++ "@" ++ "ds-1" ++ nl)%string)).
Proof.
  apply (parse_vol_name_sound "v1@ds-1" "v1" (Some "ds-1")). reflexivity.
Defined.

Lemma listed_name_parses_back_witness :
  parse_vol_name (get_full_vol_name host "v1.vmdk" "ds-2" "ds1")
  = inr (strip_vmdk_extension host "v1.vmdk",
         if String.eqb "ds-2" "ds1" then None else Some "ds-2").
Proof.
  apply (listed_name_parses_back host "v1.vmdk" "ds-2" "ds1"); reflexivity.
Defined.

Lemma default_datastore_is_known_witness :
  mem "ds1" (known_datastores host) = true
  /\ exists c url, nth_error (str_split "/" "/vmfs/volumes/5a0b1c2d/vm1/vm1.vmx") 3 = Some c
                   /\ In ("ds1", url) (get_datastores host) /\ ("ds1" = c \/ url = c).
Proof.
  apply (proj1 (default_datastore_is_known host "/vmfs/volumes/5a0b1c2d/vm1/vm1.vmx")).
  reflexivity.
Defined.

End NameFacts.
(** ** More on creation *)

Module CreateMore.
Import PyStr PyStrFacts PyLib Json JsonFacts DictFacts KV KVFacts Ops Spec Notions.
Local Open Scope list_scope.

Lemma with_cmds_nil (w : world) : with_cmds w (cmds w ++ []) = w.
Proof. destruct w. unfold with_cmds. cbn. now rewrite List.app_nil_r. Qed.

(** [getVMDKUuid] reads the descriptor and changes nothing. *)
Lemma getVMDKUuid_reads (e : env) (p : string) (w : world) :
  getVMDKUuid e p w
  = (match read_file e (cmds w) p with
     | Ret data => Ret (option_map str (search_vsan_uuid (chars data)))
     | Raise x => Raise x
     end, w).
Proof.
  unfold getVMDKUuid, bind, get_world, lift, ret.
  now destruct (read_file e (cmds w) p).
Qed.

(** The ways through [getVMDKBacking]: it runs at most the command that
    opens the VSAN object, and only what reading the descriptor raises
    leaves it. *)
Lemma getVMDKBacking_cases (e : env) (p : string) (w : world) :
  exists pre,
    (pre = []
     \/ exists uuid,
          uuid <> ""%string
          /\ getVMDKUuid e p w = (Ret (Some uuid), w)
          /\ pre = [(OBJ_TOOL_CMD ++ " " ++ uuid)%string])
    /\ ((exists x,
           pre = []
           /\ isfile e (cmds w) (replace ".vmdk" "-flat.vmdk" p) = false
           /\ read_file e (cmds w) p = Raise x
           /\ getVMDKBacking e p w = (Raise x, w))
        \/ exists ob, getVMDKBacking e p w = (Ret ob, with_cmds w (cmds w ++ pre))).
Proof.
  unfold getVMDKBacking, bind, os_path_isfile.
  destruct (isfile e (cmds w) _) eqn:Fl.
  - exists []. split; [now left|]. right. eexists. unfold ret.
    now rewrite with_cmds_nil.
  - rewrite (getVMDKUuid_reads e p w).
    destruct (read_file e (cmds w) p) as [data|x] eqn:Rd.
    2:{ exists []. split; [now left|]. left. exists x. now repeat split. }
    destruct (option_map str (search_vsan_uuid (chars data))) as [uuid|] eqn:U.
    2:{ exists []. split; [now left|]. right. exists None. unfold ret.
        now rewrite with_cmds_nil. }
    destruct (String.eqb_spec uuid "") as [->|Ne]; cbn [negb].
    { exists []. split; [now left|]. right. exists None. unfold ret.
      now rewrite with_cmds_nil. }
    exists [(OBJ_TOOL_CMD ++ " " ++ uuid)%string]. split.
    + right. exists uuid. now repeat split.
    + right. unfold RunCommand, ret. cbn [with_cmds cmds fst].
      destruct ((fst _ =? 0)%Z && _); eexists; reflexivity.
Qed.

Lemma with_cmds_twice (w : world) (a b : list string) :
  with_cmds (with_cmds w (cmds w ++ a)) (cmds (with_cmds w (cmds w ++ a)) ++ b)
  = with_cmds w (cmds w ++ a ++ b).
Proof. unfold with_cmds. cbn. now rewrite List.app_assoc. Qed.

(** The ways through [formatVmdk]. *)
Lemma formatVmdk_cases (e : env) (vmdk_path vol_name : string) (w : world) :
  exists pre,
    (pre = []
     \/ exists uuid,
          uuid <> ""%string
          /\ getVMDKUuid e vmdk_path w = (Ret (Some uuid), w)
          /\ pre = [(OBJ_TOOL_CMD ++ " " ++ uuid)%string])
    /\ ((exists x,
           pre = []
           /\ isfile e (cmds w) (replace ".vmdk" "-flat.vmdk" vmdk_path) = false
           /\ read_file e (cmds w) vmdk_path = Raise x
           /\ formatVmdk e vmdk_path vol_name w = (Raise x, w))
        \/ (getVMDKBacking e vmdk_path w = (Ret None, with_cmds w (cmds w ++ pre))
            /\ formatVmdk e vmdk_path vol_name w
               = (Ret (err ("Failed to format " ++ vmdk_path ++ ".")),
                  with_cmds w (cmds w ++ pre)))
        \/ exists backing,
             getVMDKBacking e vmdk_path w
             = (Ret (Some backing), with_cmds w (cmds w ++ pre))
             /\ let mkfs := (MKFS_CMD ++ " " ++ vol_name ++ " " ++ backing)%string in
                let rm := (VMDK_DELETE_CMD ++ " " ++ vmdk_path)%string in
                let rc := fst (run_command e (cmds w ++ pre) mkfs) in
                let rc' := fst (run_command e (cmds w ++ pre ++ [mkfs]) rm) in
                if (rc =? 0)%Z then
                  formatVmdk e vmdk_path vol_name w
                  = (Ret RNone, with_cmds w (cmds w ++ pre ++ [mkfs]))
                else
                  formatVmdk e vmdk_path vol_name w
                  = (Ret (err (if (rc' =? 0)%Z
                               then "Failed to format " ++ vmdk_path ++ "."
                               else "Unable to format " ++ vmdk_path ++
                                    " and unable to delete volume. Please delete it manually.")),
                     with_cmds w (cmds w ++ pre ++ [mkfs; rm]))).
Proof.
  destruct (getVMDKBacking_cases e vmdk_path w) as [pre [P G]].
  exists pre. split; [exact P|].
  unfold formatVmdk, bind.
  destruct G as [[x [-> [Fl [Rd G]]]]|[ob G]]; rewrite G.
  - left. exists x. now repeat split.
  - right. destruct ob as [backing|]; [right | left; now split].
    exists backing. split; [reflexivity|]. cbn zeta.
    unfold removeVMDK, bind, RunCommand, ret.
    cbn [with_cmds cmds kvstore hw reqs fst snd].
    destruct (run_command e (cmds w ++ pre) _) as [rc out]. cbn [fst].
    destruct (Z.eqb_spec rc 0) as [->|Hrc]; cbn [negb].
    + unfold with_cmds. cbn. now rewrite <- List.app_assoc.
    + cbv beta. cbn [with_cmds cmds kvstore hw reqs].
      rewrite <- !List.app_assoc. cbn [List.app].
      destruct (run_command e (cmds w ++ pre ++ [_]) _) as [rc' out']. cbn [fst].
      destruct (Z.eqb_spec rc' 0) as [->|Hrc']; cbn [negb]; reflexivity.
Qed.

(** X11: what [formatVmdk] did, read off its answer.  Before anything else
    it runs at most one command, the one that opens the VSAN object whose
    name the descriptor gave, and then one of three: reading the descriptor
    raised, and the exception leaves [formatVmdk] with nothing run; or there
    is no backing, and the answer is the error with neither mkfs nor the
    removal run; or mkfs is run on the backing, the answer being None
    exactly when it returned 0, and otherwise the command that removes the
    image is run right after it, the answer saying that the volume could
    not be deleted exactly when that command failed. *)
Theorem formatVmdk_outcomes (e : env) (vmdk_path vol_name : string) (w : world) :
  exists pre,
    (pre = []
     \/ exists uuid,
          uuid <> ""%string
          /\ getVMDKUuid e vmdk_path w = (Ret (Some uuid), w)
          /\ pre = [(OBJ_TOOL_CMD ++ " " ++ uuid)%string])
    /\ ((exists x,
           pre = []
           /\ isfile e (cmds w) (replace ".vmdk" "-flat.vmdk" vmdk_path) = false
           /\ read_file e (cmds w) vmdk_path = Raise x
           /\ formatVmdk e vmdk_path vol_name w = (Raise x, w))
        \/ (getVMDKBacking e vmdk_path w = (Ret None, with_cmds w (cmds w ++ pre))
            /\ formatVmdk e vmdk_path vol_name w
               = (Ret (err ("Failed to format " ++ vmdk_path ++ ".")),
                  with_cmds w (cmds w ++ pre)))
        \/ exists backing,
             getVMDKBacking e vmdk_path w
             = (Ret (Some backing), with_cmds w (cmds w ++ pre))
             /\ let mkfs := (MKFS_CMD ++ " " ++ vol_name ++ " " ++ backing)%string in
                let rm := (VMDK_DELETE_CMD ++ " " ++ vmdk_path)%string in
                let rc := fst (run_command e (cmds w ++ pre) mkfs) in
                let rc' := fst (run_command e (cmds w ++ pre ++ [mkfs]) rm) in
                if (rc =? 0)%Z then
                  formatVmdk e vmdk_path vol_name w
                  = (Ret RNone, with_cmds w (cmds w ++ pre ++ [mkfs]))
                else
                  formatVmdk e vmdk_path vol_name w
                  = (Ret (err (if (rc' =? 0)%Z
                               then "Failed to format " ++ vmdk_path ++ "."
                               else "Unable to format " ++ vmdk_path ++
                                    " and unable to delete volume. Please delete it manually.")),
                     with_cmds w (cmds w ++ pre ++ [mkfs; rm]))).
Proof. exact (formatVmdk_cases e vmdk_path vol_name w). Qed.

Lemma well_formed_options (opts : options) :
  NoDup (List.map fst opts) -> well_formed (json_of_options opts) = true.
Proof.
  intros N. unfold json_of_options. cbn [well_formed].
  rewrite map_map. cbn [fst]. apply andb_true_iff. split.
  - now apply distinct_NoDup.
  - clear N. induction opts as [|[k v] opts IH]; [reflexivity | exact IH].
Qed.

Lemma well_formed_created (e : env) (vm_name : string) (opts : options) :
  NoDup (List.map fst opts) ->
  well_formed (JObj (created_record e vm_name opts)) = true.
Proof.
  intros N. unfold created_record.
  change (well_formed (JObj ?d)) with
    (distinct (List.map fst d) && forallb (fun kv => well_formed (snd kv)) d).
  cbn [List.map fst forallb snd]. rewrite (well_formed_options opts N). reflexivity.
Qed.

(** X9: [createVMDK] refuses without doing anything: when the image is there
    already, or when the options are not valid, it answers with the error
    and neither runs a command nor touches the metadata; the image is
    looked for before the options are. *)
Theorem createVMDK_refuses_untouched (e : env) (vmdk_path vm_name vol_name : string)
    (opts : options) (w : world) :
  (isfile e (cmds w) vmdk_path = true ->
   createVMDK e vmdk_path vm_name vol_name opts w
   = (Ret (err ("File " ++ vmdk_path ++ " already exists")), w))
  /\ (forall msg,
        isfile e (cmds w) vmdk_path = false ->
        validate_opts e opts vmdk_path = inl (Validation.mkValidationError msg) ->
        createVMDK e vmdk_path vm_name vol_name opts w = (Ret (err msg), w))
  /\ (isfile e (cmds w) vmdk_path = false ->
      validate_opts e opts vmdk_path = inr tt ->
      fst (run_command e (cmds w) (make_create_cmd e opts vmdk_path)) <> 0 ->
      createVMDK e vmdk_path vm_name vol_name opts w
      = (Ret (err ("Failed to create " ++ vmdk_path ++ ". " ++
                   snd (run_command e (cmds w) (make_create_cmd e opts vmdk_path)))),
         with_cmds w (cmds w ++ [make_create_cmd e opts vmdk_path]))).
Proof.
  unfold createVMDK, bind, os_path_isfile, ret. split; [|split].
  - now intros ->.
  - now intros msg -> ->.
  - intros -> -> R. unfold RunCommand.
    destruct (run_command e (cmds w) _) as [rc out]. cbn [fst snd] in *.
    destruct (Z.eqb_spec rc 0); [contradiction | reflexivity].
Qed.

(** X10: what a successful [createVMDK] has done: the image was not there and
    the options were valid; the create command ran first and mkfs last;
    the side car holds the record of a detached volume with the options,
    the time and the name of the VM; and, the option keys being distinct and
    the side car readable, the record loads back and the volume reads as
    not attached. *)
Theorem createVMDK_success (e : env) (vmdk_path vm_name vol_name : string)
    (opts : options) (w w' : world) :
  createVMDK e vmdk_path vm_name vol_name opts w = (Ret RNone, w') ->
  isfile e (cmds w) vmdk_path = false
  /\ validate_opts e opts vmdk_path = inr tt
  /\ (exists mid backing,
        cmds w' = cmds w ++ [make_create_cmd e opts vmdk_path] ++ mid ++
                  [(MKFS_CMD ++ " " ++ vol_name ++ " " ++ backing)%string])
  /\ hw w' = hw w /\ reqs w' = reqs w
  /\ stored_record e (kvstore w') vmdk_path (created_record e vm_name opts)
  /\ (NoDup (List.map fst opts) ->
      (get_kv_name e vmdk_path ∉ unreadable (kvstore w)) ->
      load e (kvstore w') vmdk_path = JObj (created_record e vm_name opts)
      /\ getStatusAttached e (kvstore w') vmdk_path = Ret (false, JNull)).
Proof.
  unfold createVMDK, bind, os_path_isfile, ret.
  destruct (isfile e (cmds w) vmdk_path); [discriminate|].
  destruct (validate_opts e opts vmdk_path) as [[msg]|[]]; [discriminate|].
  unfold RunCommand at 1.
  destruct (run_command e (cmds w) _) as [rc out].
  destruct (Z.eqb_spec rc 0) as [->|]; cbn [negb]; [|discriminate].
  unfold create_kv_store, kv_create, create. cbn [with_cmds kvstore].
  fold (created_record e vm_name opts).
  destruct (create_kv e vmdk_path).
  2:{ cbn [negb]. unfold removeVMDK, bind, RunCommand.
      destruct (run_command e _ _) as [rc' out'].
      destruct (negb (rc' =? 0)); discriminate. }
  destruct (save e (kvstore w) vmdk_path (JObj (created_record e vm_name opts)))
    as [ok st] eqn:S.
  destruct ok; cbn [negb].
  2:{ unfold removeVMDK, bind, RunCommand.
      destruct (run_command e _ _) as [rc' out'].
      destruct (negb (rc' =? 0)); discriminate. }
  set (w1 := with_kvstore _ st).
  destruct (formatVmdk_cases e vmdk_path vol_name w1)
    as [mid [_ [[x [_ [_ [_ F]]]]|[[_ F]|[backing [_ F]]]]]].
  - rewrite F. discriminate.
  - rewrite F. discriminate.
  - cbn zeta in F.
    destruct (fst (run_command e (cmds w1 ++ mid) _) =? 0)%Z;
      rewrite F; [|discriminate].
    intros [= <-]. unfold w1. cbn [with_cmds with_kvstore cmds hw reqs kvstore].
    split; [reflexivity|]. split; [reflexivity|].
    split; [exists mid, backing; now rewrite <- !List.app_assoc|].
    split; [reflexivity|]. split; [reflexivity|].
    pose proof (save_writes _ _ _ _ _ S) as [_ [_ [_ [text [A Fi]]]]].
    split.
    + exists text. split; [|assumption]. rewrite Fi. apply lookup_insert_eq.
    + intros N R.
      pose proof (load_save e _ _ _ _ (well_formed_created e vm_name opts N) S R) as L.
      split; [assumption|].
      unfold getStatusAttached, getAll. rewrite L. reflexivity.
Qed.

Import Testbed Hosts.

Lemma createVMDK_success_witness :
  let w := world_of [] empty_store in
  let w' := snd (createVMDK host_flat v1_path "vm1" "v1" [("size", "1gb")] w) in
  isfile host_flat (cmds w) v1_path = false
  /\ validate_opts host_flat [("size", "1gb")] v1_path = inr tt
  /\ (exists mid backing,
        cmds w' = cmds w ++ [make_create_cmd host_flat [("size", "1gb")] v1_path] ++ mid ++
                  [(MKFS_CMD ++ " " ++ "v1" ++ " " ++ backing)%string])
  /\ hw w' = hw w /\ reqs w' = reqs w
  /\ stored_record host_flat (kvstore w') v1_path
       (created_record host_flat "vm1" [("size", "1gb")])
  /\ (NoDup (List.map fst [("size", "1gb")]) ->
      (get_kv_name host_flat v1_path ∉ unreadable (kvstore w)) ->
      load host_flat (kvstore w') v1_path
      = JObj (created_record host_flat "vm1" [("size", "1gb")])
      /\ getStatusAttached host_flat (kvstore w') v1_path = Ret (false, JNull)).
Proof.
  intros w w'.
  apply (createVMDK_success host_flat v1_path "vm1" "v1" [("size", "1gb")] w w').
  apply injective_projections; [vm_compute; reflexivity | reflexivity].
Defined.

(** The search on the descriptor of [Testbed] finds the name of the object;
    the group runs to the last quote of its line; and a line without the
    words gives nothing. *)
Lemma search_vsan_uuid_examples :
  option_map str (search_vsan_uuid (chars vsan_descriptor)) = Some vsan_uuid
  /\ option_map str
       (search_vsan_uuid
          (chars ("RW 1 VMFS " ++ str [dquote] ++ "vsan://a" ++ str [dquote] ++
                  " x" ++ str [dquote] ++ " y")))
     = Some ("a" ++ str [dquote] ++ " x")%string
  /\ search_vsan_uuid
       (chars ("RW 1 VMFS " ++ str [dquote] ++ "v1-flat.vmdk" ++ str [dquote] ++ nl))
     = None
  /\ search_vsan_uuid
       (chars ("RW 1 VMFS " ++ nl ++ str [dquote] ++ "vsan://a" ++ str [dquote]))
     = None.
Proof. repeat split; reflexivity. Qed.

(** On VSAN the object is opened, then formatted; a descriptor that cannot
    be opened ends [formatVmdk], and [createVMDK] after the image and its
    metadata were made, with the exception of [open]. *)
Lemma formatVmdk_examples :
  let w := world_of [] empty_store in
  formatVmdk host_vsan v1_path "v1" w
  = (Ret RNone,
     with_cmds w [(OBJ_TOOL_CMD ++ " " ++ vsan_uuid)%string;
                  (MKFS_CMD ++ " v1 /vmfs/devices/vsan/" ++ vsan_uuid)%string])
  /\ formatVmdk host_no_descriptor v1_path "v1" w = (Raise OSError, w)
  /\ fst (createVMDK host_no_descriptor v1_path "vm1" "v1" [("size", "1gb")] w)
     = Raise OSError
  /\ cmds (snd (createVMDK host_no_descriptor v1_path "vm1" "v1" [("size", "1gb")] w))
     = [make_create_cmd host_no_descriptor [("size", "1gb")] v1_path]
  /\ load host_no_descriptor
       (kvstore (snd (createVMDK host_no_descriptor v1_path "vm1" "v1"
                        [("size", "1gb")] w))) v1_path
     = JObj (created_record host_no_descriptor "vm1" [("size", "1gb")]).
Proof. vm_compute. repeat split; reflexivity. Qed.

Lemma createVMDK_refuses_untouched_witness :
  createVMDK host v1_path "vm1" "v1" [("size", "10xb")] (world_of [] empty_store)
  = (Ret (err Validation.size_msg), world_of [] empty_store).
Proof.
  apply (proj1 (proj2 (createVMDK_refuses_untouched host v1_path "vm1" "v1"
                         [("size", "10xb")] (world_of [] empty_store)))).
  - reflexivity.
  - vm_compute. reflexivity.
Defined.

End CreateMore.
(** ** More on the dispatcher *)

Module DispatchMore.
Import PyStr PyStrFacts PyLib Json Validation Ops Dispatch Spec Notions NameFacts.
Local Open Scope list_scope.

Lemma vol_char_is_ds_char (c : ascii) : is_vol_char c = true -> is_ds_char c = true.
Proof. unfold is_ds_char. now intros ->. Qed.

Lemma In_chars_app (c : ascii) (a b : string) :
  In c (chars (a ++ b)) <-> In c (chars a) \/ In c (chars b).
Proof. rewrite chars_app. apply in_app_iff. Qed.

(** A character that no name can hold makes the name fail to parse. *)
Lemma foreign_char_fails (full : string) (c : ascii) :
  In c (chars full) -> is_ds_char c = false ->
  c <> "@"%char -> nat_of_ascii c <> 10%nat ->
  exists msg, parse_vol_name full = inl (mkValidationError msg).
Proof.
  intros Hin Hc Hat Hnl.
  destruct (parse_vol_name full) as [[msg]|[vol ds]] eqn:P; [eauto|].
  exfalso. unfold parse_vol_name in P.
  destruct (match_vol_name full) as [[v d]|] eqn:M; [|discriminate].
  assert (P' : v = vol /\ d = ds).
  { destruct (_ <? _)%nat; [discriminate|]. destruct d as [d|].
    - destruct (_ <? _)%nat; [discriminate|]. now injection P as <- <-.
    - now injection P as <- <-. }
  destruct P' as [-> ->].
  destruct (match_vol_name_sound _ _ _ M) as [_ [Fv R]].
  rewrite forallb_forall in Fv.
  assert (Hv : ~ In c (chars vol)).
  { intros H. apply Fv, vol_char_is_ds_char in H. congruence. }
  assert (Hn : ~ In c (chars nl)).
  { intros [<-|[]]. now apply Hnl. }
  destruct ds as [d|].
  - destruct R as [_ [Fd R]]. rewrite forallb_forall in Fd.
    assert (Hd : ~ In c (chars d)) by (intros H; apply Fd in H; congruence).
    assert (Ha : ~ In c (chars "@")) by (intros [<-|[]]; now apply Hat).
    destruct R as [-> | ->]; repeat (apply In_chars_app in Hin; destruct Hin as [Hin|Hin]);
      tauto.
  - destruct R as [-> | ->]; [tauto|].
    apply In_chars_app in Hin. tauto.
Qed.

(** X12: a name the dispatcher cannot take costs nothing: a request other than
    list whose volume name holds a character that is neither a word
    character (a letter or a numeral, those of Latin-1 included, or an
    underscore), a dot, a dash, an at sign nor a newline (so a slash, a
    blank, a quote) is answered with an error, and no command is run,
    nothing is asked of the hypervisor and no metadata is touched. *)
Theorem rejected_name_runs_nothing (e : env)
    (vm_uuid vm_name config_path cmd full_vol_name : string) (opts : options)
    (w : world) (vm_datastore : string) (c : ascii) :
  get_datastore_name e config_path = Ret vm_datastore ->
  cmd <> "list" ->
  In c (chars full_vol_name) -> is_ds_char c = false ->
  c <> "@"%char -> nat_of_ascii c <> 10%nat ->
  exists msg,
    executeRequest e vm_uuid vm_name config_path cmd full_vol_name opts w
    = (Ret (RError msg), w).
Proof.
  intros D L Hin Hc Hat Hnl.
  destruct (foreign_char_fails _ _ Hin Hc Hat Hnl) as [msg P].
  exists (repr_str e msg).
  unfold executeRequest, bind, lift. rewrite D.
  destruct (String.eqb_spec cmd "list"); [contradiction|].
  now rewrite P.
Qed.

(** X13: the list command looks at no name: whatever volume name and options
    come with it, it answers with one name for each volume of
    [get_volumes], in their order, each made by [get_full_vol_name] against
    the datastore of the VM, and it changes nothing. *)
Theorem list_ignores_the_name (e : env)
    (vm_uuid vm_name config_path full_vol_name : string) (opts : options)
    (w : world) (vm_datastore : string) :
  get_datastore_name e config_path = Ret vm_datastore ->
  exists names,
    executeRequest e vm_uuid vm_name config_path "list" full_vol_name opts w
    = (Ret (RVolumes names), w)
    /\ List.length names = List.length (get_volumes e)
    /\ forall i x, nth_error (get_volumes e) i = Some x ->
         nth_error names i
         = Some (if String.eqb (snd x) vm_datastore
                 then strip_vmdk_extension e (fst x)
                 else (strip_vmdk_extension e (fst x) ++ "@" ++ snd x)%string).
Proof.
  intros D. unfold executeRequest, bind, lift. rewrite D.
  change (String.eqb "list" "list") with true. cbv iota.
  unfold listVMDK, ret. eexists. split; [reflexivity|]. split.
  - apply length_map.
  - intros i x H. rewrite nth_error_map, H. reflexivity.
Qed.

(** X14: the get command reads only: for a name that parses, on a datastore
    that is known (or on the one of the VM) and whose volume directory is
    there, it answers None when the image is a file and the not-found error
    otherwise, and the world is as before. *)
Theorem get_reads_only (e : env)
    (vm_uuid vm_name config_path full_vol_name : string) (opts : options)
    (w : world) (vm_datastore vol_name : string) (ds : option string) :
  get_datastore_name e config_path = Ret vm_datastore ->
  parse_vol_name full_vol_name = inr (vol_name, ds) ->
  ds = None \/ mem (datastore_of ds vm_datastore) (known_datastores e) = true ->
  let path := path_join (path_join "/vmfs/volumes" (datastore_of ds vm_datastore))
                        DOCK_VOLS_DIR in
  let vmdk_path := get_vmdk_path e path vol_name in
  isdir e (cmds w) path = true ->
  executeRequest e vm_uuid vm_name config_path "get" full_vol_name opts w
  = (Ret (if isfile e (cmds w) vmdk_path then RNone
          else err ("Volume " ++ vol_name ++ " not found (file: " ++ vmdk_path ++ ")")),
     w).
Proof.
  intros D P K path vmdk_path Hd.
  unfold executeRequest, bind, lift. rewrite D.
  change (String.eqb "get" "list") with false. cbv iota. rewrite P.
  assert (R : run_on_datastore e vm_uuid vm_name "get" vol_name opts
                (datastore_of ds vm_datastore) w
              = (Ret (if isfile e (cmds w) vmdk_path then RNone
                      else err ("Volume " ++ vol_name ++ " not found (file: " ++
                                vmdk_path ++ ")")), w)).
  { unfold run_on_datastore, get_vol_path, bind, os_path_isdir.
    fold path. rewrite Hd. unfold ret.
    change (String.eqb "get" "get") with true. cbv iota.
    unfold getVMDK, bind, os_path_isfile, ret. fold vmdk_path.
    now destruct (isfile e (cmds w) vmdk_path). }
  destruct ds as [d|]; cbn [datastore_of] in *.
  - destruct K as [K|K]; [discriminate|]. rewrite K. exact R.
  - exact R.
Qed.

(** X15: a volume directory that cannot be made: for a request other than
    list whose name parses, on a datastore that is known (or on the one of
    the VM) and has no volume directory, the mkdir of that directory is
    run; when it fails the request is answered with the error about the
    volume path and nothing else is run, whatever the command. *)
Theorem volume_directory_failure (e : env)
    (vm_uuid vm_name config_path cmd full_vol_name : string) (opts : options)
    (w : world) (vm_datastore vol_name : string) (ds : option string) :
  get_datastore_name e config_path = Ret vm_datastore ->
  cmd <> "list" ->
  parse_vol_name full_vol_name = inr (vol_name, ds) ->
  ds = None \/ mem (datastore_of ds vm_datastore) (known_datastores e) = true ->
  let path := path_join (path_join "/vmfs/volumes" (datastore_of ds vm_datastore))
                        DOCK_VOLS_DIR in
  let mkdir := (OSFS_MKDIR_CMD ++ " " ++ path)%string in
  isdir e (cmds w) path = false ->
  fst (run_command e (cmds w) mkdir) <> 0 ->
  executeRequest e vm_uuid vm_name config_path cmd full_vol_name opts w
  = (Ret (err "Failed to initialize volume path None"),
     with_cmds w (cmds w ++ [mkdir])).
Proof.
  intros D L P K path mkdir Hd Hrc.
  assert (E : executeRequest e vm_uuid vm_name config_path cmd full_vol_name opts w
              = run_on_datastore e vm_uuid vm_name cmd vol_name opts
                  (datastore_of ds vm_datastore) w).
  { unfold executeRequest, bind, lift. rewrite D.
    destruct (String.eqb_spec cmd "list"); [contradiction|]. rewrite P.
    destruct ds as [d|]; cbn [datastore_of] in *; [|reflexivity].
    destruct K as [K|K]; [discriminate|]. now rewrite K. }
  rewrite E. unfold run_on_datastore, get_vol_path, bind, os_path_isdir.
  fold path. rewrite Hd. unfold RunCommand. fold mkdir.
  destruct (run_command e (cmds w) mkdir) as [rc out]. cbn [fst] in *.
  destruct (Z.eqb_spec rc 0); [contradiction | reflexivity].
Qed.

(** X16: the lookup of the VM is tried twice at most: [attachVMDK] and
    [detachVMDK] work on the VM the first lookup finds; when that one fails
    or finds nothing, on the VM the lookup after a reconnect finds; and
    when that finds nothing either, or raises, they raise and change
    nothing. *)
Theorem vm_lookup_retried_once (e : env) (vmdk_path vm_uuid : string) (w : world) :
  (forall v, find_by_uuid e false vm_uuid = Ret (Some v) ->
     attachVMDK e vmdk_path vm_uuid w = disk_attach e vmdk_path v w
     /\ detachVMDK e vmdk_path vm_uuid w = disk_detach e vmdk_path v w)
  /\ (forall v, (forall v0, find_by_uuid e false vm_uuid <> Ret (Some v0)) ->
        find_by_uuid e true vm_uuid = Ret (Some v) ->
        attachVMDK e vmdk_path vm_uuid w = disk_attach e vmdk_path v w
        /\ detachVMDK e vmdk_path vm_uuid w = disk_detach e vmdk_path v w)
  /\ ((forall v0, find_by_uuid e false vm_uuid <> Ret (Some v0)) ->
      (forall v0, find_by_uuid e true vm_uuid <> Ret (Some v0)) ->
      exists x, attachVMDK e vmdk_path vm_uuid w = (Raise x, w)
                /\ detachVMDK e vmdk_path vm_uuid w = (Raise x, w)).
Proof.
  unfold attachVMDK, detachVMDK, findVmByUuid, bind. split; [|split].
  - intros v ->. now split.
  - intros v N H.
    destruct (find_by_uuid e false vm_uuid) as [[v0|]|x];
      [now destruct (N v0) | |]; rewrite H; now split.
  - intros N1 N2.
    destruct (find_by_uuid e false vm_uuid) as [[v0|]|x]; [now destruct (N1 v0) | |];
      (destruct (find_by_uuid e true vm_uuid) as [[v1|]|y];
       [now destruct (N2 v1) | |]; eexists; split; reflexivity).
Qed.

Import Testbed Hosts.

Lemma rejected_name_runs_nothing_witness :
  exists msg,
    executeRequest host (vm_uuid vm1) "vm1" "/vmfs/volumes/ds1/vm1/vm1.vmx"
      "remove" "../v1" [] (world_of [] empty_store)
    = (Ret (RError msg), world_of [] empty_store).
Proof.
  apply (rejected_name_runs_nothing host (vm_uuid vm1) "vm1"
           "/vmfs/volumes/ds1/vm1/vm1.vmx" "remove" "../v1" []
           (world_of [] empty_store) "ds1" "/"%char).
  - reflexivity.
  - discriminate.
  - right. right. now left.
  - reflexivity.
  - discriminate.
  - discriminate.
Defined.

Lemma list_ignores_the_name_witness :
  exists names,
    executeRequest host (vm_uuid vm1) "vm1" "/vmfs/volumes/ds1/vm1/vm1.vmx"
      "list" "not a name" [] (world_of [] empty_store)
    = (Ret (RVolumes names), world_of [] empty_store)
    /\ List.length names = List.length (get_volumes host)
    /\ forall i x, nth_error (get_volumes host) i = Some x ->
         nth_error names i
         = Some (if String.eqb (snd x) "ds1"
                 then strip_vmdk_extension host (fst x)
                 else (strip_vmdk_extension host (fst x) ++ "@" ++ snd x)%string).
Proof.
  apply (list_ignores_the_name host (vm_uuid vm1) "vm1"
           "/vmfs/volumes/ds1/vm1/vm1.vmx" "not a name" []
           (world_of [] empty_store) "ds1").
  reflexivity.
Defined.

Lemma get_reads_only_witness :
  executeRequest host (vm_uuid vm1) "vm1" "/vmfs/volumes/ds1/vm1/vm1.vmx"
    "get" "v1" [] (world_of [] empty_store)
  = (Ret (err "Volume v1 not found (file: /vmfs/volumes/ds1/dockvols/v1.vmdk)"),
     world_of [] empty_store).
Proof.
  apply (get_reads_only host (vm_uuid vm1) "vm1" "/vmfs/volumes/ds1/vm1/vm1.vmx"
           "v1" [] (world_of [] empty_store) "ds1" "v1" None).
  - reflexivity.
  - reflexivity.
  - now left.
  - reflexivity.
Defined.

Lemma volume_directory_failure_witness :
  executeRequest host_no_dir (vm_uuid vm1) "vm1" "/vmfs/volumes/ds1/vm1/vm1.vmx"
    "create" "v1" [] (world_of [] empty_store)
  = (Ret (err "Failed to initialize volume path None"),
     with_cmds (world_of [] empty_store)
       (cmds (world_of [] empty_store) ++
        [(OSFS_MKDIR_CMD ++ " " ++
          path_join (path_join "/vmfs/volumes" (datastore_of None "ds1")) DOCK_VOLS_DIR)%string])).
Proof.
  apply (volume_directory_failure host_no_dir (vm_uuid vm1) "vm1"
           "/vmfs/volumes/ds1/vm1/vm1.vmx" "create" "v1" []
           (world_of [] empty_store) "ds1" "v1" None).
  - reflexivity.
  - discriminate.
  - reflexivity.
  - now left.
  - reflexivity.
  - vm_compute. discriminate.
Defined.

Lemma vm_lookup_retried_once_witness :
  attachVMDK host v1_path (vm_uuid vm1) (world_of [] empty_store)
  = disk_attach host v1_path vm1 (world_of [] empty_store)
  /\ detachVMDK host v1_path (vm_uuid vm1) (world_of [] empty_store)
     = disk_detach host v1_path vm1 (world_of [] empty_store).
Proof.
  apply (proj1 (vm_lookup_retried_once host v1_path (vm_uuid vm1)
                  (world_of [] empty_store)) vm1).
  reflexivity.
Defined.

End DispatchMore.
(** ** More on attach and detach *)

Module AttachMore.
Import PyStr PyStrFacts PyLib Json JsonFacts DictFacts KV KVFacts Ops Spec Notions.
Import StatusFacts KVMore.
Local Open Scope list_scope.

(** *** What the two status writers do to the store *)

Lemma setStatusAttached_kv (e : env) (p : string) (v : vm) (w w' : world)
    (r : exc unit) :
  setStatusAttached e p v w = (r, w') ->
  (r = Ret tt
   /\ exists d, or_empty (load e (kvstore w) p) = JObj d
                /\ w' = with_kvstore w
                          (snd (save e (kvstore w) p (JObj (attached_record v d)))))
  \/ ((exists x, r = Raise x) /\ w' = w).
Proof.
  destruct (or_empty_dict (load e (kvstore w) p)) as [[d O]|[T N]].
  - rewrite (setStatusAttached_record e p v w d O). intros [= <- <-]. left.
    split; [reflexivity|]. now exists d.
  - unfold setStatusAttached, bind, kv_getAll, getAll, lift, or_empty. rewrite T.
    cbn [negb]. destruct (load e (kvstore w) p) as [| | | | | |d] eqn:L;
      cbn [setitem]; try (intros [= <- <-]; right; split; [eauto | reflexivity]).
    exfalso. now apply (N d).
Qed.

Lemma setStatusDetached_kv (e : env) (p : string) (w w' : world) (r : exc unit) :
  setStatusDetached e p w = (r, w') ->
  (r = Ret tt
   /\ exists d, or_empty (load e (kvstore w) p) = JObj d
                /\ w' = with_kvstore w
                          (snd (setAll e (kvstore w) p
                                  (del_attached_identity
                                     (JObj (dict_set STATUS (JStr DETACHED) d))))))
  \/ ((exists x, r = Raise x) /\ w' = w).
Proof.
  unfold setStatusDetached, bind, kv_getAll, lift, kv_setAll, ret, getAll.
  destruct (or_empty (load e (kvstore w) p)) eqn:O; cbn [setitem];
    try (intros [= <- <-]; right; split; [eauto | reflexivity]).
  destruct (setAll _ _ _ _) as [ok st] eqn:S. intros [= <- <-]. left.
  split; [reflexivity|]. exists items. split; [reflexivity|]. now rewrite S.
Qed.

(** The store after [disk_attach]: the record written by [setStatusAttached]
    when the answer is a bus and a unit, the store as it was otherwise. *)
Lemma attach_at_kv (e : env) (p : string) (v : vm) (ck bus slot : Z) (w w' : world)
    (r : exc response) :
  attach_at e p v ck bus slot w = (r, w') ->
  ((exists u b, r = Ret (RBusInfo u b))
   /\ exists d, or_empty (load e (kvstore w) p) = JObj d
                /\ kvstore w' = snd (save e (kvstore w) p (JObj (attached_record v d))))
  \/ ((forall u b, r <> Ret (RBusInfo u b)) /\ kvstore w' = kvstore w).
Proof.
  unfold attach_at, bind, ReconfigVM_Task.
  destruct (reconfig e (hw w) _) as [msg|devs].
  - unfold get_world, lift.
    destruct (getStatusAttached _ _ _) as [[a u]|x]; cbn [kvstore with_reqs];
      [|intros [= <- <-]; right; split; [discriminate | reflexivity]].
    destruct (a && _); unfold ret, err; intros [= <- <-]; right;
      (split; [discriminate | reflexivity]).
  - destruct (setStatusAttached e p v _) as [r1 w1] eqn:S.
    apply setStatusAttached_kv in S. cbn [kvstore with_hw with_reqs] in S.
    destruct S as [[-> [d [O ->]]]|[[x ->] ->]].
    + unfold ret, busInfo. intros [= <- <-]. left. split; [eauto|].
      exists d. split; [assumption | reflexivity].
    + intros [= <- <-]. right. split; [discriminate | reflexivity].
Qed.

Lemma place_disk_kv (e : env) (p : string) (v : vm) (devices : list device)
    (slot : option Z) (ck bus : Z) (w w' : world) (r : exc response) :
  place_disk e p v devices slot ck bus w = (r, w') ->
  ((exists u b, r = Ret (RBusInfo u b))
   /\ exists d, or_empty (load e (kvstore w) p) = JObj d
                /\ kvstore w' = snd (save e (kvstore w) p (JObj (attached_record v d))))
  \/ ((forall u b, r <> Ret (RBusInfo u b)) /\ kvstore w' = kvstore w).
Proof.
  unfold place_disk, bind, get_world, lift.
  destruct (findDeviceByPath e p (hw w)) as [[dev|]|x].
  - destruct (setStatusAttached e p v w) as [r1 w1] eqn:S.
    apply setStatusAttached_kv in S.
    destruct S as [[-> [d [O ->]]]|[[x ->] ->]].
    + unfold ret, busInfo. intros [= <- <-]. left. split; [eauto|].
      exists d. split; [assumption | reflexivity].
    + intros [= <- <-]. right. split; [discriminate | reflexivity].
  - destruct (not_slot slot).
    + destruct (List.length _ =? 0)%nat;
        [unfold ret, err; intros [= <- <-]; right; split; [discriminate | reflexivity]|].
      destruct (set_pop e _) as [u|];
        [|unfold raise; intros [= <- <-]; right; split; [discriminate | reflexivity]].
      apply attach_at_kv.
    + apply attach_at_kv.
  - intros [= <- <-]. right. split; [discriminate | reflexivity].
Qed.

Lemma disk_attach_kv (e : env) (p : string) (v : vm) (w w' : world)
    (r : exc response) :
  disk_attach e p v w = (r, w') ->
  ((exists u b, r = Ret (RBusInfo u b))
   /\ exists d, or_empty (load e (kvstore w) p) = JObj d
                /\ kvstore w' = snd (save e (kvstore w) p (JObj (attached_record v d))))
  \/ ((forall u b, r <> Ret (RBusInfo u b)) /\ kvstore w' = kvstore w).
Proof.
  unfold disk_attach, bind, get_world.
  destruct (List.filter is_pvscsi _) as [|x rest].
  - destruct (max_scsi_controllers <=? _)%Z;
      [unfold ret, err; intros [= <- <-]; right; split; [discriminate | reflexivity]|].
    destruct (set_pop e _) as [key|];
      [|unfold raise; intros [= <- <-]; right; split; [discriminate | reflexivity]].
    unfold ReconfigVM_Task.
    destruct (reconfig e (hw w) _) as [msg|devs].
    + unfold ret. intros [= <- <-]. right. split; [discriminate | reflexivity].
    + intros H. apply place_disk_kv in H. exact H.
  - destruct x as [? ? ?|k key bus|?];
      try (unfold raise; intros [= <- <-]; right; split; [discriminate | reflexivity]).
    apply place_disk_kv.
Qed.

Lemma disk_detach_kv (e : env) (p : string) (v : vm) (w w' : world)
    (r : exc response) :
  disk_detach e p v w = (r, w') ->
  (r = Ret RNone
   /\ exists d, or_empty (load e (kvstore w) p) = JObj d
                /\ kvstore w'
                   = snd (setAll e (kvstore w) p
                            (del_attached_identity
                               (JObj (dict_set STATUS (JStr DETACHED) d)))))
  \/ (r <> Ret RNone /\ kvstore w' = kvstore w).
Proof.
  unfold disk_detach, bind, get_world, lift.
  destruct (findDeviceByPath e p (hw w)) as [[dev|]|x].
  - unfold ReconfigVM_Task.
    destruct (reconfig e (hw w) _) as [msg|devs].
    + unfold ret, err. intros [= <- <-]. right. split; [discriminate | reflexivity].
    + destruct (setStatusDetached e p _) as [r1 w1] eqn:S.
      apply setStatusDetached_kv in S. cbn [kvstore with_hw with_reqs] in S.
      destruct S as [[-> [d [O ->]]]|[[x ->] ->]].
      * unfold ret. intros [= <- <-]. left. split; [reflexivity|].
        exists d. split; [assumption | reflexivity].
      * intros [= <- <-]. right. split; [discriminate | reflexivity].
  - unfold ret, err. intros [= <- <-]. right. split; [discriminate | reflexivity].
  - intros [= <- <-]. right. split; [discriminate | reflexivity].
Qed.

(** X17: an attach that does not answer with a bus and a unit, and a detach that
    does not answer None, leave the metadata store as it was: the record
    is written only on success. *)
Theorem failure_keeps_metadata (e : env) (vmdk_path : string) (v : vm) (w w' : world)
    (r : exc response) :
  (disk_attach e vmdk_path v w = (r, w') ->
   (forall u b, r <> Ret (RBusInfo u b)) -> kvstore w' = kvstore w)
  /\ (disk_detach e vmdk_path v w = (r, w') ->
      r <> Ret RNone -> kvstore w' = kvstore w).
Proof.
  split.
  - intros H N. apply disk_attach_kv in H.
    destruct H as [[[u [b ->]] _]|[_ H]]; [now destruct (N u b) | assumption].
  - intros H N. apply disk_detach_kv in H.
    destruct H as [[-> _]|[_ H]]; [contradiction | assumption].
Qed.

(** *** The status read back *)

Lemma well_formed_attached (v : vm) (d : dict) :
  well_formed (JObj d) = true -> well_formed (JObj (attached_record v d)) = true.
Proof.
  intros W. unfold attached_record. repeat apply well_formed_set; auto.
Qed.

Lemma getStatusAttached_dict (e : env) (st : store) (p : string) (d : dict)
    (status : json) :
  load e st p = JObj d -> dict_get STATUS d = Some status ->
  getStatusAttached e st p
  = Ret (is_str status ATTACHED,
         match dict_get ATTACHED_VM_UUID d with Some u => u | None => JNull end).
Proof.
  intros L S. unfold getStatusAttached, getAll. rewrite L.
  assert (T : truthy (JObj d) = true) by (destruct d; [discriminate | reflexivity]).
  rewrite T. cbn [negb contains getitem]. rewrite dict_mem_get, S.
  now destruct (dict_get ATTACHED_VM_UUID d).
Qed.

(** X18: after an attach that answered with a bus and a unit, on a volume whose
    side car can be written and read and held a record json writes back as
    it is (or nothing usable), the volume reads as attached, to the uuid of
    the VM. *)
Theorem attach_then_status (e : env) (vmdk_path : string) (v : vm) (w w' : world)
    (u b : string) :
  disk_attach e vmdk_path v w = (Ret (RBusInfo u b), w') ->
  well_formed (or_empty (load e (kvstore w) vmdk_path)) = true ->
  (get_kv_name e vmdk_path ∉ unwritable (kvstore w)) ->
  (get_kv_name e vmdk_path ∉ unreadable (kvstore w)) ->
  getStatusAttached e (kvstore w') vmdk_path = Ret (true, JStr (vm_uuid v)).
Proof.
  intros H W Hw Hr. apply disk_attach_kv in H.
  destruct H as [[_ [d [O K]]]|[N _]]; [|now destruct (N u b)].
  rewrite O in W. pose proof (well_formed_attached v d W) as Wa.
  destruct (save_ok e (kvstore w) vmdk_path _ Wa Hw) as [st' S].
  rewrite S in K. cbn [snd] in K.
  pose proof (load_save e _ _ _ _ Wa S Hr) as L. rewrite <- K in L.
  destruct (attached_record_says v d) as [A1 [A2 _]].
  rewrite (getStatusAttached_dict e _ _ _ _ L A1), A2. reflexivity.
Qed.

Lemma detached_record (d : dict) :
  well_formed (JObj d) = true ->
  exists d',
    del_attached_identity (JObj (dict_set STATUS (JStr DETACHED) d)) = JObj d'
    /\ well_formed (JObj d') = true
    /\ dict_get STATUS d' = Some (JStr DETACHED)
    /\ dict_get ATTACHED_VM_UUID d' = None.
Proof.
  intros W. set (d1 := dict_set STATUS (JStr DETACHED) d).
  assert (W1 : well_formed (JObj d1) = true) by now apply well_formed_set.
  assert (N1 : NoDup (List.map fst d1)).
  { cbn [well_formed] in W1. apply andb_true_iff in W1. now apply distinct_NoDup. }
  assert (S1 : dict_get STATUS d1 = Some (JStr DETACHED)) by apply dict_get_set_same.
  unfold del_attached_identity. cbn [delitem].
  destruct (dict_del ATTACHED_VM_UUID d1) as [d2|] eqn:D1.
  - destruct (dict_del_some _ _ _ N1 D1) as [M2 [N2 G2]].
    pose proof (well_formed_del _ _ _ W1 D1) as W2.
    assert (U2 : dict_get ATTACHED_VM_UUID d2 = None).
    { rewrite dict_mem_get in M2. now destruct (dict_get ATTACHED_VM_UUID d2). }
    cbn [delitem]. destruct (dict_del ATTACHED_VM_NAME d2) as [d3|] eqn:D2.
    + destruct (dict_del_some _ _ _ N2 D2) as [M3 [N3 G3]].
      exists d3. split; [reflexivity|]. split; [exact (well_formed_del _ _ _ W2 D2)|].
      split; [now rewrite G3, G2 by discriminate | now rewrite G3 by discriminate].
    + exists d2. split; [reflexivity|]. split; [assumption|].
      split; [now rewrite G2 by discriminate | assumption].
  - exists d1. split; [reflexivity|]. split; [assumption|]. split; [assumption|].
    apply dict_del_none in D1. rewrite dict_mem_get in D1.
    now destruct (dict_get ATTACHED_VM_UUID d1).
Qed.

(** X19: after a detach that answered None, under the same conditions, the
    volume reads as not attached and without owner, whatever the record
    held before. *)
Theorem detach_then_status (e : env) (vmdk_path : string) (v : vm) (w w' : world) :
  disk_detach e vmdk_path v w = (Ret RNone, w') ->
  well_formed (or_empty (load e (kvstore w) vmdk_path)) = true ->
  (get_kv_name e vmdk_path ∉ unwritable (kvstore w)) ->
  (get_kv_name e vmdk_path ∉ unreadable (kvstore w)) ->
  getStatusAttached e (kvstore w') vmdk_path = Ret (false, JNull).
Proof.
  intros H W Hw Hr. apply disk_detach_kv in H.
  destruct H as [[_ [d [O K]]]|[N _]]; [|contradiction].
  rewrite O in W. destruct (detached_record d W) as [d' [E [W' [S U]]]].
  rewrite E in K. unfold setAll in K.
  assert (T : truthy (JObj d') = true) by (destruct d'; [discriminate | reflexivity]).
  rewrite T in K.
  destruct (save_ok e (kvstore w) vmdk_path _ W' Hw) as [st' Sv].
  rewrite Sv in K. cbn [snd] in K.
  pose proof (load_save e _ _ _ _ W' Sv Hr) as L. rewrite <- K in L.
  rewrite (getStatusAttached_dict e _ _ _ _ L S), U. reflexivity.
Qed.

(** *** Attach, then detach *)

Lemma dict_set_same_value (k : string) (x : json) (d : dict) :
  dict_get k d = Some x -> dict_set k x d = d.
Proof.
  induction d as [|[k' v'] d IH]; simpl; [discriminate|].
  destruct (String.eqb_spec k' k) as [->|Hne].
  - now intros [= ->].
  - intros H. now rewrite IH.
Qed.

Lemma dict_set_twice (k : string) (x y : json) (d : dict) :
  dict_set k y (dict_set k x d) = dict_set k y d.
Proof.
  induction d as [|[k' v'] d IH]; simpl.
  - now rewrite String.eqb_refl.
  - destruct (String.eqb k' k) eqn:E; simpl; rewrite E; [reflexivity | now rewrite IH].
Qed.

Lemma dict_set_app_other (k : string) (x : json) (d t : dict) :
  dict_mem k d = true -> dict_set k x (d ++ t) = dict_set k x d ++ t.
Proof.
  induction d as [|[k' v'] d IH]; simpl; [discriminate|].
  destruct (String.eqb k' k); simpl; [reflexivity|].
  intros H. now rewrite IH.
Qed.

Lemma dict_del_last (k : string) (x : json) (d : dict) :
  dict_mem k d = false -> dict_del k (d ++ [(k, x)]) = Some d.
Proof.
  induction d as [|[k' v'] d IH]; simpl.
  - now rewrite String.eqb_refl.
  - destruct (String.eqb k' k); simpl; [discriminate|]. intros H. now rewrite IH.
Qed.

Lemma dict_del_before_last (k k' : string) (x y : json) (d : dict) :
  dict_mem k d = false -> k' <> k ->
  dict_del k (d ++ [(k, x); (k', y)]) = Some (d ++ [(k', y)]).
Proof.
  intros M Hne. induction d as [|[k0 v0] d IH]; simpl.
  - now rewrite String.eqb_refl.
  - simpl in M. destruct (String.eqb k0 k); simpl in *; [discriminate|].
    now rewrite IH.
Qed.

Lemma not_mem_not_In (k : string) (d : dict) :
  dict_mem k d = false -> ~ In k (List.map fst d).
Proof. intros M H. apply dict_mem_In in H. congruence. Qed.

(** The record after attach and detach: over a record that says detached
    and names no VM, what [setStatusAttached] writes and [setStatusDetached]
    then writes over it is the record itself. *)
Lemma detach_undoes_attach (v : vm) (d : dict) :
  dict_get STATUS d = Some (JStr DETACHED) ->
  dict_mem ATTACHED_VM_UUID d = false -> dict_mem ATTACHED_VM_NAME d = false ->
  del_attached_identity
    (JObj (dict_set STATUS (JStr DETACHED) (attached_record v d))) = JObj d.
Proof.
  intros S U N. unfold attached_record.
  set (d1 := dict_set STATUS (JStr ATTACHED) d).
  assert (U1 : dict_mem ATTACHED_VM_UUID d1 = false).
  { unfold d1. now rewrite dict_mem_get, dict_get_set_other, <- dict_mem_get by discriminate. }
  assert (N1 : dict_mem ATTACHED_VM_NAME d1 = false).
  { unfold d1. now rewrite dict_mem_get, dict_get_set_other, <- dict_mem_get by discriminate. }
  assert (S1 : dict_mem STATUS d1 = true).
  { unfold d1. now rewrite dict_mem_get, dict_get_set_same. }
  rewrite (dict_set_fresh ATTACHED_VM_UUID _ d1 (not_mem_not_In _ _ U1)).
  rewrite (dict_set_fresh ATTACHED_VM_NAME).
  2:{ rewrite map_app, in_app_iff. intros [H|[H|[]]];
      [now apply (not_mem_not_In _ _ N1) | discriminate]. }
  rewrite <- List.app_assoc. cbn [List.app].
  rewrite (dict_set_app_other STATUS _ d1 _ S1).
  unfold d1 at 1. rewrite dict_set_twice, (dict_set_same_value _ _ _ S).
  unfold del_attached_identity. cbn [delitem].
  rewrite (dict_del_before_last ATTACHED_VM_UUID ATTACHED_VM_NAME _ _ d U)
    by discriminate.
  cbn [delitem]. now rewrite (dict_del_last ATTACHED_VM_NAME _ d N).
Qed.

(** X20: attach, then detach, leaves the metadata as creation made it: when the
    record says detached and names no VM, as after [createVMDK], and the
    side car can be written and read, an attach that succeeds followed by a
    detach that succeeds leaves the very record that was there before. *)
Theorem attach_detach_restores_record (e : env) (vmdk_path : string) (v v' : vm)
    (w w1 w2 : world) (u b : string) (d : dict) :
  disk_attach e vmdk_path v w = (Ret (RBusInfo u b), w1) ->
  disk_detach e vmdk_path v' w1 = (Ret RNone, w2) ->
  load e (kvstore w) vmdk_path = JObj d ->
  well_formed (JObj d) = true ->
  dict_get STATUS d = Some (JStr DETACHED) ->
  dict_mem ATTACHED_VM_UUID d = false -> dict_mem ATTACHED_VM_NAME d = false ->
  (get_kv_name e vmdk_path ∉ unwritable (kvstore w)) ->
  (get_kv_name e vmdk_path ∉ unreadable (kvstore w)) ->
  load e (kvstore w2) vmdk_path = JObj d.
Proof.
  intros A D L W S U N Hw Hr.
  assert (O : or_empty (load e (kvstore w) vmdk_path) = JObj d).
  { rewrite L. unfold or_empty. destruct d; [discriminate | reflexivity]. }
  apply disk_attach_kv in A.
  destruct A as [[_ [d0 [O0 K1]]]|[Nn _]]; [|now destruct (Nn u b)].
  rewrite O in O0. injection O0 as <-.
  pose proof (well_formed_attached v d W) as Wa.
  destruct (save_ok e (kvstore w) vmdk_path _ Wa Hw) as [st1 S1].
  rewrite S1 in K1. cbn [snd] in K1.
  pose proof (load_save e _ _ _ _ Wa S1 Hr) as L1. rewrite <- K1 in L1.
  destruct (save_writes _ _ _ _ _ S1) as [_ [Hr1 [Hw1 _]]]. rewrite <- K1 in Hr1, Hw1.
  apply disk_detach_kv in D.
  destruct D as [[_ [d1 [O1 K2]]]|[Nn _]]; [|contradiction].
  rewrite L1 in O1. unfold or_empty in O1.
  assert (Ta : truthy (JObj (attached_record v d)) = true) by apply truthy_set.
  rewrite Ta in O1. cbn [negb] in O1. injection O1 as <-.
  rewrite (detach_undoes_attach v d S U N) in K2. unfold setAll in K2.
  assert (T : truthy (JObj d) = true) by (destruct d; [discriminate | reflexivity]).
  rewrite T in K2.
  assert (Hw' : get_kv_name e vmdk_path ∉ unwritable (kvstore w1)) by now rewrite Hw1.
  assert (Hr' : get_kv_name e vmdk_path ∉ unreadable (kvstore w1)) by now rewrite Hr1.
  destruct (save_ok e (kvstore w1) vmdk_path _ W Hw') as [st2 S2].
  rewrite S2 in K2. cbn [snd] in K2.
  pose proof (load_save e _ _ _ _ W S2 Hr') as L2. now rewrite <- K2 in L2.
Qed.

(** *** The device found, and the requests made *)


(** X22: what attach and detach ask of the hypervisor: attach makes at most two
    requests, each of one change, that add a controller or add the image of
    the volume as a disk, and never remove a device; detach makes at most
    one request, which removes the device [findDeviceByPath] found. *)
Theorem requests_of_attach_and_detach (e : env) (vmdk_path : string) (v : vm)
    (w w' : world) (r : exc response) :
  (disk_attach e vmdk_path v w = (r, w') ->
   exists new,
     reqs w' = reqs w ++ new /\ (List.length new <= 2)%nat
     /\ forall spec, In spec new ->
          exists c, spec = [c]
                    /\ ((exists key bus, c = AddController key bus)
                        \/ exists u ck, c = AddDisk ("[] " ++ vmdk_path) u ck))
  /\ (disk_detach e vmdk_path v w = (r, w') ->
      reqs w' = reqs w
      \/ exists d, findDeviceByPath e vmdk_path (hw w) = Ret (Some d)
                   /\ reqs w' = reqs w ++ [[RemoveDevice d]]).
Proof.
  split.
  - intros H. apply AttachFacts.disk_attach_reqs in H.
    destruct H as [[key [bus [rest [_ [E|[u [E _]]]]]]]
                  |[_ [[_ [_ ->]]|[[_ [_ ->]]|[_ [bus [_ [E|[u [E _]]]]]]]]]].
    + exists []. rewrite List.app_nil_r. split; [assumption|].
      split; [simpl; lia | intros ? []].
    + eexists. split; [exact E|]. split; [simpl; lia|].
      intros spec [<-|[]]. eexists. split; [reflexivity|]. right. eauto.
    + exists []. rewrite List.app_nil_r. split; [reflexivity|].
      split; [simpl; lia | intros ? []].
    + exists []. rewrite List.app_nil_r. split; [reflexivity|].
      split; [simpl; lia | intros ? []].
    + eexists. split; [exact E|]. split; [simpl; lia|].
      intros spec [<-|[]]. eexists. split; [reflexivity|]. left. eauto.
    + eexists. split; [exact E|]. split; [simpl; lia|].
      intros spec [<-|[<-|[]]]; eexists; (split; [reflexivity|]);
        [left | right]; eauto.
  - unfold disk_detach, bind, get_world, lift.
    destruct (findDeviceByPath e vmdk_path (hw w)) as [[dev|]|x].
    + unfold ReconfigVM_Task.
      destruct (reconfig e (hw w) _) as [msg|devs].
      * unfold ret. intros [= <- <-]. right. now exists dev.
      * destruct (setStatusDetached e vmdk_path _) as [r1 w1] eqn:S.
        apply DetachFacts.setStatusDetached_world in S.
        destruct S as [_ [S _]]. cbn [reqs with_hw with_reqs] in S.
        destruct r1; unfold ret; intros [= <- <-]; right; now exists dev.
    + unfold ret. intros [= <- <-]. now left.
    + intros [= <- <-]. now left.
Qed.

(** *** Faults of the hypervisor *)

(** X23: how a fault of the hypervisor is answered.  When the request that adds
    the paravirtual controller faults, the answer carries, under Error, not
    a text but the pair of the format [Failed to add PVSCSI Controller: %s]
    and the message of the fault, and the disk is not asked for.  When the
    request that adds the disk faults, the answer is the message of the
    fault, followed by the volume and the owner the metadata names when the
    metadata says attached, to another uuid than the one of the VM.  In both
    cases the metadata is as before. *)
Theorem attach_faults_reported (e : env) (vmdk_path : string) (v : vm) (w : world)
    (msg : string) :
  (forall bus,
     List.filter is_pvscsi (controllers (hw w)) = [] ->
     (List.length (controllers (hw w)) < 4)%nat ->
     set_pop e (bus_slots (hw w)) = Some bus ->
     reconfig e (hw w) [AddController (bus + 1000) bus] = inl msg ->
     disk_attach e vmdk_path v w
     = (Ret (RErrorPair "Failed to add PVSCSI Controller: %s" msg),
        with_reqs w (reqs w ++ [[AddController (bus + 1000) bus]])))
  /\ (forall key bus rest u attached uuid,
        List.filter is_pvscsi (controllers (hw w))
        = VirtualSCSIController ParaVirtual key bus :: rest ->
        findDeviceByPath e vmdk_path (hw w) = Ret None ->
        free_units (hw w) key <> [] ->
        set_pop e (free_units (hw w) key) = Some u ->
        reconfig e (hw w) [AddDisk ("[] " ++ vmdk_path) u key] = inl msg ->
        getStatusAttached e (kvstore w) vmdk_path = Ret (attached, uuid) ->
        disk_attach e vmdk_path v w
        = (Ret (err (if attached && negb (is_str uuid (vm_uuid v))
                     then (msg ++ " disk " ++ vmdk_path ++ " already attached to VM=" ++
                           format_value e uuid)%string
                     else msg)),
           with_reqs w (reqs w ++ [[AddDisk ("[] " ++ vmdk_path) u key]]))).
Proof.
  split.
  - intros bus F C P R. unfold disk_attach, bind, get_world.
    fold (controllers (hw w)). rewrite F.
    destruct (Z.leb_spec max_scsi_controllers (Z.of_nat (List.length (controllers (hw w)))))
      as [H|_]; [unfold max_scsi_controllers in H; lia|].
    fold (bus_slots (hw w)). rewrite P. unfold ReconfigVM_Task.
    unfold offset_from_bus_number. now rewrite R.
  - intros key bus rest u attached uuid F D N P R G.
    unfold disk_attach, bind, get_world. fold (controllers (hw w)). rewrite F.
    unfold place_disk, bind, get_world, lift. rewrite D. cbn [not_slot].
    fold (free_units (hw w) key).
    destruct (free_units (hw w) key) as [|x l] eqn:Fr; [contradiction|].
    cbn [List.length Nat.eqb]. rewrite P.
    unfold attach_at, bind, ReconfigVM_Task, get_world, lift. rewrite R.
    cbn [kvstore with_reqs]. rewrite G.
    now destruct (attached && negb (is_str uuid (vm_uuid v))).
Qed.

Import Testbed Hosts.

Lemma failure_keeps_metadata_witness :
  let w := world_of [] (snd (save host empty_store v1_path (JObj record0))) in
  kvstore (snd (disk_detach host v1_path vm1 w)) = kvstore w.
Proof.
  intros w.
  apply (proj2 (failure_keeps_metadata host v1_path vm1 w
                  (snd (disk_detach host v1_path vm1 w))
                  (fst (disk_detach host v1_path vm1 w)))).
  - apply surjective_pairing.
  - vm_compute. discriminate.
Defined.

Lemma attach_then_status_witness :
  let w := world_of [VirtualSCSIController ParaVirtual 1000 0]
             (snd (save host empty_store v1_path (JObj record0))) in
  getStatusAttached host (kvstore (snd (disk_attach host v1_path vm1 w))) v1_path
  = Ret (true, JStr (vm_uuid vm1)).
Proof.
  intros w.
  apply (attach_then_status host v1_path vm1 w _ "0" "0").
  - apply injective_projections; [vm_compute; reflexivity | reflexivity].
  - vm_compute. reflexivity.
  - vm_compute. intros H. discriminate H.
  - vm_compute. intros H. discriminate H.
Defined.

Lemma detach_then_status_witness :
  let w := world_of [VirtualSCSIController ParaVirtual 1000 0; v1_disk 1000 0]
             (snd (save host empty_store v1_path (JObj (attached_record vm1 record0)))) in
  getStatusAttached host (kvstore (snd (disk_detach host v1_path vm1 w))) v1_path
  = Ret (false, JNull).
Proof.
  intros w.
  apply (detach_then_status host v1_path vm1 w _).
  - apply injective_projections; [vm_compute; reflexivity | reflexivity].
  - vm_compute. reflexivity.
  - vm_compute. intros H. discriminate H.
  - vm_compute. intros H. discriminate H.
Defined.

Lemma attach_detach_restores_record_witness :
  let w := world_of [VirtualSCSIController ParaVirtual 1000 0]
             (snd (save host empty_store v1_path (JObj record0))) in
  let w1 := snd (disk_attach host v1_path vm1 w) in
  let w2 := snd (disk_detach host v1_path vm1 w1) in
  load host (kvstore w2) v1_path = JObj record0.
Proof.
  intros w w1 w2.
  apply (attach_detach_restores_record host v1_path vm1 vm1 w w1 w2 "0" "0" record0).
  - apply injective_projections; [vm_compute; reflexivity | reflexivity].
  - apply injective_projections; [vm_compute; reflexivity | reflexivity].
  - vm_compute. reflexivity.
  - reflexivity.
  - reflexivity.
  - reflexivity.
  - reflexivity.
  - vm_compute. intros H. discriminate H.
  - vm_compute. intros H. discriminate H.
Defined.


Lemma requests_of_attach_and_detach_witness :
  let w := world_of [VirtualSCSIController LsiLogic 1000 0] empty_store in
  exists new,
    reqs (snd (disk_attach host v1_path vm1 w)) = reqs w ++ new
    /\ (List.length new <= 2)%nat
    /\ forall spec, In spec new ->
         exists c, spec = [c]
                   /\ ((exists key bus, c = AddController key bus)
                       \/ exists u ck, c = AddDisk ("[] " ++ v1_path) u ck).
Proof.
  intros w.
  apply (proj1 (requests_of_attach_and_detach host v1_path vm1 w
                  (snd (disk_attach host v1_path vm1 w))
                  (fst (disk_attach host v1_path vm1 w)))).
  apply surjective_pairing.
Defined.

Lemma attach_faults_reported_witness :
  disk_attach host_faulty v1_path vm1 (world_of [] empty_store)
  = (Ret (RErrorPair "Failed to add PVSCSI Controller: %s" "The operation is not allowed"),
     with_reqs (world_of [] empty_store)
       (reqs (world_of [] empty_store) ++ [[AddController (0 + 1000) 0]])).
Proof.
  apply (proj1 (attach_faults_reported host_faulty v1_path vm1 (world_of [] empty_store)
                  "The operation is not allowed") 0).
  - reflexivity.
  - simpl. lia.
  - reflexivity.
  - reflexivity.
Defined.

End AttachMore.
(** ** More on the receive loop *)

Module LoopMore.
Import PyStr PyStrFacts PyLib Json JsonFacts Ops Loop Spec Notions.
Local Open Scope list_scope.

Lemma well_formed_response (r : response) : well_formed (json_of_response r) = true.
Proof.
  destruct r as [|msg|fmt msg|u b|names]; try reflexivity.
  unfold json_of_response. cbn [value_of_response json_of_value well_formed].
  induction names as [|n names IH]; [reflexivity|].
  cbn [List.map forallb]. now rewrite IH.
Qed.

(** The list of volumes comes back as it was sent. *)
Lemma volumes_read_back (names : list string) :
  value_of_json (json_of_response (RVolumes names)) = value_of_response (RVolumes names).
Proof.
  unfold json_of_response. cbn [value_of_response json_of_value value_of_json].
  f_equal. induction names as [|n names IH]; [reflexivity|].
  cbn [List.map]. now rewrite IH.
Qed.

(** X24: every reply is JSON that reads back: what the loop sends for a
    response is taken by [json.loads], and what it gives is the value that
    was sent, None, the dict with the one key Error, the dict of unit and
    bus or the list of volumes, but for the error that holds a tuple: a
    tuple is written as an array, so it comes back as the list of its two
    strings, which is not the value sent. *)
Theorem every_reply_reads_back (r : response) :
  exists j,
    loads (dumps (json_of_response r)) = Some j
    /\ value_of_json j
       = match r with
         | RErrorPair fmt msg => PDict [("Error", PList [PStr fmt; PStr msg])]
         | _ => value_of_response r
         end
    /\ (value_of_json j = value_of_response r <-> forall fmt msg, r <> RErrorPair fmt msg)
    /\ match r with
       | RError msg => value_of_response r = PDict [("Error", PStr msg)]
       | RNone => dumps (json_of_response r) = "null"
       | _ => True
       end.
Proof.
  exists (json_of_response r). split.
  - pose proof (loads_dump_padded (json_of_response r) [] (well_formed_response r) eq_refl)
      as H.
    now rewrite List.app_nil_r in H.
  - destruct r as [|msg|fmt msg|u b|names].
    + split; [reflexivity|]. split; [|reflexivity]. split; [discriminate | reflexivity].
    + split; [reflexivity|]. split; [|reflexivity]. split; [discriminate | reflexivity].
    + split; [reflexivity|]. split; [|exact I]. split.
      * discriminate.
      * intros H. now destruct (H fmt msg).
    + split; [reflexivity|]. split; [|exact I]. split; [discriminate | reflexivity].
    + split; [apply volumes_read_back|]. split; [|exact I].
      split; [discriminate | intros _; apply volumes_read_back].
Qed.

Section Serving.
Variable execute : dispatcher.
Variable e : env.

Lemma serve_one_turn (op : vmci_op) (skip_count : Z) (w : world) :
  match serve_one execute e op skip_count w with
  | (Skip _, _) => is_received op = false
  | (Reply c _, _) => is_received op = true /\ c = op_ret op
  | (Stop _, _) => True
  end.
Proof.
  unfold serve_one, is_received.
  destruct (op_errno op =? ECONNABORTED)%Z; [reflexivity|].
  destruct (op_ret op =? VMCI_ERROR)%Z.
  - now destruct (skip_count - 1 <=? 0)%Z.
  - destruct (vmm_group_info e (op_cartel op)) as [[[vm_name cfg] uuid]|x]; [|exact I].
    destruct (format_uuid uuid); [|exact I].
    destruct (loads (op_buf op)); [|now split].
    destruct (run_request _ _ _ _ _ _) as [[r|x] w1]; [now split | exact I].
Qed.

Lemma serve_replies (ops : list vmci_op) :
  forall skip_count w n out w',
    serve execute e ops skip_count w = (Serving n, out, w') ->
    List.map fst out = List.map op_ret (List.filter is_received ops).
Proof.
  induction ops as [|op ops IH]; intros skip_count w n out w'; cbn [serve].
  - now intros [= <- <- <-].
  - pose proof (serve_one_turn op skip_count w) as T.
    destruct (serve_one execute e op skip_count w) as [[k|c s|x] w1].
    + cbn [List.filter]. rewrite T. apply IH.
    + destruct T as [T ->]. cbn [List.filter]. rewrite T.
      destruct (serve execute e ops MAX_SKIP_COUNT w1) as [[st out1] w2] eqn:S.
      intros [= -> <- <-]. cbn [List.map fst]. f_equal. exact (IH _ _ _ _ _ S).
    + discriminate.
Qed.

End Serving.

(** X25: one reply for each request: when the loop has gone through the
    operations received without stopping, it has replied once to every
    request received (neither a failure nor a client without privilege), in
    the order received and on the handle of the request, and to nothing
    else. *)
Theorem one_reply_per_request (execute : dispatcher) (e : env) (ops : list vmci_op)
    (skip_count n : Z) (w w' : world) (out : list (Z * string)) :
  serve execute e ops skip_count w = (Serving n, out, w') ->
  List.map fst out = List.map op_ret (List.filter is_received ops).
Proof. apply serve_replies. Qed.

(** X26: a request that is JSON but not a dict, or a dict without the key
    details, ends the loop: the exception of the subscript (TypeError, or
    KeyError) is not caught, and no reply is sent. *)
Theorem request_without_details_stops_loop (execute : dispatcher) (e : env)
    (op : vmci_op) (rest : list vmci_op) (skip_count : Z) (w : world)
    (vm_name cfg_path uuid vm_uuid : string) (req : json) :
  received op ->
  vmm_group_info e (op_cartel op) = Ret (vm_name, cfg_path, uuid) ->
  format_uuid uuid = Ret vm_uuid ->
  loads (op_buf op) = Some req ->
  ((forall d, req <> JObj d) ->
   serve execute e (op :: rest) skip_count w = (Stopped TypeError, [], w))
  /\ (forall d, req = JObj d -> dict_get "details" d = None ->
      serve execute e (op :: rest) skip_count w = (Stopped KeyError, [], w)).
Proof.
  intros [R E] G U L. cbn [serve]. unfold serve_one.
  destruct (Z.eqb_spec (op_errno op) ECONNABORTED); [contradiction|].
  destruct (Z.eqb_spec (op_ret op) VMCI_ERROR); [contradiction|].
  rewrite G, U, L. unfold run_request, bind, lift. split.
  - intros N. destruct req; try reflexivity. now destruct (N items).
  - intros d -> D. cbn [KV.getitem]. now rewrite D.
Qed.

Import Testbed Hosts.

Lemma request_without_details_stops_loop_witness :
  handleVmciRequests host [empty_request; not_json] (world_of [] empty_store)
  = (Stopped KeyError, [], world_of [] empty_store).
Proof.
  unfold handleVmciRequests.
  apply (proj2 (request_without_details_stops_loop (execute_decoded host) host
                  empty_request [not_json] MAX_SKIP_COUNT (world_of [] empty_store)
                  "vm1" "/vmfs/volumes/ds1/vm1/vm1.vmx"
                  "56 4d ac 12 b1 a0 f7 35-0d f3 bc eb 00 b3 03 40"
                  "564dac12-b1a0-f735-0df3-bceb00b30340" (JObj [])
                  ltac:(split; discriminate) eq_refl eq_refl eq_refl) [] eq_refl).
  reflexivity.
Defined.

Lemma one_reply_per_request_witness :
  List.map fst [(7, dumps (JObj [("Error", JStr "Failed to parse json '{cmd'.")]))]
  = List.map op_ret
      (List.filter is_received [failed_receive; aborted_receive; not_json; failed_receive]).
Proof.
  apply (one_reply_per_request (execute_decoded host) host
           [failed_receive; aborted_receive; not_json; failed_receive]
           MAX_SKIP_COUNT 15 (world_of [] empty_store) (world_of [] empty_store)).
  vm_compute. reflexivity.
Defined.

End LoopMore.

(** ** The dispatcher on decoded values *)

Module DecodedFacts.
Import PyStr PyStrFacts PyLib Json Validation Ops Dispatch.
Local Open Scope list_scope.

Definition items_of (opts : options) : dict :=
  List.map (fun kv => (fst kv, JStr (snd kv))) opts.

Lemma dict_get_items (k : string) (opts : options) :
  dict_get k (items_of opts) = option_map JStr (opt_get k opts).
Proof.
  induction opts as [|[k' v] opts IH]; [reflexivity|].
  cbn. destruct (String.eqb k' k); [reflexivity | exact IH].
Qed.

Lemma keys_items (opts : options) :
  List.map fst (items_of opts) = List.map fst opts.
Proof. unfold items_of. rewrite map_map. reflexivity. Qed.

(** On a dict of strings the validation is the one of [validate_opts]. *)
Lemma validate_opts_value_strings (e : env) (opts : options) (vmdk_path : string) :
  validate_opts_value e (items_of opts) vmdk_path
  = Ret (validate_opts e opts vmdk_path).
Proof.
  unfold validate_opts_value, validate_opts. rewrite keys_items.
  destruct (negb (_ =? 0)%nat); [reflexivity|].
  rewrite !dict_get_items.
  destruct (opt_get KV.SIZE opts) as [size|]; cbn [option_map validate_size_value check_exc check].
  - destruct (validate_size size) as [x|[]]; [reflexivity|]. cbn [check].
    destruct (opt_get KV.VSAN_POLICY_NAME opts) as [name|];
      cbn [option_map validate_vsan_policy_name_value check_exc check].
    + destruct (validate_vsan_policy_name e name vmdk_path) as [x|[]]; [reflexivity|].
      cbn [check]. now destruct (opt_get KV.DISK_ALLOCATION_FORMAT opts).
    + now destruct (opt_get KV.DISK_ALLOCATION_FORMAT opts).
  - destruct (opt_get KV.VSAN_POLICY_NAME opts) as [name|];
      cbn [option_map validate_vsan_policy_name_value check_exc check].
    + destruct (validate_vsan_policy_name e name vmdk_path) as [x|[]]; [reflexivity|].
      cbn [check]. now destruct (opt_get KV.DISK_ALLOCATION_FORMAT opts).
    + now destruct (opt_get KV.DISK_ALLOCATION_FORMAT opts).
Qed.

Lemma make_create_cmd_value_strings (e : env) (opts : options) (vmdk_path : string) :
  make_create_cmd_value e (items_of opts) vmdk_path
  = Ret (make_create_cmd e opts vmdk_path).
Proof.
  unfold make_create_cmd_value, make_create_cmd. rewrite !dict_get_items.
  destruct (opt_get "size" opts), (opt_get KV.DISK_ALLOCATION_FORMAT opts),
    (opt_get KV.VSAN_POLICY_NAME opts); reflexivity.
Qed.

Lemma createVMDK_value_strings (e : env) (vmdk_path vm_name vol_name : string)
    (opts : options) (w : world) :
  createVMDK_value e vmdk_path vm_name vol_name (json_of_options opts) w
  = createVMDK e vmdk_path vm_name vol_name opts w.
Proof.
  unfold createVMDK_value, createVMDK, json_of_options, bind, lift, os_path_isfile.
  fold (items_of opts).
  destruct (isfile e (cmds w) vmdk_path); [reflexivity|].
  rewrite validate_opts_value_strings.
  destruct (validate_opts e opts vmdk_path) as [[msg]|[]]; [reflexivity|].
  rewrite make_create_cmd_value_strings. reflexivity.
Qed.

Lemma is_str_eqb (c s : string) : is_str (JStr c) s = String.eqb c s.
Proof. reflexivity. Qed.

Lemma run_on_datastore_value_strings (e : env) (vm_uuid vm_name cmd vol_name : string)
    (opts : options) (datastore : string) (w : world) :
  run_on_datastore_value e vm_uuid vm_name (JStr cmd) vol_name (json_of_options opts)
    datastore w
  = run_on_datastore e vm_uuid vm_name cmd vol_name opts datastore w.
Proof.
  unfold run_on_datastore_value, run_on_datastore, bind.
  destruct (get_vol_path e datastore w) as [[[path|]|x] w1]; try reflexivity.
  rewrite !is_str_eqb.
  destruct (String.eqb cmd "get"); [reflexivity|].
  destruct (String.eqb cmd "create"); [apply createVMDK_value_strings|].
  reflexivity.
Qed.

(** Any options do for a command that does not create. *)
Lemma run_on_datastore_value_other (e : env) (vm_uuid vm_name cmd vol_name : string)
    (opts : json) (datastore : string) (w : world) :
  cmd <> "create"%string ->
  run_on_datastore_value e vm_uuid vm_name (JStr cmd) vol_name opts datastore w
  = run_on_datastore e vm_uuid vm_name cmd vol_name [] datastore w.
Proof.
  intros N. unfold run_on_datastore_value, run_on_datastore, bind.
  destruct (get_vol_path e datastore w) as [[[path|]|x] w1]; try reflexivity.
  rewrite !is_str_eqb.
  destruct (String.eqb cmd "get"); [reflexivity|].
  destruct (String.eqb_spec cmd "create"); [contradiction|].
  reflexivity.
Qed.

(** X27: the dispatcher on decoded values is [executeRequest] where the
    request is made of strings, and it looks at a value only where it
    needs it: the list command is answered whatever the name and the
    options are; a command other than create is answered whatever the
    options are; a name that is no string raises TypeError when the
    command is not list; and a command that is no string raises TypeError
    only after the name was parsed and the volume directory found. *)
Theorem decoded_request_is_looked_at_lazily (e : env)
    (vm_uuid vm_name config_path : string) (w : world) :
  (forall cmd name opts,
      executeRequest_value e vm_uuid vm_name config_path
        (JStr cmd) (JStr name) (json_of_options opts) w
      = executeRequest e vm_uuid vm_name config_path cmd name opts w)
  /\ (forall name opts,
        executeRequest_value e vm_uuid vm_name config_path (JStr "list") name opts w
        = executeRequest e vm_uuid vm_name config_path "list" "" [] w)
  /\ (forall cmd name opts,
        cmd <> "create"%string ->
        executeRequest_value e vm_uuid vm_name config_path (JStr cmd) (JStr name) opts w
        = executeRequest e vm_uuid vm_name config_path cmd name [] w)
  /\ (forall cmd name opts vm_datastore,
        get_datastore_name e config_path = Ret vm_datastore ->
        is_str cmd "list" = false ->
        (forall s, name <> JStr s) ->
        executeRequest_value e vm_uuid vm_name config_path cmd name opts w
        = (Raise TypeError, w))
  /\ (forall cmd name opts vm_datastore vol_name,
        get_datastore_name e config_path = Ret vm_datastore ->
        (forall s, cmd <> JStr s) ->
        parse_vol_name name = inr (vol_name, None) ->
        isdir e (cmds w)
          (path_join (path_join "/vmfs/volumes" vm_datastore) DOCK_VOLS_DIR) = true ->
        executeRequest_value e vm_uuid vm_name config_path cmd (JStr name) opts w
        = (Raise TypeError, w)).
Proof.
  split; [|split; [|split; [|split]]].
  - intros cmd name opts. unfold executeRequest_value, executeRequest, bind, lift.
    destruct (get_datastore_name e config_path) as [vm_datastore|x]; [|reflexivity].
    rewrite is_str_eqb. destruct (String.eqb cmd "list"); [reflexivity|].
    destruct (parse_vol_name name) as [[msg]|[vol_name [ds|]]]; [reflexivity| |].
    + destruct (negb (mem ds (known_datastores e))); [reflexivity|].
      apply run_on_datastore_value_strings.
    + apply run_on_datastore_value_strings.
  - intros name opts. unfold executeRequest_value, executeRequest, bind, lift.
    destruct (get_datastore_name e config_path) as [vm_datastore|x]; reflexivity.
  - intros cmd name opts N. unfold executeRequest_value, executeRequest, bind, lift.
    destruct (get_datastore_name e config_path) as [vm_datastore|x]; [|reflexivity].
    rewrite is_str_eqb. destruct (String.eqb cmd "list"); [reflexivity|].
    destruct (parse_vol_name name) as [[msg]|[vol_name [ds|]]]; [reflexivity| |].
    + destruct (negb (mem ds (known_datastores e))); [reflexivity|].
      now apply run_on_datastore_value_other.
    + now apply run_on_datastore_value_other.
  - intros cmd name opts vm_datastore D L N.
    unfold executeRequest_value, bind, lift. rewrite D, L.
    destruct name; try reflexivity. now destruct (N s).
  - intros cmd name opts vm_datastore vol_name D N P Dir.
    unfold executeRequest_value, bind, lift. rewrite D.
    assert (L : forall s, is_str cmd s = false).
    { intros s. destruct cmd; try reflexivity. now destruct (N s0). }
    rewrite L, P. unfold run_on_datastore_value, get_vol_path, bind, os_path_isdir.
    cbv zeta. rewrite Dir. unfold ret. rewrite !L.
    destruct cmd; try reflexivity. now destruct (N s).
Qed.

Import Testbed Loop.

(** Three requests on the host of [Testbed]: a list with a number for a
    name is answered; a get with no string for a name, and a command that
    is a number, end the loop with TypeError. *)
Lemma decoded_request_examples :
  let w := world_of [] empty_store in
  let request cmd name :=
    {| op_ret := 7; op_errno := 0; op_cartel := 1234;
       op_buf := dumps (JObj [("cmd", cmd); ("details", JObj [("Name", name)])]) |} in
  handleVmciRequests host [request (JStr "list") (JInt 5)] w
  = (Serving MAX_SKIP_COUNT, [(7%Z, "[]"%string)], w)
  /\ handleVmciRequests host [request (JStr "get") JNull] w = (Stopped TypeError, [], w)
  /\ handleVmciRequests host [request (JInt 5) (JStr "v1")] w = (Stopped TypeError, [], w).
Proof. vm_compute. repeat split; reflexivity. Qed.

End DecodedFacts.
